(** * Celebium browser session manager: a shallow embedding

    This development embeds [SeleniumManager]
    (python-server/app/services/selenium_manager.py) into Rocq and proves
    properties of its session registry, its launch-argument builder, its
    endpoint resolver, its fingerprint injector and its statistics probe;
    then of its interaction bridge, and of the fingerprint generator
    (python-server/app/services/fingerprint_service.py) whose output the
    manager launches.

    Python code that talks to the outside (SeleniumBase, the DevTools
    protocol, [requests], [psutil], [random]) is embedded as a state and
    exception monad over a [World]; what the outside answers is read from an
    [Env] of oracles indexed by a logical clock, so every theorem holds for
    every behaviour of the outside.

    What the embedding takes as given:
    - calls are made one after the other (no threads);
    - strings are sequences of bytes, and [lower] acts on ASCII letters;
    - [float], [int], float arithmetic and [round] are those of an abstract
      [PyRuntime];
    - [print], [datetime.now] and attribute reads other than
      [driver.capabilities] do not raise;
    - the registry is a [dict]: an association list in insertion order;
    - [random.choice] takes the next draw of the stream [random.randint]
      reads, brought into the indices of its sequence. *)

From Stdlib Require Import List String Ascii ZArith Lia Bool Arith DecimalString QArith Qround.
Import ListNotations.
Open Scope string_scope.
Open Scope Z_scope.
Set Warnings "-register-all".

(** ** Python strings *)

Module PyStr.

(** [s.split(sep)] for a one-character separator: always at least one
    piece, one more than the number of separators. *)
Fixpoint split (sep : ascii) (s : string) : list string :=
  match s with
  | EmptyString => [EmptyString]
  | String c rest =>
      if Ascii.eqb c sep then EmptyString :: split sep rest
      else match split sep rest with
           | piece :: pieces => String c piece :: pieces
           | [] => [String c EmptyString]
           end
  end.

(** [sep.join(pieces)]. *)
Fixpoint join (sep : string) (pieces : list string) : string :=
  match pieces with
  | [] => EmptyString
  | [p] => p
  | p :: rest => p ++ sep ++ join sep rest
  end.

(** [c in s] for a character [c]. *)
Fixpoint has_char (c : ascii) (s : string) : bool :=
  match s with
  | EmptyString => false
  | String d rest => Ascii.eqb d c || has_char c rest
  end.

(** [sub in s]. *)
Fixpoint contains (sub s : string) : bool :=
  String.prefix sub s ||
  match s with
  | EmptyString => false
  | String _ rest => contains sub rest
  end.

Definition lower_ascii (c : ascii) : ascii :=
  let n := nat_of_ascii c in
  if (Nat.leb 65 n && Nat.leb n 90)%bool then ascii_of_nat (n + 32) else c.

(** [s.lower()] on ASCII text. *)
Fixpoint lower (s : string) : string :=
  match s with
  | EmptyString => EmptyString
  | String c rest => String (lower_ascii c) (lower rest)
  end.

(** [str(n)] for an [int]. *)
Definition of_int (n : Z) : string := NilZero.string_of_int (Z.to_int n).

(** Truthiness of a [str]. *)
Definition truthy (s : string) : bool :=
  match s with EmptyString => false | _ => true end.

(** Truthiness of an [Optional[str]]. *)
Definition opt_truthy (o : option string) : bool :=
  match o with Some s => truthy s | None => false end.

Definition nl : string := String (ascii_of_nat 10) EmptyString.

(** A block of text given line by line. *)
Definition text (lines : list string) : string := join nl lines.

End PyStr.

(** ** Python values, exceptions and dictionaries *)

(** The values a decoded JSON document, or an attribute that is not
    statically typed, can hold. *)
Inductive PyVal : Type :=
| PNone
| PBool (b : bool)
| PInt (n : Z)
| PStr (s : string)
| PList (items : list PyVal)
| PDict (entries : list (string * PyVal)).

(** An exception object: its class name, its message, and whether the class
    derives from [Exception] (as opposed to [BaseException] only, such as
    [KeyboardInterrupt]). *)
Record PyExc : Type := mkExc {
  exc_class : string;
  exc_msg : string;
  exc_is_Exception : bool
}.

Definition Exception (msg : string) : PyExc := mkExc "Exception" msg true.
Definition ValueError (msg : string) : PyExc := mkExc "ValueError" msg true.
Definition AttributeError (msg : string) : PyExc := mkExc "AttributeError" msg true.

(** [except Exception] and the bare [except:]. *)
Definition except_Exception (e : PyExc) : bool := exc_is_Exception e.
Definition except_all (e : PyExc) : bool := true.

(** A Python [dict] with string keys: bindings in insertion order. *)
Module PyDict.
Section Ops.
Context {V : Type}.

Definition t := list (string * V).

Fixpoint get (k : string) (d : t) : option V :=
  match d with
  | [] => None
  | (k', v) :: rest => if String.eqb k k' then Some v else get k rest
  end.

(** [k in d]. *)
Definition mem (k : string) (d : t) : bool :=
  match get k d with Some _ => true | None => false end.

(** [d[k] = v]: an existing key keeps its place, a new one goes last. *)
Fixpoint set (k : string) (v : V) (d : t) : t :=
  match d with
  | [] => [(k, v)]
  | (k', v') :: rest =>
      if String.eqb k k' then (k', v) :: rest else (k', v') :: set k v rest
  end.

(** [del d[k]]. *)
Definition del (k : string) (d : t) : t :=
  filter (fun kv => negb (String.eqb k (fst kv))) d.

(** [list(d.keys())]. *)
Definition keys (d : t) : list string := map fst d.

(** [len(d)]. *)
Definition len (d : t) : Z := Z.of_nat (List.length d).

(** Keys are unique in a dictionary built by [set] and [del]. *)
Definition wf (d : t) : Prop := NoDup (keys d).
End Ops.
Arguments t : clear implicits.
End PyDict.

(** ** The Python runtime the manager relies on

    Floating-point parsing, arithmetic and rounding belong to the
    interpreter; the embedding takes them as an interface. *)
Class PyRuntime : Type := {
  pyfloat : Type;
  (** [float(s)]: [None] stands for [ValueError]. *)
  float_of_str : string -> option pyfloat;
  (** [int(s)]: [None] stands for [ValueError]. *)
  int_of_str : string -> option Z;
  (** [float(n)], the conversion [int + float] applies to its left side. *)
  float_of_int : Z -> pyfloat;
  (** [x + y] on floats. *)
  float_add : pyfloat -> pyfloat -> pyfloat;
  (** [a / b] on ints (true division). *)
  int_truediv : Z -> Z -> pyfloat;
  (** [round(x, ndigits)] on a float. *)
  float_round : pyfloat -> Z -> pyfloat
}.

(** ** Profile records (app/models/profile.py), the columns the manager reads *)
Record Profile : Type := mkProfile {
  id : string;
  name : string;
  os : string;
  user_agent : string;
  screen_resolution : string;
  language : string;
  timezone : option string;
  geolocation : option string;
  cpu_cores : option Z;
  memory_gb : option Z;
  webgl_vendor : option string;
  webgl_renderer : option string;
  proxy_string : option string;
  webrtc_mode : option string;
  canvas_mode : option string;
  audio_mode : option string;
  stealth_tier : option string;
  adblock_enabled : bool
}.

(** [o == 'lit'] for an optional column. *)
Definition opt_eqb (o : option string) (lit : string) : bool :=
  match o with Some s => String.eqb s lit | None => false end.

(** [n or 8] for an optional integer column. *)
Definition int_or (o : option Z) (default : Z) : Z :=
  match o with
  | Some n => if Z.eqb n 0 then default else n
  | None => default
  end.

(** ** Results of Python code: a value or a raised exception *)
Inductive Res (A : Type) : Type :=
| Ok (a : A)
| Raise (e : PyExc).
Arguments Ok {A} a.
Arguments Raise {A} e.


(** [l.append(x)] and [l.extend(more)]. *)
Definition list_append {A} (l : list A) (x : A) : list A := (l ++ [x])%list.
Definition list_extend {A} (l more : list A) : list A := (l ++ more)%list.

(** ** Launch arguments: [_build_chrome_options] *)

(** [width, height = s.split('x')]: more or fewer than two pieces raise
    [ValueError]. *)
Definition unpack2 (pieces : list string) : Res (string * string) :=
  match pieces with
  | [a; b] => Ok (a, b)
  | _ :: _ :: _ :: _ =>
      Raise (ValueError "too many values to unpack (expected 2)")
  | _ =>
      Raise (ValueError
               ("not enough values to unpack (expected 2, got "
                ++ PyStr.of_int (Z.of_nat (List.length pieces)) ++ ")"))
  end.

Definition window_size_flag (width height : string) : string :=
  "--window-size=" ++ width ++ "," ++ height.

Definition _build_chrome_options
    (profile : Profile) (user_data_dir : string) (extra_flags : list string)
    : Res (list string) :=
  let options : list string := [] in
  (* Window size *)
  match
    (if PyStr.truthy (screen_resolution profile) then
       match unpack2 (PyStr.split "x" (screen_resolution profile)) with
       | Ok (width, height) => Ok (list_append options (window_size_flag width height))
       | Raise e => Raise e
       end
     else Ok options)
  with
  | Raise e => Raise e
  | Ok options =>
      (* Proxy *)
      let options :=
        match proxy_string profile with
        | Some p => if PyStr.truthy p then list_append options ("--proxy-server=" ++ p)
                    else options
        | None => options
        end in
      (* WebRTC mode *)
      let options :=
        if opt_eqb (webrtc_mode profile) "disabled"
        then list_append options "--disable-webrtc" else options in
      (* Additional flags *)
      Ok (list_extend options extra_flags)
  end.

(** ** Browser objects *)

(** [driver.service]: its [port] attribute when it has one, and the pid of
    its [process] when that is set (a process object is truthy). *)
Record Service : Type := mkService {
  svc_port : option Z;
  svc_process : option Z
}.

(** [driver.capabilities]: reading it can raise; otherwise it may hold
    ['goog:chromeOptions'], which may hold ['debuggerAddress']. *)
Inductive Capabilities : Type :=
| CapsRaises
| Caps (chrome_options : option (option string)).

(** The attributes of a driver the manager looks at ([hasattr] is [Some]). *)
Record Driver : Type := mkDriver {
  drv_service : option Service;
  drv_capabilities : Capabilities;
  drv_browser_pid : option (option Z)
}.

(** Truthiness of an [Optional[int]]. *)
Definition pid_truthy (p : option Z) : bool :=
  match p with Some n => negb (Z.eqb n 0) | None => false end.

(** An entry of [running_profiles]. The [sb_context], [sb] and [driver]
    objects of one session are named by the number of that session. *)
Record SessionHandle : Type := mkHandle {
  sb_context : nat;
  driver : Driver;
  pid : option Z;
  debug_port : Z;
  websocket_url : PyVal;
  started_at : Z
}.

(** What [start_profile] returns. *)
Record StartResult : Type := mkStartResult {
  res_debug_port : Z;
  res_websocket_link : PyVal;
  res_pid : option Z
}.

(** ** The injected script (text) *)

Definition script_head (platform : string) (cores memory noise_seed : Z) : string :=
  PyStr.text
    [ "";
      "                // Navigator Spoofing";
      "                Object.defineProperty(navigator, 'platform', { get: () => '" ++ platform ++ "' });";
      "                Object.defineProperty(navigator, 'hardwareConcurrency', { get: () => " ++ PyStr.of_int cores ++ " });";
      "                Object.defineProperty(navigator, 'deviceMemory', { get: () => " ++ PyStr.of_int memory ++ " });";
      "                ";
      "                // Stable Noise Injection (Non-random per pixel to avoid detection)";
      "                const NOISE_SEED = " ++ PyStr.of_int noise_seed ++ ";";
      "            " ].

Definition script_webgl (vendor renderer : string) : string :=
  PyStr.text
    [ "";
      "                    const getParameter = WebGLRenderingContext.prototype.getParameter;";
      "                    WebGLRenderingContext.prototype.getParameter = function(parameter) {";
      "                        if (parameter === 37445) return '" ++ vendor ++ "';";
      "                        if (parameter === 37446) return '" ++ renderer ++ "';";
      "                        // Add some common WebGL limits for better consistency";
      "                        if (parameter === 3379) return 16384; // MAX_TEXTURE_SIZE";
      "                        return getParameter.apply(this, arguments);";
      "                    };";
      "                " ].

Definition script_canvas : string :=
  PyStr.text
    [ "";
      "                    const getImageData = CanvasRenderingContext2D.prototype.getImageData;";
      "                    CanvasRenderingContext2D.prototype.getImageData = function(x, y, w, h) {";
      "                        const imageData = getImageData.apply(this, arguments);";
      "                        for (let i = 0; i < imageData.data.length; i += 4) {";
      "                            // Stable noise based on pixel index and session seed";
      "                            imageData.data[i] = (imageData.data[i] + (NOISE_SEED % 2)) % 256;";
      "                        }";
      "                        return imageData;";
      "                    };";
      "                " ].

Definition script_audio : string :=
  PyStr.text
    [ "";
      "                    const originalChannelData = AudioBuffer.prototype.getChannelData;";
      "                    AudioBuffer.prototype.getChannelData = function() {";
      "                        const buffer = originalChannelData.apply(this, arguments);";
      "                        const offset = (NOISE_SEED / 1000000);";
      "                        for (let i = 0; i < buffer.length; i += 100) {";
      "                            buffer[i] += offset;";
      "                        }";
      "                        return buffer;";
      "                    };";
      "                " ].

Definition script_elite : string :=
  PyStr.text
    [ "";
      "                    // Disable Automation detection flags";
      "                    Object.defineProperty(navigator, 'webdriver', { get: () => false });";
      "                    ";
      "                    // Spoof Client Hints";
      "                    if (navigator.userAgentData) {";
      "                        const originalGetHighEntropyValues = navigator.userAgentData.getHighEntropyValues;";
      "                        navigator.userAgentData.getHighEntropyValues = function(hints) {";
      "                            return Promise.resolve({";
      "                                brands: [";
      "                                    {brand: 'Not A(Brand', version: '99'},";
      "                                    {brand: 'Google Chrome', version: '120'},";
      "                                    {brand: 'Chromium', version: '120'}";
      "                                ],";
      "                                mobile: false,";
      "                                platform: 'Windows'";
      "                            });";
      "                        };";
      "                    }";
      "                " ].

(** [_get_platform_from_os]. *)
Definition _get_platform_from_os (os_name : string) : string :=
  let os_lower := PyStr.lower os_name in
  if PyStr.contains "windows" os_lower then "Win32"
  else if PyStr.contains "mac" os_lower then "MacIntel"
  else if PyStr.contains "linux" os_lower then "Linux x86_64"
  else if PyStr.contains "android" os_lower then "Linux armv8l"
  else if (PyStr.contains "iphone" os_lower || PyStr.contains "ipad" os_lower)%bool
       then "iPhone"
  else "Win32".

(** The script [_apply_fingerprint_overrides] composes for a profile and a
    drawn noise seed: the head, then the fragments whose condition holds. *)
Definition injection_script (profile : Profile) (noise_seed : Z) : string :=
  let platform := _get_platform_from_os (os profile) in
  let script :=
    script_head platform (int_or (cpu_cores profile) 8)
                (int_or (memory_gb profile) 8) noise_seed in
  let script :=
    match webgl_vendor profile, webgl_renderer profile with
    | Some vendor, Some renderer =>
        if (PyStr.truthy vendor && PyStr.truthy renderer)%bool
        then script ++ script_webgl vendor renderer else script
    | _, _ => script
    end in
  let script :=
    if opt_eqb (canvas_mode profile) "noise" then script ++ script_canvas
    else script in
  let script :=
    if opt_eqb (audio_mode profile) "noise" then script ++ script_audio
    else script in
  let script :=
    if opt_eqb (stealth_tier profile) "elite" then script ++ script_elite
    else script in
  script.

(** ** What the injected canvas patch computes

    The patched [getImageData] walks the pixel buffer (a
    [Uint8ClampedArray], bytes as integers in 0..255) with
    [for (let i = 0; i < data.length; i += 4)] and stores
    [(data[i] + (NOISE_SEED % 2)) % 256] at [i]. *)

(** A store into a [Uint8ClampedArray] clamps to 0..255. *)
Definition clamp_u8 (v : Z) : Z := Z.max 0 (Z.min 255 v).

(** [data[i] = v]; a store past the end of a typed array does nothing. *)
Fixpoint array_store (data : list Z) (i : nat) (v : Z) : list Z :=
  match data, i with
  | [], _ => []
  | _ :: rest, O => clamp_u8 v :: rest
  | b :: rest, S j => b :: array_store rest j v
  end.

(** The loop, with [fuel] bounding the number of iterations. *)
Fixpoint canvas_loop (fuel : nat) (noise_seed : Z) (i : nat) (data : list Z)
    : list Z :=
  match fuel with
  | O => data
  | S fuel' =>
      if Nat.ltb i (List.length data) then
        canvas_loop fuel' noise_seed (i + 4)
          (array_store data i
             (Z.rem (nth i data 0 + Z.rem noise_seed 2) 256))
      else data
  end.

(** [i] grows by 4 each round, so [length data] rounds are enough. *)
Definition patched_getImageData (noise_seed : Z) (data : list Z) : list Z :=
  canvas_loop (List.length data) noise_seed 0 data.

(** The bytes a [Uint8ClampedArray] can hold. *)
Definition u8_array (data : list Z) : Prop :=
  Forall (fun b => 0 <= b <= 255) data.

(** The seeds [random.randint(1, 1000)] can return. *)
Definition seed_range : list Z := map Z.of_nat (seq 1 1000).

(** ** The outside world *)

Section Outside.
Context {RT : PyRuntime}.

(** DevTools protocol commands passed to [driver.execute_cdp_cmd]. *)
Inductive CdpCmd : Type :=
| Network_setBlockedURLs (urls : list string)
| Network_setUserAgentOverride (userAgent : string)
| Page_addScriptToEvaluateOnNewDocument (source : string)
| Emulation_setTimezoneOverride (timezoneId : string)
| Browser_grantPermissions (permissions : list string)
| Emulation_setGeolocationOverride (latitude longitude : pyfloat) (accuracy : Z).

(** Calls that leave the manager. A session's objects are named by the
    session number [ctx]. *)
Inductive ExtCall : Type :=
| os_makedirs (path : string)
| SB_new (user_data_dir chromium_arg locale : string)
| SB_enter (ctx : nat)
| SB_exit (ctx : nat)
| driver_get (ctx : nat) (url : string)
| driver_execute_script (ctx : nat) (js : string)
| driver_execute_cdp_cmd (ctx : nat) (cmd : CdpCmd)
| sb_activate_cdp_mode (ctx : nat) (url : string)
| sb_reconnect (ctx : nat)
| requests_get (url : string) (timeout : Z)
| response_json
| psutil_Process (pid : Z)
| process_terminate (pid : Z)
| process_wait (pid : Z) (timeout : Z)
| process_memory_info (pid : Z).

(** What has happened so far, most recent first: calls with the exception
    they raised, if any, and lines printed. *)
Inductive Event : Type :=
| EvCall (c : ExtCall) (raised : option PyExc)
| EvPrint (line : string).

(** The answers of the outside, by the tick at which a call is made. *)
Record Env : Type := mkEnv {
  abspath : string -> string;
  fails : nat -> ExtCall -> option PyExc;
  entered : nat -> Driver;
  json_body : nat -> PyVal;
  rss : nat -> Z;
  rand_raw : nat -> Z;
  now : nat -> Z
}.

(** The manager's state ([running_profiles]) and the bookkeeping of the
    outside: a clock that ticks at every call, the trace, and the number of
    random draws made. *)
Record World : Type := mkWorld {
  running_profiles : PyDict.t SessionHandle;
  clock : nat;
  trace : list Event;
  draws : nat
}.

End Outside.

(** ** The monad of manager code *)

Section Monad.
Context {RT : PyRuntime}.

Definition M (A : Type) : Type := World -> Res A * World.

Definition ret {A} (a : A) : M A := fun w => (Ok a, w).

Definition bind {A B} (m : M A) (k : A -> M B) : M B :=
  fun w => match m w with
           | (Ok a, w') => k a w'
           | (Raise e, w') => (Raise e, w')
           end.

Definition raise {A} (e : PyExc) : M A := fun w => (Raise e, w).

(** A pure computation that may raise. *)
Definition lift {A} (r : Res A) : M A := fun w => (r, w).

(** [try: m except <catches>: handler]. *)
Definition try_except {A} (m : M A) (catches : PyExc -> bool)
    (handler : PyExc -> M A) : M A :=
  fun w => match m w with
           | (Ok a, w') => (Ok a, w')
           | (Raise e, w') => if catches e then handler e w' else (Raise e, w')
           end.

(** [try: m finally: cleanup]. *)
Definition try_finally {A} (m : M A) (cleanup : M unit) : M A :=
  fun w => match m w with
           | (r, w') =>
               match cleanup w' with
               | (Ok _, w'') => (r, w'')
               | (Raise e, w'') => (Raise e, w'')
               end
           end.

End Monad.

Declare Scope py_scope.
Delimit Scope py_scope with py.
Notation "x <- m ;; k" := (bind m (fun x => k))
  (at level 100, m at next level, right associativity) : py_scope.
Notation "m ;; k" := (bind m (fun _ => k))
  (at level 100, right associativity) : py_scope.
Open Scope py_scope.

Section Primitives.
Context {RT : PyRuntime} (env : Env).

(** [for x in items: body x]. *)
Fixpoint for_each {A} (items : list A) (body : A -> M unit) : M unit :=
  match items with
  | [] => ret tt
  | x :: rest => body x ;; for_each rest body
  end.

(** [enumerate(items)]. *)
Fixpoint enumerate_from {A} (start : nat) (items : list A) : list (nat * A) :=
  match items with
  | [] => []
  | x :: rest => (start, x) :: enumerate_from (S start) rest
  end.
Definition enumerate {A} (items : list A) : list (nat * A) :=
  enumerate_from 0 items.

(** A call to the outside: it is traced, the clock ticks, and it raises what
    the environment says. It returns the tick at which it was made. *)
Definition call (c : ExtCall) : M nat :=
  fun w =>
    let outcome := fails env (clock w) c in
    let w' := mkWorld (running_profiles w) (S (clock w))
                      (EvCall c outcome :: trace w) (draws w) in
    match outcome with
    | Some e => (Raise e, w')
    | None => (Ok (clock w), w')
    end.

(** [print(line)]. *)
Definition print (line : string) : M unit :=
  fun w => (Ok tt, mkWorld (running_profiles w) (clock w)
                           (EvPrint line :: trace w) (draws w)).

(** [random.randint(a, b)]: the next draw, brought into [a..b]. *)
Definition randint (a b : Z) : M Z :=
  fun w => (Ok (a + rand_raw env (draws w) mod (b - a + 1)),
            mkWorld (running_profiles w) (clock w) (trace w) (S (draws w))).

(** [datetime.now()]. *)
Definition datetime_now : M Z := fun w => (Ok (now env (clock w)), w).

(** Reading and writing [self.running_profiles]. *)
Definition get_running : M (PyDict.t SessionHandle) :=
  fun w => (Ok (running_profiles w), w).
Definition set_running (d : PyDict.t SessionHandle) : M unit :=
  fun w => (Ok tt, mkWorld d (clock w) (trace w) (draws w)).

End Primitives.

(** ** The manager: [SeleniumManager] *)

Section Manager.
Context {RT : PyRuntime} (env : Env).

(** *** Endpoint resolution *)

(** [_get_debug_port]: the service port, else the port of the debugger
    address in the capabilities, else 9222; nothing raised inside escapes. *)
Definition _get_debug_port (driver : Driver) : Z :=
  match match drv_service driver with
        | Some service => svc_port service
        | None => None
        end with
  | Some port => port
  | None =>
      match drv_capabilities driver with
      | Caps (Some chrome_options) =>
          let debug_addr :=
            match chrome_options with Some a => a | None => "" end in
          if PyStr.has_char ":" debug_addr then
            match int_of_str (nth 1 (PyStr.split ":" debug_addr) "") with
            | Some port => port
            | None => 9222
            end
          else 9222
      | _ => 9222
      end
  end.

(** [data.get(key, default)]: only a [dict] has the method. *)
Definition py_get (data : PyVal) (key : string) (default : PyVal) : Res PyVal :=
  match data with
  | PDict entries =>
      Ok (match PyDict.get key entries with Some v => v | None => default end)
  | _ => Raise (AttributeError "object has no attribute 'get'")
  end.

Definition version_url (debug_port : Z) : string :=
  "http://127.0.0.1:" ++ PyStr.of_int debug_port ++ "/json/version".

Definition fallback_ws_url (debug_port : Z) : string :=
  "ws://127.0.0.1:" ++ PyStr.of_int debug_port ++ "/devtools/browser".

(** [_get_websocket_url]. *)
Definition _get_websocket_url (driver : Driver) (debug_port : Z) : M PyVal :=
  try_except
    (call env (requests_get (version_url debug_port) 5) ;;
     t <- call env response_json ;;
     let data := json_body env t in
     lift (py_get data "webSocketDebuggerUrl" (PStr "")))
    except_all
    (fun _ => ret (PStr (fallback_ws_url debug_port))).

(** *** Fingerprint injection *)

Definition blocked_urls : list string :=
  [ "*.googlesyndication.com*"; "*.googletagmanager.com*";
    "*.google-analytics.com*"; "*.amazon-adsystem.com*";
    "*.doubleclick.net*"; "*.adsafeprotected.com*";
    "*.facebook.net/en_US/fbevents.js*" ].

Definition float_error (s : string) : PyExc :=
  ValueError ("could not convert string to float: '" ++ s ++ "'").

(** [lat, lon = map(float, s.split(','))]: the pieces are converted one by
    one as the unpacking asks for them; a third piece is asked for, to see
    that there is none. *)
Definition parse_lat_lon (s : string) : Res (pyfloat * pyfloat) :=
  match PyStr.split "," s with
  | [] => Raise (ValueError "not enough values to unpack (expected 2, got 0)")
  | a :: rest =>
      match float_of_str a with
      | None => Raise (float_error a)
      | Some lat =>
          match rest with
          | [] => Raise (ValueError
                           "not enough values to unpack (expected 2, got 1)")
          | b :: rest' =>
              match float_of_str b with
              | None => Raise (float_error b)
              | Some lon =>
                  match rest' with
                  | [] => Ok (lat, lon)
                  | c :: _ =>
                      match float_of_str c with
                      | None => Raise (float_error c)
                      | Some _ =>
                          Raise (ValueError
                                   "too many values to unpack (expected 2)")
                      end
                  end
              end
          end
      end
  end.

(** The geolocation step of [_apply_fingerprint_overrides]. *)
Definition apply_geolocation (ctx : nat) (profile : Profile) : M unit :=
  match geolocation profile with
  | Some geo =>
      if (PyStr.truthy geo && PyStr.has_char "," geo)%bool then
        try_except
          (latlon <- lift (parse_lat_lon geo) ;;
           call env (driver_execute_cdp_cmd ctx
                       (Browser_grantPermissions ["geolocation"])) ;;
           call env (driver_execute_cdp_cmd ctx
                       (Emulation_setGeolocationOverride
                          (fst latlon) (snd latlon) 100)) ;;
           ret tt)
          except_all
          (fun _ => ret tt)
      else ret tt
  | None => ret tt
  end.

(** [_apply_fingerprint_overrides]. *)
Definition _apply_fingerprint_overrides (ctx : nat) (profile : Profile) : M unit :=
  try_except
    ((* Activate CDP mode *)
     call env (sb_activate_cdp_mode ctx "about:blank") ;;
     (* Ad-blocking via CDP *)
     (if adblock_enabled profile then
        try_except
          (call env (driver_execute_cdp_cmd ctx
                       (Network_setBlockedURLs blocked_urls)) ;; ret tt)
          except_all
          (fun _ => ret tt)
      else ret tt) ;;
     (* Override User Agent *)
     (if PyStr.truthy (user_agent profile) then
        call env (driver_execute_cdp_cmd ctx
                    (Network_setUserAgentOverride (user_agent profile))) ;;
        ret tt
      else ret tt) ;;
     (* Stable noise seed for the session *)
     noise_seed <- randint env 1 1000 ;;
     (* Add script to evaluate on new document *)
     call env (driver_execute_cdp_cmd ctx
                 (Page_addScriptToEvaluateOnNewDocument
                    (injection_script profile noise_seed))) ;;
     (* Timezone & Geolocation *)
     (match timezone profile with
      | Some tz =>
          if PyStr.truthy tz then
            call env (driver_execute_cdp_cmd ctx
                        (Emulation_setTimezoneOverride tz)) ;;
            ret tt
          else ret tt
      | None => ret tt
      end) ;;
     apply_geolocation ctx profile ;;
     (* Reconnect *)
     call env (sb_reconnect ctx) ;;
     ret tt)
    except_Exception
    (fun e => print ("⚠️ Error applying fingerprint overrides: " ++ exc_msg e)).

(** *** Start *)

(** The pid recorded for a session. *)
Definition driver_pid (driver : Driver) : option Z :=
  let browser_pid :=
    match drv_browser_pid driver with
    | Some p => p
    | None => None
    end in
  match drv_service driver with
  | Some service =>
      match svc_process service with
      | Some p => Some p
      | None => browser_pid
      end
  | None => browser_pid
  end.

Definition already_running (profile : Profile) : PyExc :=
  Exception ("Profile " ++ name profile ++ " is already running").

Definition locale_of (profile : Profile) : string :=
  if PyStr.truthy (language profile)
  then hd "" (PyStr.split "," (language profile))
  else "en-US".

(** What the [try] block of [start_profile] holds in local variables when
    it reaches the registry. *)
Record Launched : Type := mkLaunched {
  l_context : nat;
  l_driver : Driver;
  l_debug_port : Z;
  l_websocket_url : PyVal;
  l_pid : option Z
}.

(** The [try] block of [start_profile] up to the registry: from the launch
    of the browser to the start pages. *)
Definition launch (profile : Profile) (user_data_dir : string)
    (chrome_options : list string) (start_pages : list string)
    : M Launched :=
  (* Initialize SB context and enter it *)
  ctx <- call env (SB_new user_data_dir (PyStr.join "," chrome_options)
                          (locale_of profile)) ;;
  entered_at <- call env (SB_enter ctx) ;;
  let driver := entered env entered_at in
  (* Start the browser at blank page *)
  call env (driver_get ctx "about:blank") ;;
  (* Get debug info *)
  let debug_port := _get_debug_port driver in
  websocket_url <- _get_websocket_url driver debug_port ;;
  (* Get PID *)
  let pid := driver_pid driver in
  (* Apply advanced fingerprint overrides via CDP *)
  _apply_fingerprint_overrides ctx profile ;;
  (* Open start pages if specified *)
  for_each (enumerate start_pages)
    (fun '(idx, page_url) =>
       if Nat.eqb idx 0 then call env (driver_get ctx page_url) ;; ret tt
       else call env (driver_execute_script ctx
                        ("window.open('" ++ page_url ++ "', '_blank');")) ;;
            ret tt) ;;
  ret (mkLaunched ctx driver debug_port websocket_url pid).

(** The rest of the [try] block: the entry is stored and the result
    returned. *)
Definition register (profile : Profile) (l : Launched) : M StartResult :=
  (* Store running instance *)
  started <- datetime_now env ;;
  running <- get_running ;;
  set_running
    (PyDict.set (id profile)
       (mkHandle (l_context l) (l_driver l) (l_pid l) (l_debug_port l)
                 (l_websocket_url l) started)
       running) ;;
  ret (mkStartResult (l_debug_port l) (l_websocket_url l) (l_pid l)).

(** The [try] block of [start_profile]. *)
Definition launch_and_register (profile : Profile) (user_data_dir : string)
    (chrome_options : list string) (start_pages : list string)
    : M StartResult :=
  l <- launch profile user_data_dir chrome_options start_pages ;;
  register profile l.

(** [start_profile]. *)
Definition start_profile (profile : Profile) (chrome_flags : list string)
    (start_pages : list string) : M StartResult :=
  let profile_id := id profile in
  (* Check if already running *)
  running <- get_running ;;
  if PyDict.mem profile_id running then raise (already_running profile)
  else
    (* Prepare Chrome user data directory *)
    let user_data_dir := abspath env ("./profiles/profile_" ++ profile_id) in
    call env (os_makedirs user_data_dir) ;;
    (* Build Chrome arguments *)
    chrome_options <-
      lift (_build_chrome_options profile user_data_dir chrome_flags) ;;
    try_except
      (launch_and_register profile user_data_dir chrome_options start_pages)
      except_Exception
      (fun e =>
         print ("❌ Failed to start profile " ++ name profile ++ ": "
                ++ exc_msg e) ;;
         raise e).

(** *** Stop *)

Definition not_running (profile_id : string) : PyExc :=
  Exception ("Profile " ++ profile_id ++ " is not running").

(** The forced kill of [stop_profile]. *)
Definition force_kill (profile_data : SessionHandle) : M unit :=
  try_except
    (let pid := pid profile_data in
     match pid with
     | Some p =>
         if pid_truthy pid then
           call env (psutil_Process p) ;;
           call env (process_terminate p) ;;
           call env (process_wait p 5) ;;
           ret tt
         else ret tt
     | None => ret tt
     end)
    except_all
    (fun _ => ret tt).

(** [stop_profile]. *)
Definition stop_profile (profile_id : string) : M unit :=
  running <- get_running ;;
  match PyDict.get profile_id running with
  | None => raise (not_running profile_id)
  | Some profile_data =>
      try_finally
        (try_except
           ((* Close browser gracefully via context exit *)
            call env (SB_exit (sb_context profile_data)) ;; ret tt)
           except_Exception
           (fun e =>
              print ("⚠️ Error closing browser: " ++ exc_msg e) ;;
              (* Force kill if needed *)
              force_kill profile_data))
        ((* Remove from running profiles *)
         running <- get_running ;;
         if PyDict.mem profile_id running
         then set_running (PyDict.del profile_id running)
         else ret tt)
  end.

(** [close_all]. *)
Definition close_all : M unit :=
  running <- get_running ;;
  let profile_ids := PyDict.keys running in
  for_each profile_ids
    (fun profile_id =>
       try_except (stop_profile profile_id) except_all (fun _ => ret tt)).

(** [is_running]. *)
Definition is_running (profile_id : string) : M bool :=
  running <- get_running ;; ret (PyDict.mem profile_id running).

(** *** Statistics *)

(** A Python number that starts as the [int] 0 and becomes a [float] once a
    float is added. *)
Inductive PyNum : Type :=
| NInt (n : Z)
| NFloat (x : pyfloat).

(** [total += x] for a float [x]. *)
Definition num_add (total : PyNum) (x : pyfloat) : PyNum :=
  match total with
  | NInt n => NFloat (float_add (float_of_int n) x)
  | NFloat y => NFloat (float_add y x)
  end.

(** [round(total, ndigits)]. *)
Definition py_round (total : PyNum) (ndigits : Z) : PyNum :=
  match total with
  | NInt n => NInt n
  | NFloat x => NFloat (float_round x ndigits)
  end.

(** [rss / (1024 * 1024)]. *)
Definition megabytes (rss_bytes : Z) : pyfloat :=
  int_truediv rss_bytes (1024 * 1024).

Record Stats : Type := mkStats {
  running_count : Z;
  total_memory_mb : PyNum;
  profiles : list string
}.

(** One round of the loop of [get_stats]. *)
Definition add_memory (total : PyNum) (data : SessionHandle) : M PyNum :=
  try_except
    (let pid := pid data in
     match pid with
     | Some p =>
         if pid_truthy pid then
           call env (psutil_Process p) ;;
           t <- call env (process_memory_info p) ;;
           ret (num_add total (megabytes (rss env t)))
         else ret total
     | None => ret total
     end)
    except_all
    (fun _ => ret total).

Fixpoint sum_memory (total : PyNum) (items : list (string * SessionHandle))
    : M PyNum :=
  match items with
  | [] => ret total
  | (_, data) :: rest =>
      total' <- add_memory total data ;; sum_memory total' rest
  end.

(** [get_stats]. *)
Definition get_stats : M Stats :=
  running <- get_running ;;
  total_memory <- sum_memory (NInt 0) running ;;
  running <- get_running ;;
  ret (mkStats (PyDict.len running) (py_round total_memory 2)
               (PyDict.keys running)).

End Manager.

(** ** A runtime and environments to run the model on

    [decimal_runtime] reads plain decimal numerals and computes with exact
    fractions. It stands in for the interpreter when the model is evaluated
    on examples; the theorems hold for every runtime. *)

Module Sample.

Definition digit_of (c : ascii) : option Z :=
  let n := nat_of_ascii c in
  if (Nat.leb 48 n && Nat.leb n 57)%bool then Some (Z.of_nat (n - 48)) else None.

Fixpoint digits (s : string) (acc : Z) : option Z :=
  match s with
  | EmptyString => Some acc
  | String c rest =>
      match digit_of c with
      | Some d => digits rest (acc * 10 + d)
      | None => None
      end
  end.

Definition natural (s : string) : option Z :=
  match s with EmptyString => None | _ => digits s 0 end.

Definition signed {A} (parse : string -> option A) (neg : A -> A) (s : string)
    : option A :=
  match s with
  | String "-" rest => option_map neg (parse rest)
  | String "+" rest => parse rest
  | _ => parse s
  end.

Definition integer : string -> option Z := signed natural Z.opp.

Definition unsigned_decimal (s : string) : option Q :=
  match PyStr.split "." s with
  | [whole] => option_map inject_Z (natural whole)
  | [whole; frac] =>
      match natural whole, natural frac with
      | Some n, Some f =>
          let scale := 10 ^ Z.of_nat (String.length frac) in
          Some (Qmake (n * scale + f) (Z.to_pos scale))
      | _, _ => None
      end
  | _ => None
  end.

Definition decimal : string -> option Q := signed unsigned_decimal Qopp.

Definition truediv (a b : Z) : Q :=
  if Z.ltb 0 b then Qred (Qmake a (Z.to_pos b)) else 0%Q.

Definition round_to (x : Q) (ndigits : Z) : Q :=
  let scale := 10 ^ ndigits in
  Qred (Qmake (Qfloor (x * inject_Z scale + (1 # 2))) (Z.to_pos scale)).

#[local] Instance decimal_runtime : PyRuntime := {
  pyfloat := Q;
  float_of_str := decimal;
  int_of_str := integer;
  float_of_int := inject_Z;
  float_add := fun x y => Qred (x + y);
  int_truediv := truediv;
  float_round := round_to
}.

(** A driver as chromedriver presents it: a service with a port and a
    process. *)
Definition chrome_driver : Driver :=
  mkDriver (Some (mkService (Some 9515) (Some 4242))) (Caps None) None.

Definition version_document : PyVal :=
  PDict [ ("Browser", PStr "Chrome/120.0.0.0");
          ("webSocketDebuggerUrl",
           PStr "ws://127.0.0.1:9515/devtools/browser/6f0c") ].

(** An outside in which every call succeeds. *)
Definition quiet : Env :=
  mkEnv (fun p => "/srv/app/" ++ p) (fun _ _ => None) (fun _ => chrome_driver)
        (fun _ => version_document) (fun _ => 104857600)
        (fun n => Z.of_nat n * 7 + 41) (fun n => Z.of_nat n).

(** [quiet], except that the calls selected by [bad] raise [e]. *)
Definition failing (bad : ExtCall -> bool) (e : PyExc) : Env :=
  mkEnv (abspath quiet) (fun _ c => if bad c then Some e else None)
        (entered quiet) (json_body quiet) (rss quiet) (rand_raw quiet)
        (now quiet).

(** [quiet], except for the document the metadata endpoint answers. *)
Definition answering (document : PyVal) : Env :=
  mkEnv (abspath quiet) (fails quiet) (entered quiet) (fun _ => document)
        (rss quiet) (rand_raw quiet) (now quiet).

Definition p1 : Profile :=
  mkProfile "p1" "Work" "Windows 10"
            "Mozilla/5.0 (Windows NT 10.0; Win64; x64) Chrome/120.0.0.0"
            "1920x1080" "en-US,en;q=0.9" (Some "America/New_York")
            (Some "40.7128,-74.0060") (Some 8) (Some 16)
            (Some "Intel Inc.") (Some "Intel Iris OpenGL Engine")
            (Some "socks5://u:p@host:1080") (Some "disabled") (Some "noise")
            (Some "noise") (Some "standard") false.

(** [profile] with another screen resolution, or another geolocation. *)
Definition with_resolution (profile : Profile) (resolution : string) : Profile :=
  mkProfile (id profile) (name profile) (os profile) (user_agent profile)
            resolution (language profile) (timezone profile)
            (geolocation profile) (cpu_cores profile) (memory_gb profile)
            (webgl_vendor profile) (webgl_renderer profile)
            (proxy_string profile) (webrtc_mode profile) (canvas_mode profile)
            (audio_mode profile) (stealth_tier profile)
            (adblock_enabled profile).

Definition empty_world : World := mkWorld [] 0 [] 0.

(** Two registered sessions, and an outside in which browsers neither close
    nor die, and one in which process lookups fail for pid 4343. *)
Definition handle (ctx : nat) (process_id : Z) : SessionHandle :=
  mkHandle ctx chrome_driver (Some process_id) 9515
           (PStr "ws://127.0.0.1:9515/devtools/browser/6f0c") 0.

Definition two_sessions : World :=
  mkWorld [("p1", handle 1 4242); ("p2", handle 17 4343)] 30 [] 2.

Definition stuck : Env :=
  failing (fun c => match c with
                    | SB_exit _ | process_terminate _ => true
                    | _ => false
                    end)
          (Exception "browser is stuck").

Definition interrupted : Env :=
  failing (fun c => match c with SB_exit _ => true | _ => false end)
          (mkExc "KeyboardInterrupt" "" false).

Definition no_such_process : Env :=
  failing (fun c => match c with
                    | psutil_Process p => Z.eqb p 4343
                    | _ => false
                    end)
          (mkExc "NoSuchProcess" "process no longer exists (pid=4343)" true).

(** Outsides in which the first start page cannot be opened, and in which
    the metadata endpoint cannot be reached. *)
Definition bad_page : Env :=
  failing (fun c => match c with
                    | driver_get _ url => String.eqb url "https://a.example"
                    | _ => false
                    end)
          (Exception "net::ERR_NAME_NOT_RESOLVED").

Definition unreachable : Env :=
  failing (fun c => match c with requests_get _ _ => true | _ => false end)
          (mkExc "ConnectionError" "connection refused" true).


Definition no_cdp_mode : Env :=
  failing (fun c => match c with
                    | sb_activate_cdp_mode _ _ => true
                    | _ => false
                    end)
          (Exception "CDP mode unavailable").

Definition no_timezone_override : Env :=
  failing (fun c => match c with
                    | driver_execute_cdp_cmd _ (Emulation_setTimezoneOverride _) =>
                        true
                    | _ => false
                    end)
          (Exception "Invalid timezone id").

End Sample.

(** [profile] with another geolocation column. *)
Definition with_geolocation (profile : Profile) (geo : option string) : Profile :=
  mkProfile (id profile) (name profile) (os profile) (user_agent profile)
            (screen_resolution profile) (language profile) (timezone profile)
            geo (cpu_cores profile) (memory_gb profile)
            (webgl_vendor profile) (webgl_renderer profile)
            (proxy_string profile) (webrtc_mode profile) (canvas_mode profile)
            (audio_mode profile) (stealth_tier profile)
            (adblock_enabled profile).


(** ** Notions the properties are stated with *)

(** The flags [_build_chrome_options] derives after the window size. *)
Definition flags_after_window_size (profile : Profile)
    (extra_flags : list string) : list string :=
  let proxy_flags : list string :=
    match proxy_string profile with
    | Some p => if PyStr.truthy p then ["--proxy-server=" ++ p] else []
    | None => []
    end in
  let webrtc_flags : list string :=
    if opt_eqb (webrtc_mode profile) "disabled"
    then ["--disable-webrtc"] else [] in
  (proxy_flags ++ webrtc_flags ++ extra_flags)%list.


Section Notions.
Context {RT : PyRuntime}.

(** [m] takes every world to one related to it by [R], whatever it
    returns. *)
Definition respects {A} (R : World -> World -> Prop) (m : M A) : Prop :=
  forall w, R w (snd (m w)).

(** [m] never raises. *)
Definition total {A} (m : M A) : Prop :=
  forall w, exists a, fst (m w) = Ok a.

Definition same_registry (w w' : World) : Prop :=
  running_profiles w' = running_profiles w.

Definition same_draws (w w' : World) : Prop := draws w' = draws w.

(** [evs] are the events between [w] and [w'], most recent first. *)
Definition events_since (w w' : World) (evs : list Event) : Prop :=
  trace w' = (evs ++ trace w)%list.

(** Between [w] and [w'] only events accepted by [P] happened, and the clock
    did not go back. *)
Definition only_events (P : Event -> bool) (w w' : World) : Prop :=
  exists evs, events_since w w' evs /\ forallb P evs = true.

(** The sessions whose context was asked to exit, most recent first. *)
Fixpoint exit_calls (evs : list Event) : list nat :=
  match evs with
  | [] => []
  | EvCall (SB_exit ctx) _ :: rest => ctx :: exit_calls rest
  | _ :: rest => exit_calls rest
  end.

(** A call that tears a browser down: leaving the session's context, or
    terminating its process. *)
Definition is_teardown (ev : Event) : bool :=
  match ev with
  | EvCall (SB_exit _) _ => true
  | EvCall (process_terminate _) _ => true
  | _ => false
  end.

(** The browser of session [ctx] was launched. *)
Definition is_launch (ctx : nat) (ev : Event) : bool :=
  match ev with
  | EvCall (SB_enter ctx') None => Nat.eqb ctx ctx'
  | _ => false
  end.

End Notions.


Section MoreNotions.
Context {RT : PyRuntime}.

(** Not a request to leave a session's context. *)
Definition not_exit (ev : Event) : bool :=
  match ev with
  | EvCall (SB_exit _) _ => false
  | _ => true
  end.

(** What [stop_profile] returns for a registered session: the exception of
    the graceful exit when that exception is not an [Exception], and nothing
    otherwise. *)
Definition stop_outcome (exit_raised : option PyExc) : Res unit :=
  match exit_raised with
  | None => Ok tt
  | Some e => if exc_is_Exception e then Ok tt else Raise e
  end.

End MoreNotions.


Section CloseAllNotions.
Context {RT : PyRuntime} (env : Env).

(** One round of the loop of [close_all]. *)
Definition close_one (profile_id : string) : M unit :=
  try_except (stop_profile env profile_id) except_all (fun _ => ret tt).

(** The sessions of a registry, in insertion order. *)
Definition sessions (running : PyDict.t SessionHandle) : list nat :=
  map (fun entry => sb_context (snd entry)) running.

End CloseAllNotions.


Section StatsNotions.
Context {RT : PyRuntime} (env : Env).

(** The memory lookup of one session, made at tick [t]: the resident size
    read, or nothing when the session has no pid or one of the two [psutil]
    calls raises; with the tick after the lookup. *)
Definition memory_lookup (t : nat) (data : SessionHandle) : option Z * nat :=
  match pid data with
  | Some p =>
      if pid_truthy (pid data) then
        match fails env t (psutil_Process p) with
        | Some _ => (None, S t)
        | None =>
            match fails env (S t) (process_memory_info p) with
            | Some _ => (None, S (S t))
            | None => (Some (rss env (S t)), S (S t))
            end
        end
      else (None, t)
  | None => (None, t)
  end.

(** The lookups of all registered sessions, in registry order from tick
    [t]. *)
Fixpoint memory_lookups (t : nat) (items : list (string * SessionHandle))
    : list (option Z) :=
  match items with
  | [] => []
  | (_, data) :: rest =>
      fst (memory_lookup t data)
        :: memory_lookups (snd (memory_lookup t data)) rest
  end.

(** The sizes read by the lookups that succeeded. *)
Fixpoint successful (lookups : list (option Z)) : list Z :=
  match lookups with
  | [] => []
  | Some size :: rest => size :: successful rest
  | None :: rest => successful rest
  end.

(** The number of lookups that gave nothing. *)
Fixpoint failed (lookups : list (option Z)) : nat :=
  match lookups with
  | [] => 0
  | Some _ :: rest => failed rest
  | None :: rest => S (failed rest)
  end.

(** [total], plus the megabytes of each size, left to right. *)
Definition add_all (total : PyNum) (sizes : list Z) : PyNum :=
  fold_left (fun acc size => num_add acc (megabytes size)) sizes total.

End StatsNotions.


Section StartNotions.
Context {RT : PyRuntime} (env : Env).

(** No call to the outside raises. *)
Definition never_fails : Prop := forall t c, fails env t c = None.

(** The seed [random.randint(1, 1000)] returns at draw number [n]. *)
Definition seed_at (n : nat) : Z := 1 + rand_raw env n mod (1000 - 1 + 1).

(** The line of the injected script that declares the seed. *)
Definition noise_constant (noise_seed : Z) : string :=
  "const NOISE_SEED = " ++ PyStr.of_int noise_seed ++ ";".

Definition contains_text (sub s : string) : Prop :=
  exists before after, s = before ++ sub ++ after.

(** The scripts installed for every new document by the events [evs]. *)
Fixpoint installed_scripts (evs : list Event) : list string :=
  match evs with
  | [] => []
  | EvCall (driver_execute_cdp_cmd _
              (Page_addScriptToEvaluateOnNewDocument source)) None :: rest =>
      source :: installed_scripts rest
  | _ :: rest => installed_scripts rest
  end.

(** Not a request to install a script. *)
Definition not_install (ev : Event) : bool :=
  match ev with
  | EvCall (driver_execute_cdp_cmd _
              (Page_addScriptToEvaluateOnNewDocument _)) _ => false
  | _ => true
  end.

(** Not one of the two geolocation commands. *)
Definition not_geolocation (ev : Event) : bool :=
  match ev with
  | EvCall (driver_execute_cdp_cmd _ (Browser_grantPermissions _)) _ => false
  | EvCall (driver_execute_cdp_cmd _
              (Emulation_setGeolocationOverride _ _ _)) _ => false
  | _ => true
  end.

(** [s] is two floating-point numerals separated by one comma. *)
Definition parses_as_pair (s : string) (lat lon : pyfloat) : Prop :=
  exists a b,
    PyStr.split "," s = [a; b]
    /\ float_of_str a = Some lat /\ float_of_str b = Some lon.

(** The directory [start_profile] prepares for a profile. *)
Definition user_data_dir_of (profile : Profile) : string :=
  abspath env ("./profiles/profile_" ++ id profile).

End StartNotions.


Section EndpointNotions.
Context {RT : PyRuntime} (env : Env).

(** The query of the metadata endpoint made at tick [t] fails: the request
    raises, or decoding the body raises, or the document is not an
    object. *)
Definition metadata_query_fails (t : nat) (debug_port : Z) : Prop :=
  fails env t (requests_get (version_url debug_port) 5) <> None
  \/ fails env (S t) response_json <> None
  \/ forall entries, json_body env (S t) <> PDict entries.

(** The query made at tick [t] is answered with the object [entries]. *)
Definition metadata_query_answers (t : nat) (debug_port : Z)
    (entries : list (string * PyVal)) : Prop :=
  fails env t (requests_get (version_url debug_port) 5) = None
  /\ fails env (S t) response_json = None
  /\ json_body env (S t) = PDict entries.

(** A value that is a string with at least one character. *)
Definition nonempty_str (v : PyVal) : Prop :=
  exists s, v = PStr s /\ s <> "".

End EndpointNotions.


Section SeedNotions.
Context {RT : PyRuntime} (env : Env).

(** Between [w] and [w'] nothing was drawn and no script was installed. *)
Definition unscripted (w w' : World) : Prop :=
  draws w' = draws w /\ only_events not_install w w'.

(** Between [w] and [w'] at most one seed was drawn, and the only script
    that can have been installed is the one of [profile] with the seed of
    the draw that was next at [w]. *)
Definition seeded_once (profile : Profile) (w w' : World) : Prop :=
  exists evs,
    events_since w w' evs
    /\ (draws w' = draws w \/ draws w' = S (draws w))
    /\ (installed_scripts evs = []
        \/ (installed_scripts evs
            = [injection_script profile (seed_at env (draws w))]
            /\ draws w' = S (draws w))).

(** [m] behaves as [seeded_once] says, from every world. *)
Definition seeds {A} (profile : Profile) (m : M A) : Prop :=
  forall w, seeded_once profile w (snd (m w)).

(** [env] with another stream of random numbers. *)
Definition with_stream (raw : nat -> Z) : Env :=
  mkEnv (abspath env) (fails env) (entered env) (json_body env) (rss env)
        raw (now env).

End SeedNotions.


Section GeolocationNotions.
Context {RT : PyRuntime} (env : Env).

(** Any event. *)
Definition any_event (ev : Event) : bool := true.

(** Between [w] and [w'] the events [wanted] happened, among others. *)
Definition emitted (wanted : list Event) (w w' : World) : Prop :=
  exists evs, events_since w w' evs /\ incl wanted evs.

(** [m] never raises and only adds to the trace. *)
Definition proceeds {A} (m : M A) : Prop :=
  total m /\ respects (only_events any_event) m.

(** [m] never raises and makes the events [wanted] happen. *)
Definition delivers {A} (wanted : list Event) (m : M A) : Prop :=
  total m /\ forall w, emitted wanted w (snd (m w)).

(** The two commands of the geolocation step. *)
Definition grant_geolocation (ctx : nat) : ExtCall :=
  driver_execute_cdp_cmd ctx (Browser_grantPermissions ["geolocation"]).

Definition override_geolocation (ctx : nat) (lat lon : pyfloat) : ExtCall :=
  driver_execute_cdp_cmd ctx (Emulation_setGeolocationOverride lat lon 100).

(** [geo] does not parse as two numbers separated by a comma. *)
Definition malformed_geolocation (geo : string) : Prop :=
  ~ exists lat lon, parses_as_pair geo lat lon.

End GeolocationNotions.


Section ExactSeedNotions.
Context {RT : PyRuntime} (env : Env).

(** [m] never raises and takes every world to one related to it by [Q]. *)
Definition achieves {A} (Q : World -> World -> Prop) (m : M A) : Prop :=
  total m /\ respects Q m.

(** Between [w] and [w'] exactly one seed was drawn and exactly one script
    was installed, the one of [profile] with that seed. *)
Definition seeded_exactly (profile : Profile) (w w' : World) : Prop :=
  exists evs,
    events_since w w' evs
    /\ installed_scripts evs
       = [injection_script profile (seed_at env (draws w))]
    /\ draws w' = S (draws w).

End ExactSeedNotions.


(** ** The rest of the manager *)

Section ManagerAccessors.
Context {RT : PyRuntime}.

(** [get_running_profile]. *)
Definition get_running_profile (profile_id : string)
    : M (option SessionHandle) :=
  running <- get_running ;; ret (PyDict.get profile_id running).

End ManagerAccessors.


Section StopNotions.
Context {RT : PyRuntime} (env : Env).

(** The line [stop_profile] prints when the graceful exit raised [e]. *)
Definition closing_error (e : PyExc) : Event :=
  EvPrint ("⚠️ Error closing browser: " ++ exc_msg e).

(** The calls of a forced kill that starts at tick [t], most recent first:
    none without a truthy pid; else the process is looked up, then
    terminated, then waited for five seconds, up to the first call that
    raises. *)
Definition kill_attempt (t : nat) (data : SessionHandle) : list Event :=
  match pid data with
  | Some p =>
      if pid_truthy (pid data) then
        match fails env t (psutil_Process p) with
        | Some e => [EvCall (psutil_Process p) (Some e)]
        | None =>
            match fails env (S t) (process_terminate p) with
            | Some e => [EvCall (process_terminate p) (Some e);
                         EvCall (psutil_Process p) None]
            | None =>
                [EvCall (process_wait p 5)
                        (fails env (S (S t)) (process_wait p 5));
                 EvCall (process_terminate p) None;
                 EvCall (psutil_Process p) None]
            end
        end
      else []
  | None => []
  end.

End StopNotions.


(** The number of occurrences of a character in a string. *)
Fixpoint count_char (c : ascii) (s : string) : nat :=
  match s with
  | EmptyString => 0
  | String d rest =>
      if Ascii.eqb d c then S (count_char c rest) else count_char c rest
  end.

(** The [chromium_arg] that [start_profile] hands to [SB]. *)
Definition chromium_arg (chrome_options : list string) : string :=
  PyStr.join "," chrome_options.


Section StartTraceNotions.
Context {RT : PyRuntime} (env : Env).

(** A process lookup of [get_stats]. *)
Definition is_memory_lookup (ev : Event) : bool :=
  match ev with
  | EvCall (psutil_Process _) _ => true
  | EvCall (process_memory_info _) _ => true
  | _ => false
  end.

(** How [start_profile] opens the start page number [idx]: the first by
    navigation, the others in new tabs. *)
Definition open_page (ctx : nat) (idx : nat) (page_url : string) : ExtCall :=
  if Nat.eqb idx 0 then driver_get ctx page_url
  else driver_execute_script ctx
         ("window.open('" ++ page_url ++ "', '_blank');").

(** The start pages opened without error, oldest first. *)
Definition pages_opened (ctx : nat) (numbered : list (nat * string))
    : list Event :=
  map (fun entry => EvCall (open_page ctx (fst entry) (snd entry)) None)
      numbered.

(** The first three calls of a launch that got as far as the blank page,
    most recent first. *)
Definition browser_launched (ctx : nat) (profile : Profile)
    (chrome_options : list string) : list Event :=
  [ EvCall (driver_get ctx "about:blank") None;
    EvCall (SB_enter ctx) None;
    EvCall (SB_new (user_data_dir_of env profile)
                   (chromium_arg chrome_options) (locale_of profile)) None ].

(** The line [start_profile] prints when its [try] block raised [e]. *)
Definition start_error (profile : Profile) (e : PyExc) : Event :=
  EvPrint ("❌ Failed to start profile " ++ name profile ++ ": " ++ exc_msg e).

End StartTraceNotions.


Section FailureNotions.
Context {RT : PyRuntime} (env : Env).

(** Whatever a call to the outside raises derives from [Exception]: no
    [KeyboardInterrupt], no [SystemExit]. *)
Definition ordinary_failures : Prop :=
  forall t c e, fails env t c = Some e -> exc_is_Exception e = true.

(** Whatever [m] raises derives from [Exception]. *)
Definition raises_ordinarily {A} (m : M A) : Prop :=
  forall w e, fst (m w) = Raise e -> exc_is_Exception e = true.

(** The line [_apply_fingerprint_overrides] prints when it caught [e]. *)
Definition injection_error (e : PyExc) : Event :=
  EvPrint ("⚠️ Error applying fingerprint overrides: " ++ exc_msg e).

End FailureNotions.


(** * Fingerprint generation: app/services/fingerprint_service.py *)

Definition KeyError (key : string) : PyExc :=
  mkExc "KeyError" ("'" ++ key ++ "'") true.
Definition IndexError (msg : string) : PyExc := mkExc "IndexError" msg true.

(** [d[k]]: a missing key raises [KeyError]. *)
Definition dict_item {V} (d : PyDict.t V) (k : string) : Res V :=
  match PyDict.get k d with
  | Some v => Ok v
  | None => Raise (KeyError k)
  end.

Section Random.
Context {RT : PyRuntime} (env : Env).

(** [random.choice(seq)]: the element at the next draw, brought into the
    indices of [seq]; an empty sequence raises [IndexError]. The draws are
    those of the generator [random.randint] uses. *)
Definition choice {A} (seq : list A) : M A :=
  fun w =>
    match nth_error seq
            (Z.to_nat (rand_raw env (draws w) mod Z.of_nat (List.length seq)))
    with
    | Some x =>
        (Ok x,
         mkWorld (running_profiles w) (clock w) (trace w) (S (draws w)))
    | None => (Raise (IndexError "Cannot choose from an empty sequence"), w)
    end.

End Random.

Module FingerprintService.

Definition USER_AGENTS : PyDict.t string :=
  [ ("Chrome 120 Windows",
     "Mozilla/5.0 (Windows NT 10.0; Win64; x64) AppleWebKit/537.36 (KHTML, like Gecko) Chrome/120.0.0.0 Safari/537.36");
    ("Chrome 119 Windows",
     "Mozilla/5.0 (Windows NT 10.0; Win64; x64) AppleWebKit/537.36 (KHTML, like Gecko) Chrome/119.0.0.0 Safari/537.36");
    ("Chrome 120 Mac",
     "Mozilla/5.0 (Macintosh; Intel Mac OS X 10_15_7) AppleWebKit/537.36 (KHTML, like Gecko) Chrome/120.0.0.0 Safari/537.36");
    ("Edge 120 Windows",
     "Mozilla/5.0 (Windows NT 10.0; Win64; x64) AppleWebKit/537.36 (KHTML, like Gecko) Chrome/120.0.0.0 Safari/537.36 Edg/120.0.0.0") ].

Definition RESOLUTIONS : list string :=
  [ "1920x1080"; "1366x768"; "1536x864"; "1440x900"; "1600x900";
    "2560x1440"; "1280x1024" ].

Definition WEBGL_VENDORS : PyDict.t (list (string * string)) :=
  [ ("NVIDIA",
     [ ("Google Inc. (NVIDIA)",
        "ANGLE (NVIDIA GeForce GTX 1060 6GB Direct3D11 vs_5_0 ps_5_0)");
       ("Google Inc. (NVIDIA)",
        "ANGLE (NVIDIA GeForce RTX 3060 Direct3D11 vs_5_0 ps_5_0)");
       ("Google Inc. (NVIDIA)",
        "ANGLE (NVIDIA GeForce RTX 4070 Direct3D11 vs_5_0 ps_5_0)");
       ("Google Inc. (NVIDIA)",
        "ANGLE (NVIDIA GeForce GTX 1660 Super Direct3D11 vs_5_0 ps_5_0)") ]);
    ("AMD",
     [ ("Google Inc. (AMD)",
        "ANGLE (AMD Radeon RX 6750 XT Direct3D11 vs_5_0 ps_5_0)");
       ("Google Inc. (AMD)",
        "ANGLE (AMD Radeon RX 7900 XT Direct3D11 vs_5_0 ps_5_0)");
       ("Google Inc. (AMD)",
        "ANGLE (AMD Radeon RX 580 Series Direct3D11 vs_5_0 ps_5_0)") ]);
    ("Intel",
     [ ("Google Inc. (Intel)",
        "ANGLE (Intel UHD Graphics 630 Direct3D11 vs_5_0 ps_5_0)");
       ("Google Inc. (Intel)",
        "ANGLE (Intel Iris Xe Graphics Direct3D11 vs_5_0 ps_5_0)") ]);
    ("Apple",
     [ ("Apple",
        "ANGLE (Apple, ANGLE Metal Renderer: Apple M1, Unspecified Version)");
       ("Apple",
        "ANGLE (Apple, ANGLE Metal Renderer: Apple M2, Unspecified Version)") ]) ].

Definition LANGUAGES : list string :=
  [ "en-US,en;q=0.9"; "en-GB,en;q=0.9"; "en-US,en;q=0.9,es;q=0.8";
    "en-US,en;q=0.9,fr;q=0.8" ].

Definition TIMEZONES_US : list string :=
  [ "America/New_York"; "America/Chicago"; "America/Denver";
    "America/Los_Angeles" ].

Section Generators.
Context {RT : PyRuntime} (env : Env).

(** [generate_windows_fingerprint]. *)
Definition generate_windows_fingerprint : M (PyDict.t PyVal) :=
  (* Pick GPU vendor *)
  vendor <- choice env ["NVIDIA"; "AMD"; "Intel"] ;;
  configs <- lift (dict_item WEBGL_VENDORS vendor) ;;
  gpu <- choice env configs ;;
  let webgl_vendor := fst gpu in
  let webgl_renderer := snd gpu in
  user_agent <- lift (dict_item USER_AGENTS "Chrome 120 Windows") ;;
  screen_resolution <- choice env RESOLUTIONS ;;
  language <- choice env LANGUAGES ;;
  timezone <- choice env TIMEZONES_US ;;
  cpu_cores <- choice env [4; 6; 8; 12; 16] ;;
  memory_gb <- choice env [8; 16; 32] ;;
  ret [ ("os", PStr "Windows 10");
        ("browser", PStr "Chrome 120.0.0.0");
        ("user_agent", PStr user_agent);
        ("screen_resolution", PStr screen_resolution);
        ("language", PStr language);
        ("timezone", PStr timezone);
        ("cpu_cores", PInt cpu_cores);
        ("memory_gb", PInt memory_gb);
        ("webgl_vendor", PStr webgl_vendor);
        ("webgl_renderer", PStr webgl_renderer);
        ("webrtc_mode", PStr "altered");
        ("canvas_mode", PStr "noise");
        ("audio_mode", PStr "noise") ].

(** [generate_mac_fingerprint]. *)
Definition generate_mac_fingerprint : M (PyDict.t PyVal) :=
  configs <- lift (dict_item WEBGL_VENDORS "Apple") ;;
  gpu <- choice env configs ;;
  let webgl_vendor := fst gpu in
  let webgl_renderer := snd gpu in
  user_agent <- lift (dict_item USER_AGENTS "Chrome 120 Mac") ;;
  screen_resolution <- choice env ["1920x1080"; "2560x1440"; "2880x1800"] ;;
  language <- choice env LANGUAGES ;;
  cpu_cores <- choice env [8; 10] ;;
  memory_gb <- choice env [8; 16; 32; 64] ;;
  ret [ ("os", PStr "Mac OS X 14.7.2");
        ("browser", PStr "Chrome 120.0.0.0");
        ("user_agent", PStr user_agent);
        ("screen_resolution", PStr screen_resolution);
        ("language", PStr language);
        ("timezone", PStr "America/Los_Angeles");
        ("cpu_cores", PInt cpu_cores);
        ("memory_gb", PInt memory_gb);
        ("webgl_vendor", PStr webgl_vendor);
        ("webgl_renderer", PStr webgl_renderer);
        ("webrtc_mode", PStr "altered");
        ("canvas_mode", PStr "noise");
        ("audio_mode", PStr "noise") ].

(** [generate_random]. *)
Definition generate_random : M (PyDict.t PyVal) :=
  os_type <- choice env ["Windows"; "Mac"] ;;
  if String.eqb os_type "Windows" then generate_windows_fingerprint
  else generate_mac_fingerprint.

End Generators.

(** [get_user_agent_by_browser]. *)
Definition get_user_agent_by_browser (os browser version : string) : string :=
  if PyStr.contains "Windows" os then
    if PyStr.contains "Edge" browser then
      "Mozilla/5.0 (Windows NT 10.0; Win64; x64) AppleWebKit/537.36 (KHTML, like Gecko) Chrome/"
        ++ version ++ " Safari/537.36 Edg/" ++ version
    else
      "Mozilla/5.0 (Windows NT 10.0; Win64; x64) AppleWebKit/537.36 (KHTML, like Gecko) Chrome/"
        ++ version ++ " Safari/537.36"
  else if PyStr.contains "Mac" os then
    "Mozilla/5.0 (Macintosh; Intel Mac OS X 10_15_7) AppleWebKit/537.36 (KHTML, like Gecko) Chrome/"
      ++ version ++ " Safari/537.36"
  else
    "Mozilla/5.0 (X11; Linux x86_64) AppleWebKit/537.36 (KHTML, like Gecko) Chrome/"
      ++ version ++ " Safari/537.36".

(** [get_predefined_configs]. *)
Definition get_predefined_configs : Res (PyDict.t (PyDict.t string)) :=
  match dict_item USER_AGENTS "Chrome 120 Windows",
        dict_item USER_AGENTS "Chrome 120 Mac",
        dict_item USER_AGENTS "Edge 120 Windows" with
  | Ok chrome_windows, Ok chrome_mac, Ok edge_windows =>
      Ok [ ("1839115",
            [ ("browser", "Chrome 120.0.0.0");
              ("os", "Windows 10");
              ("screen", "1920x1080");
              ("useragent", chrome_windows);
              ("webgl",
               "ANGLE (NVIDIA, NVIDIA GeForce RTX 3060 Direct3D11 vs_5_0 ps_5_0)") ]);
           ("1839116",
            [ ("browser", "Chrome 120.0.0.0");
              ("os", "Mac OS X 14.7.2");
              ("screen", "2880x1800");
              ("useragent", chrome_mac);
              ("webgl",
               "ANGLE (Apple, ANGLE Metal Renderer: Apple M1, Unspecified Version)") ]);
           ("1839117",
            [ ("browser", "Edge 120.0.0.0");
              ("os", "Windows 10");
              ("screen", "1536x864");
              ("useragent", edge_windows);
              ("webgl",
               "ANGLE (Intel, Intel Iris Xe Graphics Direct3D11 vs_5_0 ps_5_0)") ]) ]
  | Raise e, _, _ => Raise e
  | _, Raise e, _ => Raise e
  | _, _, Raise e => Raise e
  end.

End FingerprintService.

Section FingerprintNotions.
Context {RT : PyRuntime}.

(** The string under [key] in a generated fingerprint. *)
Definition text_of (fingerprint : PyDict.t PyVal) (key : string)
    : option string :=
  match PyDict.get key fingerprint with
  | Some (PStr s) => Some s
  | _ => None
  end.

(** A resolution that is a width and a height around one ['x']. *)
Definition splits_in_two (resolution : string) : bool :=
  match PyStr.split "x" resolution with
  | [_; _] => true
  | _ => false
  end.

(** The launch arguments build for every profile with this resolution, and
    start with its window-size flag. *)
Definition launchable (resolution : string) : Prop :=
  exists width height,
    resolution = (width ++ "x" ++ height)%string
    /\ forall profile dir extra,
         screen_resolution profile = resolution ->
         _build_chrome_options profile dir extra
         = Ok (window_size_flag width height
                 :: flags_after_window_size profile extra).

End FingerprintNotions.


Section FingerprintCoherence.
Context {RT : PyRuntime}.

(** A fingerprint whose parts fit together: the user agent is the one
    [get_user_agent_by_browser] gives for its operating system and Chrome
    120; a Windows fingerprint maps to the platform Win32 and has a GPU of
    the NVIDIA, AMD or Intel table; a Mac fingerprint maps to MacIntel and
    has a GPU of the Apple table. *)
Definition coherent (fingerprint : PyDict.t PyVal) : Prop :=
  exists os_name agent vendor renderer,
    text_of fingerprint "os" = Some os_name
    /\ text_of fingerprint "user_agent" = Some agent
    /\ text_of fingerprint "webgl_vendor" = Some vendor
    /\ text_of fingerprint "webgl_renderer" = Some renderer
    /\ agent
       = FingerprintService.get_user_agent_by_browser os_name "Chrome"
                                                      "120.0.0.0"
    /\ ((os_name = "Windows 10"
         /\ _get_platform_from_os os_name = "Win32"
         /\ exists gpu configs,
              In gpu ["NVIDIA"; "AMD"; "Intel"]
              /\ PyDict.get gpu FingerprintService.WEBGL_VENDORS
                 = Some configs
              /\ In (vendor, renderer) configs)
        \/ (os_name = "Mac OS X 14.7.2"
            /\ _get_platform_from_os os_name = "MacIntel"
            /\ vendor = "Apple"
            /\ exists configs,
                 PyDict.get "Apple" FingerprintService.WEBGL_VENDORS
                 = Some configs
                 /\ In (vendor, renderer) configs)).

(** A profile that takes its resolution and language from this
    fingerprint launches: the resolution builds the window-size flag, and
    the locale is one of the two English ones. *)
Definition launches (fingerprint : PyDict.t PyVal) : Prop :=
  exists resolution language_tags,
    text_of fingerprint "screen_resolution" = Some resolution
    /\ text_of fingerprint "language" = Some language_tags
    /\ launchable resolution
    /\ forall profile,
         language profile = language_tags ->
         locale_of profile = "en-US" \/ locale_of profile = "en-GB".

End FingerprintCoherence.


(** * The interaction bridge: [cdp_click] and [cdp_type]

    The two methods work on the [sb] object of a registered session. Their
    calls are traced on their own, with the manager's state beside them;
    the session is named by its number, as in the registry. *)

Section Bridge.
Context {RT : PyRuntime}.

(** The methods of [sb] the bridge calls. *)
Inductive SbCall : Type :=
| sb_get_current_url (ctx : nat)
| sb_cdp_activate (ctx : nat) (url : string)
| sb_cdp_click (ctx : nat) (selector : string)
| sb_cdp_type (ctx : nat) (selector text : string)
| sb_cdp_reconnect (ctx : nat).

(** What the browser answers: whether a call raises, and the address of the
    page a session shows. *)
Record SbEnv : Type := mkSbEnv {
  sb_fails : nat -> SbCall -> option PyExc;
  current_url : nat -> string
}.

(** The manager's state, and the calls of the bridge so far, most recent
    first, with a clock that ticks at each of them. *)
Record BridgeWorld : Type := mkBridge {
  manager : World;
  sb_clock : nat;
  sb_trace : list (SbCall * option PyExc)
}.

Definition B (A : Type) : Type := BridgeWorld -> Res A * BridgeWorld.

Definition sb_then {A C} (m : B A) (k : A -> B C) : B C :=
  fun b => match m b with
           | (Ok a, b') => k a b'
           | (Raise e, b') => (Raise e, b')
           end.

Definition sb_call (sbenv : SbEnv) (c : SbCall) : B nat :=
  fun b =>
    let outcome := sb_fails sbenv (sb_clock b) c in
    let b' := mkBridge (manager b) (S (sb_clock b))
                       ((c, outcome) :: sb_trace b) in
    match outcome with
    | Some e => (Raise e, b')
    | None => (Ok (sb_clock b), b')
    end.

(** [self.get_running_profile(profile_id)], read in the manager's state. *)
Definition running_data (profile_id : string) : B (option SessionHandle) :=
  fun b => (fst (get_running_profile profile_id (manager b)), b).

(** [cdp_click]. *)
Definition cdp_click (sbenv : SbEnv) (profile_id selector : string) : B unit :=
  sb_then (running_data profile_id) (fun data =>
  match data with
  | None => fun b => (Ok tt, b)
  | Some data =>
      let sb := sb_context data in
      (* Use CDP mode to find element and click *)
      sb_then (sb_call sbenv (sb_get_current_url sb)) (fun t =>
      sb_then (sb_call sbenv (sb_cdp_activate sb (current_url sbenv t)))
        (fun _ =>
      sb_then (sb_call sbenv (sb_cdp_click sb selector)) (fun _ =>
      sb_then (sb_call sbenv (sb_cdp_reconnect sb)) (fun _ =>
      fun b => (Ok tt, b)))))
  end).

(** [cdp_type]. *)
Definition cdp_type (sbenv : SbEnv) (profile_id selector text : string)
    : B unit :=
  sb_then (running_data profile_id) (fun data =>
  match data with
  | None => fun b => (Ok tt, b)
  | Some data =>
      let sb := sb_context data in
      sb_then (sb_call sbenv (sb_get_current_url sb)) (fun t =>
      sb_then (sb_call sbenv (sb_cdp_activate sb (current_url sbenv t)))
        (fun _ =>
      sb_then (sb_call sbenv (sb_cdp_type sb selector text)) (fun _ =>
      sb_then (sb_call sbenv (sb_cdp_reconnect sb)) (fun _ =>
      fun b => (Ok tt, b)))))
  end).

(** The calls of one interaction with session [sb] that starts at tick
    [t], most recent first: the address is read, CDP mode is switched on
    for that address, the action is done, the driver is reconnected; up to
    the first call that raises. *)
Definition interaction (sbenv : SbEnv) (t : nat) (sb : nat)
    (action : SbCall) : list (SbCall * option PyExc) :=
  let url := current_url sbenv t in
  match sb_fails sbenv t (sb_get_current_url sb) with
  | Some e => [(sb_get_current_url sb, Some e)]
  | None =>
      match sb_fails sbenv (S t) (sb_cdp_activate sb url) with
      | Some e => [(sb_cdp_activate sb url, Some e);
                   (sb_get_current_url sb, None)]
      | None =>
          match sb_fails sbenv (S (S t)) action with
          | Some e => [(action, Some e);
                       (sb_cdp_activate sb url, None);
                       (sb_get_current_url sb, None)]
          | None =>
              [(sb_cdp_reconnect sb,
                sb_fails sbenv (S (S (S t))) (sb_cdp_reconnect sb));
               (action, None);
               (sb_cdp_activate sb url, None);
               (sb_get_current_url sb, None)]
          end
      end
  end.

(** The first exception among the calls of an interaction, if any. *)
Definition first_raised (calls : list (SbCall * option PyExc))
    : Res unit :=
  match calls with
  | (_, Some e) :: _ => Raise e
  | _ => Ok tt
  end.

End Bridge.


(** ** The aggregate of the statistics, as specified *)

Section AggregateNotions.
Context {RT : PyRuntime}.

(** The memory aggregate over the sizes read, in bytes: each size in
    megabytes, the megabytes added up in the order read, the sum rounded to
    two digits. Without a size read it is the integer 0. *)
Definition aggregate_memory (sizes : list Z) : PyNum :=
  match sizes with
  | [] => NInt 0
  | _ :: _ =>
      NFloat
        (float_round
           (fold_left (fun sum size => float_add sum (int_truediv size 1048576))
                      sizes (float_of_int 0))
           2)
  end.

End AggregateNotions.

(** ** The stages of the injection *)

Section InjectionNotions.
Context {RT : PyRuntime} (env : Env).

(** The call [c] raises when made at tick [t]. *)
Definition raises (t : nat) (c : ExtCall) : bool :=
  match fails env t c with Some _ => true | None => false end.

(** The commands of [_apply_fingerprint_overrides] that end the injection
    when they raise, in the order the code sends them: the switch to CDP
    mode, the user-agent override, the installation of the script, the
    timezone override. *)
Definition activate_step (ctx : nat) : ExtCall :=
  sb_activate_cdp_mode ctx "about:blank".

Definition agent_step (ctx : nat) (profile : Profile) : ExtCall :=
  driver_execute_cdp_cmd ctx (Network_setUserAgentOverride (user_agent profile)).

Definition install_step (ctx : nat) (profile : Profile) (noise_seed : Z)
    : ExtCall :=
  driver_execute_cdp_cmd ctx
    (Page_addScriptToEvaluateOnNewDocument (injection_script profile noise_seed)).

Definition timezone_step (ctx : nat) (tz : string) : ExtCall :=
  driver_execute_cdp_cmd ctx (Emulation_setTimezoneOverride tz).

(** The timezone of a profile that has one. *)
Definition timezone_of (profile : Profile) : option string :=
  match timezone profile with
  | Some tz => if PyStr.truthy tz then Some tz else None
  | None => None
  end.

(** The ticks of an injection that starts at tick [t]: the block list takes
    one tick when ad-blocking is on (whether it raises or not), the
    user-agent override one when the profile has a user agent, the timezone
    override one when it has a timezone. *)
Definition agent_tick (t : nat) (profile : Profile) : nat :=
  if adblock_enabled profile then S (S t) else S t.

Definition install_tick (t : nat) (profile : Profile) : nat :=
  if PyStr.truthy (user_agent profile) then S (agent_tick t profile)
  else agent_tick t profile.

Definition timezone_tick (t : nat) (profile : Profile) : nat :=
  S (install_tick t profile).

Definition geolocation_tick (t : nat) (profile : Profile) : nat :=
  match timezone_of profile with
  | Some _ => S (timezone_tick t profile)
  | None => timezone_tick t profile
  end.

(** The injection that starts at tick [t] gets as far as drawing the seed:
    the switch to CDP mode does not raise, and neither does the user-agent
    override of a profile that has a user agent. *)
Definition reaches_draw (t : nat) (ctx : nat) (profile : Profile) : bool :=
  negb (raises t (activate_step ctx))
  && (negb (PyStr.truthy (user_agent profile))
      || negb (raises (agent_tick t profile) (agent_step ctx profile))).

(** It installs the script with the seed drawn: it gets as far as the draw,
    and the installation does not raise. *)
Definition installs_script (t : nat) (ctx : nat) (profile : Profile)
    (noise_seed : Z) : bool :=
  reaches_draw t ctx profile
  && negb (raises (install_tick t profile)
                  (install_step ctx profile noise_seed)).

(** It gets as far as the geolocation step: it installs the script, and the
    timezone override of a profile that has a timezone does not raise. *)
Definition reaches_geolocation (t : nat) (ctx : nat) (profile : Profile)
    (noise_seed : Z) : bool :=
  installs_script t ctx profile noise_seed
  && match timezone_of profile with
     | Some tz => negb (raises (timezone_tick t profile) (timezone_step ctx tz))
     | None => true
     end.

(** The steps of the injection after the installation of the script. *)
Definition injection_tail (ctx : nat) (profile : Profile) : M unit :=
  (match timezone profile with
   | Some tz =>
       if PyStr.truthy tz then
         call env (driver_execute_cdp_cmd ctx
                     (Emulation_setTimezoneOverride tz)) ;;
         ret tt
       else ret tt
   | None => ret tt
   end) ;;
  apply_geolocation env ctx profile ;;
  call env (sb_reconnect ctx) ;;
  ret tt.

(** What the injection does with an exception it caught. *)
Definition injection_handler (e : PyExc) : M unit :=
  print ("⚠️ Error applying fingerprint overrides: " ++ exc_msg e).

(** The events of the geolocation step made at tick [t] for the
    coordinates [lat] and [lon], most recent first: the grant, and after a
    grant that did not raise the override. *)
Definition geolocation_events (t : nat) (ctx : nat) (lat lon : pyfloat)
    : list Event :=
  match fails env t (grant_geolocation ctx) with
  | Some e => [EvCall (grant_geolocation ctx) (Some e)]
  | None =>
      [ EvCall (override_geolocation ctx lat lon)
               (fails env (S t) (override_geolocation ctx lat lon));
        EvCall (grant_geolocation ctx) None ]
  end.

End InjectionNotions.

(** * Properties *)

(** ** Strings and dictionaries *)

Lemma split_nonempty (sep : ascii) (s : string) : PyStr.split sep s <> [].
Proof.
  destruct s as [|c rest]; simpl; [discriminate|].
  destruct (Ascii.eqb c sep); [discriminate|].
  destruct (PyStr.split sep rest); discriminate.
Qed.

Lemma split_without_sep (sep : ascii) (s : string) :
  PyStr.has_char sep s = false -> PyStr.split sep s = [s].
Proof.
  induction s as [|c rest IH]; simpl; intros H; [reflexivity|].
  apply orb_false_iff in H as [Hc Hrest].
  rewrite Hc, (IH Hrest). reflexivity.
Qed.

Section DictFacts.
Context {V : Type}.
Implicit Types (d : PyDict.t V) (k : string) (v : V).

Lemma dict_mem_get k d :
  PyDict.mem k d = true <-> exists v, PyDict.get k d = Some v.
Proof.
  unfold PyDict.mem. destruct (PyDict.get k d); split; intros H;
    try discriminate; eauto. destruct H; discriminate.
Qed.

Lemma dict_get_del_same k d : PyDict.get k (PyDict.del k d) = None.
Proof.
  induction d as [|[k' v'] rest IH]; simpl; [reflexivity|].
  destruct (String.eqb k k') eqn:E; simpl; [exact IH|].
  rewrite E. exact IH.
Qed.

Lemma dict_mem_del_same k d : PyDict.mem k (PyDict.del k d) = false.
Proof. unfold PyDict.mem. now rewrite dict_get_del_same. Qed.

Lemma dict_get_set_same k v d : PyDict.get k (PyDict.set k v d) = Some v.
Proof.
  induction d as [|[k' v'] rest IH]; simpl.
  - now rewrite String.eqb_refl.
  - destruct (String.eqb k k') eqn:E; simpl; rewrite E; [reflexivity|exact IH].
Qed.


Lemma dict_del_absent k d :
  ~ In k (PyDict.keys d) -> PyDict.del k d = d.
Proof.
  induction d as [|[k' v'] rest IH]; simpl; intros H; [reflexivity|].
  destruct (String.eqb k k') eqn:E.
  - apply String.eqb_eq in E. subst. tauto.
  - simpl. f_equal. apply IH. tauto.
Qed.

Lemma dict_keys_del k d :
  PyDict.keys (PyDict.del k d)
  = filter (fun k' => negb (String.eqb k k')) (PyDict.keys d).
Proof.
  induction d as [|[k' v'] rest IH]; simpl; [reflexivity|].
  destruct (String.eqb k k'); simpl; now rewrite IH.
Qed.

(** [set] and [del] keep the keys of a dictionary unique. *)
Lemma dict_wf_del k d : PyDict.wf d -> PyDict.wf (PyDict.del k d).
Proof.
  unfold PyDict.wf. rewrite dict_keys_del. apply NoDup_filter.
Qed.

Lemma dict_keys_set k v d :
  PyDict.keys (PyDict.set k v d)
  = if PyDict.mem k d then PyDict.keys d else (PyDict.keys d ++ [k])%list.
Proof.
  unfold PyDict.mem.
  induction d as [|[k' v'] rest IH]; simpl; [reflexivity|].
  destruct (String.eqb k k') eqn:E; simpl; [reflexivity|].
  rewrite IH. now destruct (PyDict.get k rest).
Qed.

Lemma dict_wf_set k v d : PyDict.wf d -> PyDict.wf (PyDict.set k v d).
Proof.
  unfold PyDict.wf. rewrite dict_keys_set. intros H.
  destruct (PyDict.mem k d) eqn:E; [exact H|].
  apply NoDup_app; [exact H | repeat constructor; simpl; tauto |].
  intros x Hx [Hk|[]]. subst x.
  unfold PyDict.mem in E. clear H.
  induction d as [|[k' v'] rest IH]; simpl in *; [tauto|].
  destruct (String.eqb k k') eqn:E'; [discriminate|].
  destruct Hx as [->|Hx]; [now rewrite String.eqb_refl in E'|auto].
Qed.

End DictFacts.

(** ** Launch arguments *)

Lemma build_after_window_size profile dir extra :
  PyStr.truthy (screen_resolution profile) = false ->
  _build_chrome_options profile dir extra
  = Ok (flags_after_window_size profile extra).
Proof.
  intros H. unfold _build_chrome_options, flags_after_window_size.
  rewrite H. unfold list_append, list_extend.
  destruct (proxy_string profile) as [p|]; [destruct (PyStr.truthy p)|];
    destruct (opt_eqb (webrtc_mode profile) "disabled"); reflexivity.
Qed.

Lemma build_well_formed profile dir extra width height :
  PyStr.split "x" (screen_resolution profile) = [width; height] ->
  _build_chrome_options profile dir extra
  = Ok (window_size_flag width height
          :: flags_after_window_size profile extra).
Proof.
  intros H. unfold _build_chrome_options, flags_after_window_size.
  rewrite H.
  assert (Ht : PyStr.truthy (screen_resolution profile) = true).
  { destruct (screen_resolution profile); [discriminate H | reflexivity]. }
  rewrite Ht. unfold unpack2, list_append, list_extend.
  destruct (proxy_string profile) as [p|]; [destruct (PyStr.truthy p)|];
    destruct (opt_eqb (webrtc_mode profile) "disabled"); reflexivity.
Qed.

Lemma build_malformed profile dir extra :
  PyStr.truthy (screen_resolution profile) = true ->
  List.length (PyStr.split "x" (screen_resolution profile)) <> 2%nat ->
  exists msg, _build_chrome_options profile dir extra = Raise (ValueError msg).
Proof.
  intros Ht Hlen. unfold _build_chrome_options. rewrite Ht.
  destruct (PyStr.split "x" (screen_resolution profile))
    as [|a [|b [|c rest]]]; simpl in *; try (eexists; reflexivity).
  congruence.
Qed.

(** C5, as the code has it. A resolution that splits on ['x'] into exactly
    a width and a height yields the window-size flag with that width and
    height, in front of the other flags; an empty resolution yields the
    other flags alone; any other resolution makes [_build_chrome_options]
    raise [ValueError], and the flag list is not built. *)
Theorem build_chrome_options_window_size profile dir extra :
  (forall width height,
      PyStr.split "x" (screen_resolution profile) = [width; height] ->
      _build_chrome_options profile dir extra
      = Ok (("--window-size=" ++ width ++ "," ++ height)
              :: flags_after_window_size profile extra))
  /\ (screen_resolution profile = "" ->
      _build_chrome_options profile dir extra
      = Ok (flags_after_window_size profile extra))
  /\ (screen_resolution profile <> "" ->
      List.length (PyStr.split "x" (screen_resolution profile)) <> 2%nat ->
      exists msg,
        _build_chrome_options profile dir extra = Raise (ValueError msg)).
Proof.
  split; [|split].
  - intros width height H. now apply build_well_formed.
  - intros H. apply build_after_window_size. now rewrite H.
  - intros Hne Hlen. apply build_malformed; [|exact Hlen].
    destruct (screen_resolution profile); [congruence | reflexivity].
Qed.

(** The spec's scenario for C5: resolution "1920x1080", a socks5 proxy and
    WebRTC disabled. *)
Lemma build_chrome_options_window_size_witness :
  _build_chrome_options Sample.p1 "/data" ["--mute-audio"]
  = Ok [ "--window-size=1920,1080";
         "--proxy-server=socks5://u:p@host:1080";
         "--disable-webrtc"; "--mute-audio" ]
  /\ _build_chrome_options (Sample.with_resolution Sample.p1 "") "/data" []
     = Ok [ "--proxy-server=socks5://u:p@host:1080"; "--disable-webrtc" ]
  /\ exists msg,
       _build_chrome_options (Sample.with_resolution Sample.p1 "1920")
                             "/data" []
       = Raise (ValueError msg).
Proof.
  pose proof (build_chrome_options_window_size
                Sample.p1 "/data" ["--mute-audio"]) as [Hwell _].
  pose proof (build_chrome_options_window_size
                (Sample.with_resolution Sample.p1 "") "/data" [])
    as [_ [Hempty _]].
  pose proof (build_chrome_options_window_size
                (Sample.with_resolution Sample.p1 "1920") "/data" [])
    as [_ [_ Hbad]].
  split; [|split].
  - exact (Hwell "1920" "1080" eq_refl).
  - exact (Hempty eq_refl).
  - apply Hbad; simpl; [discriminate | lia].
Defined.

(** C5 as stated fails: a resolution without the separator is malformed,
    and building the launch arguments raises instead of omitting the flag. *)
Lemma malformed_resolution_raises :
  let profile := Sample.with_resolution Sample.p1 "1920" in
  PyStr.split "x" (screen_resolution profile) = ["1920"]
  /\ _build_chrome_options profile "/data" []
     = Raise (ValueError "not enough values to unpack (expected 2, got 1)")
  /\ ~ (exists options, _build_chrome_options profile "/data" [] = Ok options).
Proof.
  split; [reflexivity|]. split; [reflexivity|].
  intros [options H]. discriminate H.
Qed.

(** ** The canvas patch *)

Lemma clamp_u8_byte b : 0 <= b <= 255 -> clamp_u8 b = b.
Proof. unfold clamp_u8. lia. Qed.

Lemma array_store_length data i v :
  List.length (array_store data i v) = List.length data.
Proof.
  revert i. induction data as [|b rest IH]; intros [|j]; simpl; auto.
Qed.

Lemma array_store_same data i :
  u8_array data -> array_store data i (nth i data 0) = data.
Proof.
  unfold u8_array. intros H. revert i.
  induction H as [|b rest Hb Hrest IH]; intros [|j]; simpl; try reflexivity.
  - now rewrite clamp_u8_byte.
  - now rewrite IH.
Qed.

Lemma nth_u8 data i : u8_array data -> 0 <= nth i data 0 <= 255.
Proof.
  unfold u8_array. intros H. revert i.
  induction H as [|b rest Hb Hrest IH]; intros [|j]; simpl; auto; lia.
Qed.

Lemma even_rem_2 seed : Z.even seed = true -> Z.rem seed 2 = 0.
Proof.
  intros H. apply Z.even_spec in H as [k ->].
  rewrite Z.mul_comm. apply Z.rem_mul. lia.
Qed.

Lemma canvas_loop_even fuel seed i data :
  Z.even seed = true -> u8_array data -> canvas_loop fuel seed i data = data.
Proof.
  intros Hs Hd. revert i. induction fuel as [|fuel IH]; intros i; simpl;
    [reflexivity|].
  destruct (Nat.ltb i (List.length data)); [|reflexivity].
  rewrite (even_rem_2 _ Hs), Z.add_0_r.
  rewrite Z.rem_small by (pose proof (nth_u8 data i Hd); lia).
  rewrite (array_store_same _ _ Hd). apply IH.
Qed.

(** The loop has stopped by itself when the fuel of [patched_getImageData]
    runs out: more fuel changes nothing, whatever the seed. *)
Lemma canvas_loop_enough_fuel seed extra fuel i data :
  (List.length data <= i + 4 * fuel)%nat ->
  canvas_loop (fuel + extra) seed i data = canvas_loop fuel seed i data.
Proof.
  revert i data. induction fuel as [|fuel IH]; intros i data Hlen; simpl.
  - destruct extra; simpl; [reflexivity|].
    destruct (Nat.ltb i (List.length data)) eqn:E; [|reflexivity].
    apply Nat.ltb_lt in E. lia.
  - destruct (Nat.ltb i (List.length data)); [|reflexivity].
    apply IH. rewrite array_store_length. lia.
Qed.

(** C10. For an even noise seed the patched pixel readback returns the
    buffer it was given, byte for byte; the loop has run to its end (more
    fuel gives the same buffer, whatever the seed); and 500 of the 1000
    seeds [random.randint(1, 1000)] can return are even. *)
Theorem canvas_noise_even_seed_identity :
  (forall seed data,
      Z.even seed = true -> u8_array data ->
      patched_getImageData seed data = data)
  /\ (forall seed data extra,
         canvas_loop (List.length data + extra) seed 0 data
         = patched_getImageData seed data)
  /\ List.length seed_range = 1000%nat
  /\ List.length (filter Z.even seed_range) = 500%nat
  /\ Forall (fun seed => 1 <= seed <= 1000) seed_range.
Proof.
  split; [|split; [|split; [|split]]].
  - intros seed data Hs Hd. now apply canvas_loop_even.
  - intros seed data extra. apply canvas_loop_enough_fuel. lia.
  - reflexivity.
  - vm_compute. reflexivity.
  - apply Forall_forall. intros seed Hin. unfold seed_range in Hin.
    apply in_map_iff in Hin as [n [<- Hn]]. apply in_seq in Hn. lia.
Qed.

(** Seed 42 on two pixels, the second with a saturated red channel. *)
Lemma canvas_noise_even_seed_identity_witness :
  patched_getImageData 42 [12; 200; 7; 255; 255; 0; 31; 255]
  = [12; 200; 7; 255; 255; 0; 31; 255].
Proof.
  destruct canvas_noise_even_seed_identity as [H _].
  apply (H 42 [12; 200; 7; 255; 255; 0; 31; 255]).
  - reflexivity.
  - unfold u8_array. repeat constructor; lia.
Defined.

(** An odd seed does perturb: it adds one to each red byte, wrapping 255
    to 0. *)
Example canvas_noise_odd_seed :
  patched_getImageData 41 [12; 200; 7; 255; 255; 0; 31; 255]
  = [13; 200; 7; 255; 0; 0; 31; 255].
Proof. reflexivity. Qed.

(** ** The monad *)

Section MonadFacts.
Context {RT : PyRuntime}.

Lemma bind_ok {A B} (m : M A) (k : A -> M B) w b w' :
  bind m k w = (Ok b, w') ->
  exists a w1, m w = (Ok a, w1) /\ k a w1 = (Ok b, w').
Proof.
  unfold bind. destruct (m w) as [[a|e] w1]; intros H; [eauto | discriminate].
Qed.

Lemma run_eq {A} (m : M A) w r : fst (m w) = r -> m w = (r, snd (m w)).
Proof. intros <-. apply surjective_pairing. Qed.

Section Respects.
Context (R : World -> World -> Prop) (R_refl : forall w, R w w)
        (R_trans : forall w1 w2 w3, R w1 w2 -> R w2 w3 -> R w1 w3).

Lemma respects_ret {A} (a : A) : respects R (ret a).
Proof. intros w. apply R_refl. Qed.

Lemma respects_raise {A} e : respects R (@raise _ A e).
Proof. intros w. apply R_refl. Qed.

Lemma respects_lift {A} (r : Res A) : respects R (lift r).
Proof. intros w. apply R_refl. Qed.

Lemma respects_bind {A B} (m : M A) (k : A -> M B) :
  respects R m -> (forall a, respects R (k a)) -> respects R (bind m k).
Proof.
  intros Hm Hk w. unfold bind. specialize (Hm w).
  destruct (m w) as [[a|e] w1]; simpl in *; [|exact Hm].
  eapply R_trans; [exact Hm | apply Hk].
Qed.

Lemma respects_try_except {A} (m : M A) catches handler :
  respects R m -> (forall e, respects R (handler e)) ->
  respects R (try_except m catches handler).
Proof.
  intros Hm Hh w. unfold try_except. specialize (Hm w).
  destruct (m w) as [[a|e] w1]; simpl in *; [exact Hm|].
  destruct (catches e); [|exact Hm].
  eapply R_trans; [exact Hm | apply Hh].
Qed.

Lemma respects_try_finally {A} (m : M A) cleanup :
  respects R m -> respects R cleanup -> respects R (try_finally m cleanup).
Proof.
  intros Hm Hc w. unfold try_finally. specialize (Hm w).
  destruct (m w) as [r w1]; simpl in *. specialize (Hc w1).
  destruct (cleanup w1) as [[u|e] w2]; simpl in *;
    eapply R_trans; eauto.
Qed.

Lemma respects_for_each {A} (items : list A) body :
  (forall x, respects R (body x)) -> respects R (for_each items body).
Proof.
  intros Hb. induction items as [|x rest IH]; simpl.
  - apply respects_ret.
  - apply respects_bind; auto.
Qed.

Lemma respects_get_running : respects R get_running.
Proof. intros w. apply R_refl. Qed.

End Respects.

End MonadFacts.

(** Walks through the structure of manager code for a [respects] goal;
    [refl] and [trans] are the two laws of the relation, and calls to the
    outside are left to [prim]. *)
Ltac respects_walk refl trans prim :=
  repeat (intros;
    first
      [ solve [prim]
      | apply (respects_ret _ refl)
      | apply (respects_raise _ refl)
      | apply (respects_lift _ refl)
      | apply (respects_get_running _ refl)
      | apply (respects_bind _ trans)
      | apply (respects_try_except _ trans)
      | apply (respects_try_finally _ trans)
      | apply (respects_for_each _ refl trans)
      | match goal with
        | |- respects _ (if ?b then _ else _) => destruct b
        | |- respects _ (match ?x with _ => _ end) => destruct x
        | |- respects _ (let _ := _ in _) => cbv zeta
        | |- respects _ ((fun _ => _) _) => cbv beta
        end ]).

(** ** What leaves the registry alone *)

Section RegistryFacts.
Context {RT : PyRuntime} (env : Env).

Lemma same_registry_refl w : same_registry w w.
Proof. reflexivity. Qed.

Lemma same_registry_trans w1 w2 w3 :
  same_registry w1 w2 -> same_registry w2 w3 -> same_registry w1 w3.
Proof. unfold same_registry. congruence. Qed.

Lemma call_same_registry c : respects same_registry (call env c).
Proof. intros w. unfold call. now destruct (fails env (clock w) c). Qed.

Lemma print_same_registry line : respects same_registry (print line).
Proof. intros w. reflexivity. Qed.

Lemma randint_same_registry a b : respects same_registry (randint env a b).
Proof. intros w. reflexivity. Qed.

Lemma now_same_registry : respects same_registry (datetime_now env).
Proof. intros w. reflexivity. Qed.

Ltac registry_prim :=
  first [ apply call_same_registry | apply print_same_registry
        | apply randint_same_registry | apply now_same_registry ].

Ltac registry_walk :=
  respects_walk same_registry_refl same_registry_trans registry_prim.

Lemma get_websocket_url_same_registry driver port :
  respects same_registry (_get_websocket_url env driver port).
Proof. unfold _get_websocket_url. registry_walk. Qed.

Lemma apply_geolocation_same_registry ctx profile :
  respects same_registry (apply_geolocation env ctx profile).
Proof. unfold apply_geolocation. registry_walk. Qed.

Lemma apply_fingerprint_same_registry ctx profile :
  respects same_registry (_apply_fingerprint_overrides env ctx profile).
Proof.
  unfold _apply_fingerprint_overrides.
  respects_walk same_registry_refl same_registry_trans
    ltac:(first [ registry_prim | apply apply_geolocation_same_registry ]).
Qed.

Lemma force_kill_same_registry data :
  respects same_registry (force_kill env data).
Proof. unfold force_kill. registry_walk. Qed.

End RegistryFacts.

(** ** Traces *)

Section TraceFacts.
Context {RT : PyRuntime} (env : Env).

Lemma only_events_refl P w : only_events P w w.
Proof. exists []. split; reflexivity. Qed.

Lemma only_events_trans P w1 w2 w3 :
  only_events P w1 w2 -> only_events P w2 w3 -> only_events P w1 w3.
Proof.
  intros [evs1 [H1 F1]] [evs2 [H2 F2]]. exists (evs2 ++ evs1)%list. split.
  - unfold events_since in *. rewrite H2, H1. apply app_assoc.
  - rewrite forallb_app. now rewrite F1, F2.
Qed.

Lemma call_only_events (P : Event -> bool) c :
  (forall raised, P (EvCall c raised) = true) ->
  respects (only_events P) (call env c).
Proof.
  intros HP w. exists [EvCall c (fails env (clock w) c)]. split.
  - unfold events_since, call. now destruct (fails env (clock w) c).
  - simpl. now rewrite HP.
Qed.

Lemma print_only_events (P : Event -> bool) line :
  P (EvPrint line) = true -> respects (only_events P) (print line).
Proof.
  intros HP w. exists [EvPrint line]. split; [reflexivity|].
  simpl. now rewrite HP.
Qed.

Lemma randint_only_events P a b : respects (only_events P) (randint env a b).
Proof. intros w. exists []. split; reflexivity. Qed.

Lemma now_only_events P : respects (only_events P) (datetime_now env).
Proof. intros w. apply only_events_refl. Qed.

Lemma set_running_only_events P d : respects (only_events P) (set_running d).
Proof. intros w. exists []. split; reflexivity. Qed.

Lemma exit_calls_app evs1 evs2 :
  exit_calls (evs1 ++ evs2) = (exit_calls evs1 ++ exit_calls evs2)%list.
Proof.
  induction evs1 as [|ev rest IH]; simpl; [reflexivity|].
  destruct ev as [[] raised|line]; simpl; now rewrite ?IH.
Qed.

Lemma no_exit_calls evs : forallb not_exit evs = true -> exit_calls evs = [].
Proof.
  induction evs as [|ev rest IH]; simpl; [reflexivity|].
  intros H. apply andb_true_iff in H as [Hev Hrest].
  destruct ev as [[] raised|line]; simpl in *; auto; discriminate.
Qed.

End TraceFacts.

Ltac events_prim env :=
  first [ apply (call_only_events env); intros; reflexivity
        | apply print_only_events; reflexivity
        | apply (randint_only_events env)
        | apply (now_only_events env)
        | apply set_running_only_events ].

Ltac events_walk env P :=
  respects_walk (only_events_refl P) (only_events_trans P)
                ltac:(events_prim env).

(** ** Stop and close-all *)

Section StopFacts.
Context {RT : PyRuntime} (env : Env).

Lemma force_kill_total data : total (force_kill env data).
Proof.
  intros w. unfold force_kill, try_except, except_all.
  match goal with |- context [match ?m w with _ => _ end] =>
    destruct (m w) as [[[]|e] w1] end; simpl; eauto.
Qed.

Lemma force_kill_no_exit data :
  respects (only_events not_exit) (force_kill env data).
Proof. unfold force_kill. events_walk env not_exit. Qed.

(** After [stop_profile] the registry is the one before without the id,
    whichever way the browser was closed and whatever was raised. *)
Lemma stop_registry profile_id w :
  running_profiles (snd (stop_profile env profile_id w))
  = PyDict.del profile_id (running_profiles w).
Proof.
  unfold stop_profile, bind at 1, get_running at 1.
  destruct (PyDict.get profile_id (running_profiles w)) as [data|] eqn:G.
  - unfold try_finally.
    match goal with |- context [match ?m w with _ => _ end] =>
      assert (Hkeep : respects same_registry m)
        by (respects_walk same_registry_refl same_registry_trans
              ltac:(first [ apply call_same_registry
                          | apply print_same_registry
                          | apply force_kill_same_registry ]));
      specialize (Hkeep w); destruct (m w) as [r w1]
    end.
    unfold same_registry in Hkeep. simpl in Hkeep.
    unfold bind, get_running. rewrite Hkeep.
    assert (Hmem : PyDict.mem profile_id (running_profiles w) = true)
      by (apply dict_mem_get; eauto).
    rewrite Hmem. reflexivity.
  - simpl. symmetry. apply dict_del_absent. intros Hin.
    clear -G Hin. induction (running_profiles w) as [|[k v] rest IH];
      simpl in *; [tauto|].
    destruct (String.eqb profile_id k) eqn:E; [discriminate|].
    destruct Hin as [->|Hin]; [now rewrite String.eqb_refl in E | auto].
Qed.

Lemma stop_absent profile_id w :
  PyDict.get profile_id (running_profiles w) = None ->
  stop_profile env profile_id w = (Raise (not_running profile_id), w).
Proof.
  intros G. unfold stop_profile, bind, get_running. now rewrite G.
Qed.

(** What [stop_profile] returns and traces for a registered session. *)
Lemma stop_present profile_id data w :
  PyDict.get profile_id (running_profiles w) = Some data ->
  fst (stop_profile env profile_id w)
  = stop_outcome (fails env (clock w) (SB_exit (sb_context data)))
  /\ exists evs,
       events_since w (snd (stop_profile env profile_id w)) evs
       /\ exit_calls evs = [sb_context data].
Proof.
  intros G. destruct (stop_profile env profile_id w) as [r w'] eqn:S.
  unfold stop_profile, bind, get_running, try_finally, try_except, call,
    print, ret, set_running, except_Exception in S.
  rewrite G in S. unfold stop_outcome, events_since. simpl.
  destruct (fails env (clock w) (SB_exit (sb_context data))) as [e|] eqn:F.
  - destruct (exc_is_Exception e) eqn:Ee.
    + match type of S with context [force_kill env data ?w0] =>
        destruct (force_kill_total data w0) as [[] Hok];
        destruct (force_kill_no_exit data w0) as [evs [Hevs Hno]];
        destruct (force_kill env data w0) as [r1 w1]
      end.
      simpl in Hok. subst r1. unfold events_since in Hevs. simpl in Hevs.
      destruct (PyDict.mem profile_id (running_profiles w1));
        inversion S; subst; simpl; (split; [reflexivity|]);
        exists (evs ++ [EvPrint ("⚠️ Error closing browser: " ++ exc_msg e);
                        EvCall (SB_exit (sb_context data)) (Some e)])%list;
        (split; [rewrite Hevs; now rewrite <- app_assoc
                | rewrite exit_calls_app, (no_exit_calls _ Hno);
                  reflexivity]).
    + simpl in S.
      destruct (PyDict.mem profile_id (running_profiles w));
        inversion S; subst; simpl; (split; [reflexivity|]);
        exists [EvCall (SB_exit (sb_context data)) (Some e)];
        (split; reflexivity).
  - simpl in S.
    destruct (PyDict.mem profile_id (running_profiles w));
      inversion S; subst; simpl; (split; [reflexivity|]);
      exists [EvCall (SB_exit (sb_context data)) None];
      (split; reflexivity).
Qed.

End StopFacts.

Section CloseAllFacts.
Context {RT : PyRuntime} (env : Env).

Lemma close_one_stop profile_id w :
  close_one env profile_id w = (Ok tt, snd (stop_profile env profile_id w)).
Proof.
  unfold close_one, try_except, except_all, ret.
  now destruct (stop_profile env profile_id w) as [[[]|e] w1].
Qed.

Lemma close_all_loop : close_all env = fun w =>
  for_each (PyDict.keys (running_profiles w)) (close_one env) w.
Proof. reflexivity. Qed.

Lemma close_loop_registry ids w :
  fst (for_each ids (close_one env) w) = Ok tt
  /\ running_profiles (snd (for_each ids (close_one env) w))
     = fold_left (fun d k => PyDict.del k d) ids (running_profiles w).
Proof.
  revert w. induction ids as [|k rest IH]; intros w; simpl; [now split|].
  unfold bind. rewrite close_one_stop.
  destruct (IH (snd (stop_profile env k w))) as [Hr Hd].
  rewrite Hr, Hd, stop_registry. now split.
Qed.

Lemma del_all_keys {V} (ks : list string) (d : PyDict.t V) :
  (forall k, In k (PyDict.keys d) -> In k ks) ->
  fold_left (fun d k => PyDict.del k d) ks d = [].
Proof.
  revert d. induction ks as [|k rest IH]; intros d H; simpl.
  - destruct d as [|[k v] d]; [reflexivity|]. destruct (H k). now left.
  - apply IH. intros k' Hin. rewrite dict_keys_del in Hin.
    apply filter_In in Hin as [Hin Hne].
    destruct (H k' Hin) as [->|Hrest]; [|exact Hrest].
    now rewrite String.eqb_refl in Hne.
Qed.

(** With unique keys, the loop asks each registered session to exit, in
    the order of the registry. *)
Lemma close_loop_exits d :
  PyDict.wf d ->
  forall w, running_profiles w = d ->
  exists evs,
    events_since w (snd (for_each (PyDict.keys d) (close_one env) w)) evs
    /\ rev (exit_calls evs) = sessions d.
Proof.
  unfold PyDict.wf.
  induction d as [|[k data] rest IH]; intros Hwf w Hw; simpl.
  - exists []. split; reflexivity.
  - inversion Hwf as [|? ? Hnotin Hrest]; subst.
    unfold bind. rewrite close_one_stop.
    assert (G : PyDict.get k (running_profiles w) = Some data)
      by (rewrite Hw; simpl; now rewrite String.eqb_refl).
    destruct (stop_present env k data w G) as [_ [evs1 [He1 Hx1]]].
    assert (Hreg : running_profiles (snd (stop_profile env k w)) = rest).
    { rewrite stop_registry, Hw. unfold PyDict.del. simpl.
      rewrite String.eqb_refl. simpl. now apply dict_del_absent. }
    destruct (IH Hrest _ Hreg) as [evs2 [He2 Hx2]].
    exists (evs2 ++ evs1)%list. split.
    + unfold events_since in *. rewrite He2, He1. apply app_assoc.
    + rewrite exit_calls_app, rev_app_distr, Hx1, Hx2. reflexivity.
Qed.

End CloseAllFacts.

(** ** The claims on stopping *)

(** C3. For a registered profile id, whatever [stop_profile] returns, the
    id is absent from the registry afterwards ([is_running] answers false)
    and the other entries are as before. This holds on each path: the
    graceful exit succeeds (nothing raised), the exit raises an [Exception]
    and the forced kill runs (nothing raised, whatever the kill did), or the
    exit raises outside [Exception] (that exception is raised). *)
Theorem stop_removes_entry {RT : PyRuntime} (env : Env) profile_id w r w' :
  PyDict.mem profile_id (running_profiles w) = true ->
  stop_profile env profile_id w = (r, w') ->
  PyDict.mem profile_id (running_profiles w') = false
  /\ is_running profile_id w' = (Ok false, w')
  /\ running_profiles w' = PyDict.del profile_id (running_profiles w)
  /\ exists data,
       PyDict.get profile_id (running_profiles w) = Some data
       /\ r = stop_outcome (fails env (clock w) (SB_exit (sb_context data))).
Proof.
  intros Hmem Hstop.
  assert (Hreg : running_profiles w'
                 = PyDict.del profile_id (running_profiles w)).
  { pose proof (stop_registry env profile_id w) as H.
    now rewrite Hstop in H. }
  assert (Habs : PyDict.mem profile_id (running_profiles w') = false)
    by (rewrite Hreg; apply dict_mem_del_same).
  split; [exact Habs|]. split; [|split; [exact Hreg|]].
  - unfold is_running, bind, get_running, ret. now rewrite Habs.
  - apply dict_mem_get in Hmem as [data G]. exists data. split; [exact G|].
    destruct (stop_present env profile_id data w G) as [Hr _].
    now rewrite Hstop in Hr.
Qed.

(** C7. [close_all] walks a snapshot of the registered ids, never raises,
    and leaves the registry empty, whatever the individual stops raise; on a
    registry with unique keys it asks every registered session to exit, in
    registry order. *)
Theorem close_all_empties_registry {RT : PyRuntime} (env : Env) w r w' :
  close_all env w = (r, w') ->
  r = Ok tt
  /\ running_profiles w' = []
  /\ (PyDict.wf (running_profiles w) ->
      exists evs,
        events_since w w' evs
        /\ rev (exit_calls evs) = sessions (running_profiles w)).
Proof.
  rewrite close_all_loop. intros H.
  destruct (close_loop_registry env (PyDict.keys (running_profiles w)) w)
    as [Hr Hd].
  rewrite H in Hr, Hd. simpl in Hr, Hd. split; [exact Hr|]. split.
  - rewrite Hd. apply del_all_keys. auto.
  - intros Hwf.
    destruct (close_loop_exits env _ Hwf w eq_refl) as [evs Hevs].
    rewrite H in Hevs. now exists evs.
Qed.

(** Stopping "p1" when its browser neither closes nor dies, and when the
    graceful exit is interrupted: the entry is gone either way. *)
Lemma stop_removes_entry_witness :
  (PyDict.mem "p1"
     (running_profiles (snd (stop_profile Sample.stuck "p1" Sample.two_sessions)))
   = false
   /\ PyDict.keys
        (running_profiles (snd (stop_profile Sample.stuck "p1" Sample.two_sessions)))
      = ["p2"])
  /\ PyDict.mem "p1"
       (running_profiles
          (snd (stop_profile Sample.interrupted "p1" Sample.two_sessions)))
     = false.
Proof.
  split.
  - destruct (stop_removes_entry Sample.stuck "p1" Sample.two_sessions _ _
                eq_refl (surjective_pairing _)) as [Habs [_ [Hreg _]]].
    split; [exact Habs | now rewrite Hreg].
  - exact (proj1 (stop_removes_entry Sample.interrupted "p1"
                    Sample.two_sessions _ _ eq_refl (surjective_pairing _))).
Defined.

(** Closing all of two sessions whose browsers neither close nor die. *)
Lemma close_all_empties_registry_witness :
  fst (close_all Sample.stuck Sample.two_sessions) = Ok tt
  /\ running_profiles (snd (close_all Sample.stuck Sample.two_sessions)) = []
  /\ exists evs,
       events_since Sample.two_sessions
                    (snd (close_all Sample.stuck Sample.two_sessions)) evs
       /\ rev (exit_calls evs) = [1%nat; 17%nat].
Proof.
  destruct (close_all_empties_registry Sample.stuck Sample.two_sessions _ _
              (surjective_pairing _)) as [Hr [Hd Hx]].
  split; [exact Hr|]. split; [exact Hd|]. apply Hx.
  unfold PyDict.wf. simpl. repeat constructor; simpl; intuition discriminate.
Defined.

(** ** Statistics *)

Section StatsFacts.
Context {RT : PyRuntime} (env : Env).

(** One round of the loop: it never raises, adds the size read when the
    lookup succeeded and nothing otherwise, and only the clock and the trace
    move. *)
Lemma add_memory_lookup total data w :
  exists w1,
    add_memory env total data w
    = (Ok (match fst (memory_lookup env (clock w) data) with
           | Some size => num_add total (megabytes size)
           | None => total
           end), w1)
    /\ clock w1 = snd (memory_lookup env (clock w) data)
    /\ running_profiles w1 = running_profiles w.
Proof.
  unfold add_memory, memory_lookup, try_except, except_all, bind, call, ret.
  destruct (pid data) as [p|]; [|eexists; simpl; eauto].
  destruct (pid_truthy (Some p)); [|eexists; simpl; eauto].
  destruct (fails env (clock w) (psutil_Process p));
    [eexists; simpl; eauto|].
  simpl.
  destruct (fails env (S (clock w)) (process_memory_info p));
    eexists; simpl; eauto.
Qed.

Lemma sum_memory_lookups items : forall total w,
  exists w1,
    sum_memory env total items w
    = (Ok (add_all total (successful (memory_lookups env (clock w) items))),
       w1)
    /\ running_profiles w1 = running_profiles w.
Proof.
  induction items as [|[k data] rest IH]; intros total w; simpl.
  - exists w. split; reflexivity.
  - unfold bind.
    destruct (add_memory_lookup total data w) as [w1 [Hadd [Hclock Hreg]]].
    rewrite Hadd.
    destruct (IH (match fst (memory_lookup env (clock w) data) with
                  | Some size => num_add total (megabytes size)
                  | None => total
                  end) w1) as [w2 [Hsum Hreg2]].
    exists w2. rewrite Hsum, Hclock. split; [|congruence].
    now destruct (fst (memory_lookup env (clock w) data)).
Qed.

Lemma lookups_length t items :
  List.length (memory_lookups env t items) = List.length items.
Proof.
  revert t. induction items as [|[k data] rest IH]; intros t; simpl;
    [reflexivity | now rewrite IH].
Qed.

Lemma successful_failed lookups :
  (List.length (successful lookups) + failed lookups
   = List.length lookups)%nat.
Proof.
  induction lookups as [|[size|] rest IH]; simpl; lia.
Qed.

(** The total the loop accumulates and [round] rounds is the aggregate of
    the sizes read. *)
Lemma add_all_float_sum sizes : forall x,
  add_all (NFloat x) sizes
  = NFloat (fold_left
              (fun sum size => float_add sum (int_truediv size 1048576))
              sizes x).
Proof.
  unfold add_all. induction sizes as [|size rest IH]; intros x; simpl;
    [reflexivity|].
  unfold megabytes. change (1024 * 1024) with 1048576. apply IH.
Qed.

Lemma rounded_total_is_aggregate sizes :
  py_round (add_all (NInt 0) sizes) 2 = aggregate_memory sizes.
Proof.
  destruct sizes as [|size rest]; [reflexivity|].
  change (add_all (NInt 0) (size :: rest))
    with (add_all (NFloat (float_add (float_of_int 0) (megabytes size))) rest).
  rewrite add_all_float_sum. reflexivity.
Qed.

End StatsFacts.

(** C6. [get_stats] never raises. With N registered sessions, of which the
    memory lookup gives nothing for k, the snapshot has [running_count] N,
    lists the N registered ids, and its memory total is the aggregate of
    the N - k sizes read: each of them divided by 1024 * 1024, the quotients
    added up from 0 in registry order, the sum rounded to two digits (the
    integer 0 when no size was read). A lookup that failed adds nothing.
    The registry is not changed. *)
Theorem get_stats_snapshot {RT : PyRuntime} (env : Env) (w : World) :
  let running := running_profiles w in
  let lookups := memory_lookups env (clock w) running in
  exists stats w',
    get_stats env w = (Ok stats, w')
    /\ running_count stats = Z.of_nat (List.length running)
    /\ profiles stats = PyDict.keys running
    /\ List.length (profiles stats) = List.length running
    /\ total_memory_mb stats = aggregate_memory (successful lookups)
    /\ List.length lookups = List.length running
    /\ List.length (successful lookups)
       = (List.length running - failed lookups)%nat
    /\ running_profiles w' = running_profiles w.
Proof.
  intros running lookups. unfold get_stats, bind at 1, get_running at 1.
  destruct (sum_memory_lookups env running (NInt 0) w) as [w1 [Hsum Hreg]].
  unfold bind at 1. fold running. rewrite Hsum.
  unfold bind, get_running, ret. rewrite Hreg. fold running.
  eexists. eexists. split; [reflexivity|]. simpl.
  assert (Hlen : List.length lookups = List.length running)
    by apply lookups_length.
  pose proof (successful_failed lookups) as Hsf.
  repeat split; try exact Hreg; try exact Hlen.
  - unfold PyDict.keys. apply length_map.
  - apply rounded_total_is_aggregate.
  - lia.
Qed.

(** Two sessions of 100 MiB each, the lookup of the second failing: one
    session counts for the memory, both for the rest. *)
Example get_stats_one_lookup_fails :
  let megabytes_read (x : Q) := @NFloat Sample.decimal_runtime x in
  fst (get_stats Sample.no_such_process Sample.two_sessions)
  = Ok (mkStats 2 (megabytes_read (100 # 1)) ["p1"; "p2"])
  /\ fst (get_stats Sample.quiet Sample.two_sessions)
     = Ok (mkStats 2 (megabytes_read (200 # 1)) ["p1"; "p2"])
  /\ fst (get_stats Sample.quiet Sample.empty_world)
     = Ok (mkStats 0 (NInt 0) []).
Proof. repeat split; vm_compute; reflexivity. Qed.

(** ** Start *)

Section StartFacts.
Context {RT : PyRuntime} (env : Env).

Lemma call_ok c w t w1 :
  call env c w = (Ok t, w1) ->
  t = clock w /\ clock w1 = S (clock w) /\ fails env (clock w) c = None.
Proof.
  unfold call. destruct (fails env (clock w) c); intros H; inversion H.
  now subst.
Qed.

Lemma start_present profile flags pages w :
  PyDict.mem (id profile) (running_profiles w) = true ->
  start_profile env profile flags pages w = (Raise (already_running profile), w).
Proof.
  intros H. unfold start_profile, bind, get_running. now rewrite H.
Qed.

Lemma launch_same_registry profile dir options pages :
  respects same_registry (launch env profile dir options pages).
Proof.
  unfold launch.
  respects_walk same_registry_refl same_registry_trans
    ltac:(first [ apply call_same_registry
                | apply get_websocket_url_same_registry
                | apply apply_fingerprint_same_registry ]).
Qed.

(** [register] stores the entry under the profile id and returns the
    endpoint data; it never raises. *)
Lemma register_spec profile l w :
  register env profile l w
  = (Ok (mkStartResult (l_debug_port l) (l_websocket_url l) (l_pid l)),
     mkWorld (PyDict.set (id profile)
                (mkHandle (l_context l) (l_driver l) (l_pid l)
                          (l_debug_port l) (l_websocket_url l)
                          (now env (clock w)))
                (running_profiles w))
             (clock w) (trace w) (draws w)).
Proof. reflexivity. Qed.

(** The steps of [start_profile], laid out. *)
Lemma start_absent profile flags pages w :
  PyDict.mem (id profile) (running_profiles w) = false ->
  start_profile env profile flags pages w
  = match call env (os_makedirs (user_data_dir_of env profile)) w with
    | (Raise e, w1) => (Raise e, w1)
    | (Ok _, w1) =>
        match _build_chrome_options profile (user_data_dir_of env profile)
                                    flags with
        | Raise e => (Raise e, w1)
        | Ok options =>
            match launch env profile (user_data_dir_of env profile)
                         options pages w1 with
            | (Ok l, w2) => register env profile l w2
            | (Raise e, w2) =>
                if exc_is_Exception e
                then (Raise e,
                      snd (print ("❌ Failed to start profile "
                                  ++ name profile ++ ": " ++ exc_msg e) w2))
                else (Raise e, w2)
            end
        end
    end.
Proof.
  intros H. unfold start_profile, bind at 1, get_running at 1. rewrite H.
  unfold bind at 1. fold (user_data_dir_of env profile).
  destruct (call env (os_makedirs (user_data_dir_of env profile)) w)
    as [[t|e] w1]; [|reflexivity].
  unfold bind at 1, lift.
  destruct (_build_chrome_options profile (user_data_dir_of env profile) flags)
    as [options|e]; [|reflexivity].
  unfold try_except, launch_and_register, bind at 1.
  destruct (launch env profile (user_data_dir_of env profile) options pages w1)
    as [[l|e] w2]; [now rewrite register_spec|].
  unfold except_Exception. destruct (exc_is_Exception e); reflexivity.
Qed.

(** A start that raises leaves the registry as it was. *)
Lemma start_raise_registry profile flags pages w e w' :
  start_profile env profile flags pages w = (Raise e, w') ->
  running_profiles w' = running_profiles w.
Proof.
  destruct (PyDict.mem (id profile) (running_profiles w)) eqn:Hmem.
  - rewrite (start_present _ _ _ _ Hmem). intros H. now inversion H.
  - rewrite (start_absent _ _ _ _ Hmem).
    pose proof (call_same_registry env
                  (os_makedirs (user_data_dir_of env profile)) w) as H0.
    destruct (call env (os_makedirs (user_data_dir_of env profile)) w)
      as [[t|e0] w1]; simpl in H0; [|intros H; inversion H; now subst].
    destruct (_build_chrome_options profile (user_data_dir_of env profile)
                                    flags) as [options|e1];
      [|intros H; inversion H; now subst].
    pose proof (launch_same_registry profile (user_data_dir_of env profile)
                  options pages w1) as H1.
    destruct (launch env profile (user_data_dir_of env profile) options
                     pages w1) as [[l|e2] w2]; simpl in H1.
    + rewrite register_spec. discriminate.
    + unfold same_registry in *.
      destruct (exc_is_Exception e2); intros H; inversion H; subst; simpl;
        congruence.
Qed.

(** A start that succeeds has found the id absent, has launched, and has
    stored the entry under the id. *)
Lemma start_ok profile flags pages w res w' :
  start_profile env profile flags pages w = (Ok res, w') ->
  PyDict.mem (id profile) (running_profiles w) = false
  /\ exists options w1 l w2,
       launch env profile (user_data_dir_of env profile) options pages w1
       = (Ok l, w2)
       /\ running_profiles w2 = running_profiles w
       /\ register env profile l w2 = (Ok res, w').
Proof.
  destruct (PyDict.mem (id profile) (running_profiles w)) eqn:Hmem.
  - rewrite (start_present _ _ _ _ Hmem). discriminate.
  - rewrite (start_absent _ _ _ _ Hmem). split; [reflexivity|].
    pose proof (call_same_registry env
                  (os_makedirs (user_data_dir_of env profile)) w) as H0.
    destruct (call env (os_makedirs (user_data_dir_of env profile)) w)
      as [[t|e0] w1]; simpl in H0; [|discriminate].
    destruct (_build_chrome_options profile (user_data_dir_of env profile)
                                    flags) as [options|e1]; [|discriminate].
    pose proof (launch_same_registry profile (user_data_dir_of env profile)
                  options pages w1) as H1.
    destruct (launch env profile (user_data_dir_of env profile) options
                     pages w1) as [[l|e2] w2] eqn:Hl; simpl in H1.
    + exists options, w1, l, w2. unfold same_registry in *.
      repeat split; congruence.
    + destruct (exc_is_Exception e2); discriminate.
Qed.


(** What a launch that succeeds has resolved; the metadata endpoint is
    queried after three calls. *)
Lemma launch_ok profile dir options pages w l w' :
  launch env profile dir options pages w = (Ok l, w') ->
  l_debug_port l = _get_debug_port (l_driver l)
  /\ l_pid l = driver_pid (l_driver l)
  /\ exists wa wb,
       clock wa = (3 + clock w)%nat
       /\ _get_websocket_url env (l_driver l) (l_debug_port l) wa
          = (Ok (l_websocket_url l), wb).
Proof.
  unfold launch. intros H.
  apply bind_ok in H as (ctx & w1 & H1 & H).
  apply bind_ok in H as (t & w2 & H2 & H). cbv zeta in H.
  apply bind_ok in H as (t3 & w3 & H3 & H).
  apply bind_ok in H as (url & w4 & H4 & H).
  apply bind_ok in H as (u5 & w5 & H5 & H).
  apply bind_ok in H as (u6 & w6 & H6 & H).
  apply call_ok in H1 as (_ & C1 & _). apply call_ok in H2 as (_ & C2 & _).
  apply call_ok in H3 as (_ & C3 & _).
  inversion H; subst; simpl. repeat split.
  exists w3, w4. split; [lia | exact H4].
Qed.

End StartFacts.

(** ** Code that cannot raise *)

Section TotalFacts.
Context {RT : PyRuntime} (env : Env).

Lemma total_ret {A} (a : A) : total (ret a).
Proof. intros w. now exists a. Qed.

Lemma total_bind {A B} (m : M A) (k : A -> M B) :
  total m -> (forall a, total (k a)) -> total (bind m k).
Proof.
  intros Hm Hk w. unfold bind. destruct (Hm w) as [a Ha].
  destruct (m w) as [r w1]. simpl in Ha. subst r. apply Hk.
Qed.

Lemma total_try_except {A} (m : M A) catches handler :
  total m -> total (try_except m catches handler).
Proof.
  intros Hm w. unfold try_except. destruct (Hm w) as [a Ha].
  destruct (m w) as [r w1]. simpl in Ha. subst r. now exists a.
Qed.

Lemma total_try_except_all {A} (m : M A) handler :
  (forall e, total (handler e)) -> total (try_except m except_all handler).
Proof.
  intros Hh w. unfold try_except, except_all.
  destruct (m w) as [[a|e] w1]; [now exists a | apply Hh].
Qed.

Lemma total_for_each {A} (items : list A) body :
  (forall x, total (body x)) -> total (for_each items body).
Proof.
  intros Hb. induction items as [|x rest IH]; simpl.
  - apply total_ret.
  - apply total_bind; auto.
Qed.

Lemma total_call c : never_fails env -> total (call env c).
Proof.
  intros Hq w. unfold call. rewrite Hq. now exists (clock w).
Qed.

Lemma total_randint a b : total (randint env a b).
Proof. intros w. eexists. reflexivity. Qed.

Lemma total_print line : total (print line).
Proof. intros w. now exists tt. Qed.

End TotalFacts.

(** Walks through the structure of manager code for a [total] goal. *)
Ltac total_walk env quiet known :=
  repeat (intros;
    first
      [ solve [known]
      | apply total_ret
      | apply (total_call env _ quiet)
      | apply (total_randint env)
      | apply total_print
      | apply total_try_except_all
      | apply total_bind
      | apply total_try_except
      | apply total_for_each
      | match goal with
        | |- total (if ?b then _ else _) => destruct b
        | |- total (match ?x with _ => _ end) => destruct x
        | |- total (let _ := _ in _) => cbv zeta
        | |- total ((fun _ => _) _) => cbv beta
        end ]).

Section StartSucceeds.
Context {RT : PyRuntime} (env : Env) (quiet : never_fails env).

Lemma get_websocket_url_total driver port :
  total (_get_websocket_url env driver port).
Proof. unfold _get_websocket_url. total_walk env quiet fail. Qed.

Lemma apply_geolocation_total ctx profile :
  total (apply_geolocation env ctx profile).
Proof. unfold apply_geolocation. total_walk env quiet fail. Qed.

Lemma apply_fingerprint_total ctx profile :
  total (_apply_fingerprint_overrides env ctx profile).
Proof.
  unfold _apply_fingerprint_overrides. apply total_try_except.
  total_walk env quiet ltac:(apply apply_geolocation_total).
Qed.

Lemma launch_total profile dir options pages :
  total (launch env profile dir options pages).
Proof.
  unfold launch.
  total_walk env quiet ltac:(first [ apply get_websocket_url_total
                                   | apply apply_fingerprint_total ]).
Qed.

(** Where nothing outside fails, a start for an absent id with launch
    arguments that build succeeds. *)
Lemma start_succeeds profile flags pages options w :
  PyDict.mem (id profile) (running_profiles w) = false ->
  _build_chrome_options profile (user_data_dir_of env profile) flags
  = Ok options ->
  exists res w', start_profile env profile flags pages w = (Ok res, w').
Proof.
  intros Hmem Hbuild. rewrite (start_absent _ _ _ _ _ Hmem), Hbuild.
  unfold call at 1. rewrite quiet.
  match goal with |- context [launch env ?p ?d ?o ?g ?w1] =>
    destruct (launch_total p d o g w1) as [l Hl];
    destruct (launch env p d o g w1) as [r w2]
  end.
  simpl in Hl. subst r. rewrite register_spec. eauto.
Qed.

End StartSucceeds.

(** ** The claims on starting *)

(** C1, as the code has it. When a step of the [try] block of
    [start_profile] raises before the entry is stored (the launch itself,
    the first navigation, opening a start page), [start_profile] raises
    that same exception and the registry is as before: no entry is created
    for the profile id. More generally, every start that raises leaves the
    registry as it was. *)
Theorem start_failure_creates_no_entry {RT : PyRuntime} (env : Env)
    profile flags pages w :
  (forall e w',
      start_profile env profile flags pages w = (Raise e, w') ->
      running_profiles w' = running_profiles w)
  /\ (forall t w1 options e w2,
         PyDict.mem (id profile) (running_profiles w) = false ->
         call env (os_makedirs (user_data_dir_of env profile)) w = (Ok t, w1) ->
         _build_chrome_options profile (user_data_dir_of env profile) flags
         = Ok options ->
         launch env profile (user_data_dir_of env profile) options pages w1
         = (Raise e, w2) ->
         exists w',
           start_profile env profile flags pages w = (Raise e, w')
           /\ running_profiles w' = running_profiles w
           /\ PyDict.mem (id profile) (running_profiles w') = false).
Proof.
  split.
  - intros e w'. apply start_raise_registry.
  - intros t w1 options e w2 Hmem Hdir Hbuild Hlaunch.
    destruct (start_profile env profile flags pages w) as [r w'] eqn:Hs.
    assert (Hr : r = Raise e).
    { rewrite (start_absent _ _ _ _ _ Hmem), Hdir, Hbuild, Hlaunch in Hs.
      destruct (exc_is_Exception e); now inversion Hs. }
    subst r. exists w'. split; [reflexivity|].
    pose proof (start_raise_registry _ _ _ _ _ _ _ Hs) as Hreg.
    split; [exact Hreg | now rewrite Hreg].
Qed.

(** The first start page of "p1" cannot be opened. *)
Lemma start_failure_creates_no_entry_witness :
  let outcome :=
    start_profile Sample.bad_page Sample.p1 [] ["https://a.example"]
                  Sample.empty_world in
  (exists w',
      outcome = (Raise (Exception "net::ERR_NAME_NOT_RESOLVED"), w')
      /\ running_profiles w' = []
      /\ PyDict.mem "p1" (running_profiles w') = false)
  /\ running_profiles (snd outcome) = [].
Proof.
  intros outcome.
  destruct (start_failure_creates_no_entry Sample.bad_page Sample.p1 []
              ["https://a.example"] Sample.empty_world) as [Hany Hlaunch].
  split.
  - apply (Hlaunch 0%nat
             (snd (call Sample.bad_page
                     (os_makedirs (user_data_dir_of Sample.bad_page Sample.p1))
                     Sample.empty_world))
             [ "--window-size=1920,1080";
               "--proxy-server=socks5://u:p@host:1080"; "--disable-webrtc" ]
             (Exception "net::ERR_NAME_NOT_RESOLVED")
             (snd (launch Sample.bad_page Sample.p1
                     (user_data_dir_of Sample.bad_page Sample.p1)
                     [ "--window-size=1920,1080";
                       "--proxy-server=socks5://u:p@host:1080";
                       "--disable-webrtc" ]
                     ["https://a.example"]
                     (snd (call Sample.bad_page
                             (os_makedirs
                                (user_data_dir_of Sample.bad_page Sample.p1))
                             Sample.empty_world))))).
    + reflexivity.
    + reflexivity.
    + vm_compute. reflexivity.
    + apply run_eq. vm_compute. reflexivity.
  - apply (Hany (Exception "net::ERR_NAME_NOT_RESOLVED") (snd outcome)).
    apply run_eq. vm_compute. reflexivity.
Defined.

(** C1 as stated fails on its second half: after such a failure the browser
    of the new session has been launched, and [start_profile] has asked
    neither its context to exit nor its process to terminate. *)
Lemma start_failure_tears_nothing_down :
  let outcome :=
    start_profile Sample.bad_page Sample.p1 [] ["https://a.example"]
                  Sample.empty_world in
  fst outcome = Raise (Exception "net::ERR_NAME_NOT_RESOLVED")
  /\ existsb (is_launch 1) (trace (snd outcome)) = true
  /\ existsb is_teardown (trace (snd outcome)) = false.
Proof. vm_compute. repeat split. Qed.




(** The membership test is made once, at the top of [start_profile]; the
    [try] block that follows does not test again. Entered from a world in
    which the id is registered (as a second call would, had it passed the
    test before the first stored its entry), it launches another browser
    and replaces the entry: the code takes no lock between the test and the
    insertion. The theorem above is about calls made one after the
    other. *)
Remark try_block_does_not_test_again {RT : PyRuntime} (env : Env)
    profile dir options pages w :
  never_fails env ->
  exists l w2 res w',
    launch env profile dir options pages w = (Ok l, w2)
    /\ launch_and_register env profile dir options pages w = (Ok res, w')
    /\ running_profiles w'
       = PyDict.set (id profile)
           (mkHandle (l_context l) (l_driver l) (l_pid l) (l_debug_port l)
                     (l_websocket_url l) (now env (clock w2)))
           (running_profiles w).
Proof.
  intros Hquiet. unfold launch_and_register, bind.
  destruct (launch_total env Hquiet profile dir options pages w) as [l Hl].
  pose proof (launch_same_registry env profile dir options pages w) as Hreg.
  destruct (launch env profile dir options pages w) as [r w2].
  simpl in Hl, Hreg. subst r. unfold same_registry in Hreg.
  rewrite register_spec. exists l, w2. eexists. eexists.
  split; [reflexivity|]. split; [reflexivity|]. simpl. now rewrite Hreg.
Qed.

(** ** The registry keeps its keys unique *)

Section RegistryInvariant.
Context {RT : PyRuntime} (env : Env).

Lemma start_keeps_wf profile flags pages w :
  PyDict.wf (running_profiles w) ->
  PyDict.wf (running_profiles (snd (start_profile env profile flags pages w))).
Proof.
  intros Hwf.
  destruct (start_profile env profile flags pages w) as [[res|e] w'] eqn:Hs;
    simpl.
  - apply start_ok in Hs as [_ (options & w1 & l & w2 & _ & Hreg & Hr)].
    rewrite register_spec in Hr. inversion Hr; subst. simpl.
    rewrite Hreg. now apply dict_wf_set.
  - now rewrite (start_raise_registry _ _ _ _ _ _ _ Hs).
Qed.

Lemma stop_keeps_wf profile_id w :
  PyDict.wf (running_profiles w) ->
  PyDict.wf (running_profiles (snd (stop_profile env profile_id w))).
Proof. intros Hwf. rewrite stop_registry. now apply dict_wf_del. Qed.

End RegistryInvariant.

(** ** The endpoint address *)

Section EndpointFacts.
Context {RT : PyRuntime} (env : Env).

Lemma fallback_ws_url_nonempty port : fallback_ws_url port <> "".
Proof. discriminate. Qed.

(** When the query fails, the address is the one made up from the port. *)
Lemma get_websocket_url_fallback driver port w :
  metadata_query_fails env (clock w) port ->
  fst (_get_websocket_url env driver port w) = Ok (PStr (fallback_ws_url port)).
Proof.
  unfold metadata_query_fails, _get_websocket_url, try_except, except_all,
    bind, call, lift, py_get, ret.
  intros H.
  destruct (fails env (clock w) (requests_get (version_url port) 5));
    [reflexivity|]. simpl.
  destruct (fails env (S (clock w)) response_json); [reflexivity|]. simpl.
  destruct (json_body env (S (clock w))) eqn:E; try reflexivity.
  destruct H as [H|[H|H]]; [congruence | congruence | now destruct (H entries)].
Qed.

(** When the query is answered with an object, the address is the entry of
    the object, and the empty string when there is none. *)
Lemma get_websocket_url_answer driver port entries w :
  metadata_query_answers env (clock w) port entries ->
  fst (_get_websocket_url env driver port w)
  = Ok (match PyDict.get "webSocketDebuggerUrl" entries with
        | Some v => v
        | None => PStr ""
        end).
Proof.
  unfold metadata_query_answers, _get_websocket_url, try_except, except_all,
    bind, call, lift, py_get, ret.
  intros (H1 & H2 & H3). rewrite H1. simpl. rewrite H2. simpl.
  now rewrite H3.
Qed.

End EndpointFacts.

(** C4, as the code has it. A start that succeeds queries the metadata
    endpoint four calls after it began. When that query fails (the request
    raises, the body does not decode, or the document is not an object) the
    address returned is [ws://127.0.0.1:<port>/devtools/browser] for the
    port returned, which is not empty. When the query is answered with an
    object, the address returned is the object's [webSocketDebuggerUrl]
    entry, and the empty string when the object has no such entry. *)
Theorem start_endpoint_address {RT : PyRuntime} (env : Env)
    profile flags pages w res w' :
  start_profile env profile flags pages w = (Ok res, w') ->
  let t := (clock w + 4)%nat in
  let port := res_debug_port res in
  (metadata_query_fails env t port ->
   res_websocket_link res = PStr (fallback_ws_url port)
   /\ nonempty_str (res_websocket_link res))
  /\ (forall entries,
         metadata_query_answers env t port entries ->
         res_websocket_link res
         = match PyDict.get "webSocketDebuggerUrl" entries with
           | Some v => v
           | None => PStr ""
           end).
Proof.
  intros Hs t port.
  pose proof Hs as Hs'. apply start_ok in Hs' as [Hmem _].
  rewrite (start_absent _ _ _ _ _ Hmem) in Hs.
  destruct (call env (os_makedirs (user_data_dir_of env profile)) w)
    as [[t0|e0] w1] eqn:Hdir; [|discriminate].
  apply call_ok in Hdir as (_ & Hclock & _).
  destruct (_build_chrome_options profile (user_data_dir_of env profile) flags)
    as [options|e1]; [|discriminate].
  destruct (launch env profile (user_data_dir_of env profile) options pages w1)
    as [[l|e2] w2] eqn:Hl; [|destruct (exc_is_Exception e2); discriminate].
  rewrite register_spec in Hs. inversion Hs; subst res w'. clear Hs.
  apply launch_ok in Hl as (_ & _ & wa & wb & Hwa & Hurl).
  assert (Ht : clock wa = t) by (unfold t; lia).
  subst port. simpl. rewrite <- Ht. split.
  - intros Hfail.
    pose proof (get_websocket_url_fallback env (l_driver l) _ wa Hfail) as H.
    rewrite Hurl in H. simpl in H. injection H as Hlink. rewrite Hlink.
    split; [reflexivity|].
    eexists. split; [reflexivity | apply fallback_ws_url_nonempty].
  - intros entries Hans.
    pose proof (get_websocket_url_answer env (l_driver l) _ entries wa Hans)
      as H.
    rewrite Hurl in H. simpl in H. now injection H.
Qed.

(** "p1" is started where the metadata endpoint cannot be reached, and
    where it answers with its version document. *)
Lemma start_endpoint_address_witness :
  (fst (start_profile Sample.unreachable Sample.p1 [] [] Sample.empty_world)
   = Ok (mkStartResult 9515 (PStr (fallback_ws_url 9515)) (Some 4242))
   /\ nonempty_str (PStr (fallback_ws_url 9515)))
  /\ forall res w',
       start_profile Sample.quiet Sample.p1 [] [] Sample.empty_world
       = (Ok res, w') ->
       res_websocket_link res
       = PStr "ws://127.0.0.1:9515/devtools/browser/6f0c".
Proof.
  split.
  - assert (Hrun : fst (start_profile Sample.unreachable Sample.p1 [] []
                          Sample.empty_world)
                   = Ok (mkStartResult 9515 (PStr (fallback_ws_url 9515))
                                       (Some 4242)))
      by (vm_compute; reflexivity).
    split; [exact Hrun|].
    apply (start_endpoint_address Sample.unreachable Sample.p1 [] []
             Sample.empty_world _ _ (run_eq _ _ _ Hrun)).
    left. simpl. discriminate.
  - intros res w' Hrun.
    destruct (start_endpoint_address Sample.quiet Sample.p1 [] []
                Sample.empty_world res w' Hrun) as [_ Hanswer].
    rewrite (Hanswer [ ("Browser", PStr "Chrome/120.0.0.0");
                       ("webSocketDebuggerUrl",
                        PStr "ws://127.0.0.1:9515/devtools/browser/6f0c") ]).
    + reflexivity.
    + repeat split.
Defined.

(** C4 as stated fails: when the metadata endpoint answers with an object
    that has no [webSocketDebuggerUrl] entry, the start succeeds and the
    address it returns is the empty string. *)
Lemma start_returns_empty_endpoint :
  fst (start_profile
         (Sample.answering (PDict [("Browser", PStr "Chrome/120.0.0.0")]))
         Sample.p1 [] [] Sample.empty_world)
  = Ok (mkStartResult 9515 (PStr "") (Some 4242)).
Proof. vm_compute. reflexivity. Qed.

(** ** The noise seed *)

Lemma str_append_nil_r (s : string) : s ++ "" = s.
Proof. induction s as [|c s IH]; simpl; [reflexivity | now rewrite IH]. Qed.

Lemma str_append_assoc (a b c : string) : (a ++ b) ++ c = a ++ b ++ c.
Proof. induction a as [|x a IH]; simpl; [reflexivity | now rewrite IH]. Qed.

Lemma contains_text_here (before sub : string) :
  contains_text sub (before ++ sub).
Proof. exists before, "". now rewrite str_append_nil_r. Qed.

Lemma contains_text_app_l (sub s before : string) :
  contains_text sub s -> contains_text sub (before ++ s).
Proof.
  intros [b [a ->]]. exists (before ++ b), a. now rewrite str_append_assoc.
Qed.

Lemma contains_text_app_r (sub s after : string) :
  contains_text sub s -> contains_text sub (s ++ after).
Proof.
  intros [b [a ->]]. exists b, (a ++ after).
  now rewrite !str_append_assoc.
Qed.

Lemma contains_text_join (sub sep : string) (n : nat) (lines : list string) :
  (n < List.length lines)%nat ->
  contains_text sub (nth n lines "") ->
  contains_text sub (PyStr.join sep lines).
Proof.
  revert n. induction lines as [|line rest IH]; intros n Hn H; simpl in Hn;
    [lia|].
  destruct n as [|n]; simpl in H.
  - destruct rest; simpl; [exact H | now apply contains_text_app_r].
  - destruct rest as [|line' rest']; [simpl in Hn; lia|].
    change (contains_text sub
              (line ++ sep ++ PyStr.join sep (line' :: rest'))).
    do 2 apply contains_text_app_l. apply (IH n); [simpl in *; lia | exact H].
Qed.

Lemma script_head_declares_seed platform cores memory noise_seed :
  contains_text (noise_constant noise_seed)
                (script_head platform cores memory noise_seed).
Proof.
  unfold script_head, PyStr.text.
  apply (contains_text_join _ _ 7); [simpl; lia|].
  change (contains_text (noise_constant noise_seed)
            ("                " ++ noise_constant noise_seed)).
  apply contains_text_here.
Qed.

(** The script injected for a session declares the session's seed. *)
Lemma injection_script_declares_seed profile noise_seed :
  contains_text (noise_constant noise_seed)
                (injection_script profile noise_seed).
Proof.
  unfold injection_script. cbv zeta.
  repeat match goal with
         | |- contains_text _ (if ?b then _ else _) => destruct b
         | |- contains_text _ (match ?x with _ => _ end) => destruct x
         | |- contains_text _ (_ ++ _) => apply contains_text_app_r
         end;
    apply script_head_declares_seed.
Qed.

Section SeedFacts.
Context {RT : PyRuntime} (env : Env).

Lemma seed_at_range n : 1 <= seed_at env n <= 1000.
Proof.
  unfold seed_at. change (1000 - 1 + 1) with 1000.
  pose proof (Z.mod_pos_bound (rand_raw env n) 1000). lia.
Qed.

Lemma installed_scripts_app evs1 evs2 :
  installed_scripts (evs1 ++ evs2)
  = (installed_scripts evs1 ++ installed_scripts evs2)%list.
Proof.
  induction evs1 as [|ev rest IH]; simpl; [reflexivity|].
  destruct ev as [[| | | | | |ctx []| | | | | | | |] [e|]|line]; simpl;
    now rewrite ?IH.
Qed.

Lemma no_installed_scripts evs :
  forallb not_install evs = true -> installed_scripts evs = [].
Proof.
  induction evs as [|ev rest IH]; simpl; [reflexivity|].
  intros H. apply andb_true_iff in H as [Hev Hrest].
  destruct ev as [[| | | | | |ctx []| | | | | | | |] [e|]|line]; simpl in *;
    auto; discriminate.
Qed.

Lemma events_since_unique w w' evs evs' :
  events_since w w' evs -> events_since w w' evs' -> evs = evs'.
Proof.
  unfold events_since. intros H H'. rewrite H in H'.
  now apply app_inv_tail in H'.
Qed.

Lemma events_since_firstn w w' evs n :
  events_since w w' evs ->
  (List.length (trace w') - List.length (trace w))%nat = n ->
  firstn n (trace w') = evs.
Proof.
  unfold events_since. intros H <-. rewrite H, length_app.
  replace (List.length evs + List.length (trace w) - List.length (trace w))%nat
    with (List.length evs + 0)%nat by lia.
  rewrite firstn_app_2. simpl. apply app_nil_r.
Qed.

Lemma unscripted_refl w : unscripted w w.
Proof. split; [reflexivity | apply only_events_refl]. Qed.

Lemma unscripted_trans w1 w2 w3 :
  unscripted w1 w2 -> unscripted w2 w3 -> unscripted w1 w3.
Proof.
  intros [D1 E1] [D2 E2]. split; [congruence|].
  eapply only_events_trans; eauto.
Qed.

Lemma call_unscripted c :
  (forall raised, not_install (EvCall c raised) = true) ->
  respects unscripted (call env c).
Proof.
  intros H w. split.
  - unfold call. now destruct (fails env (clock w) c).
  - now apply call_only_events.
Qed.

Lemma print_unscripted line : respects unscripted (print line).
Proof.
  intros w. split; [reflexivity | now apply print_only_events].
Qed.

Lemma now_unscripted : respects unscripted (datetime_now env).
Proof. intros w. apply unscripted_refl. Qed.

Lemma set_running_unscripted d : respects unscripted (set_running d).
Proof.
  intros w. split; [reflexivity | apply set_running_only_events].
Qed.

End SeedFacts.

Ltac unscripted_prim env :=
  first [ apply (call_unscripted env); intros; reflexivity
        | apply print_unscripted
        | apply (now_unscripted env)
        | apply set_running_unscripted ].

Ltac unscripted_walk0 env :=
  respects_walk (@unscripted_refl _) (@unscripted_trans _)
                ltac:(unscripted_prim env).

Ltac unscripted_walk env known :=
  respects_walk (@unscripted_refl _) (@unscripted_trans _)
                ltac:(first [ solve [known] | unscripted_prim env ]).

Section SeedSteps.
Context {RT : PyRuntime} (env : Env) (profile : Profile).

Lemma get_websocket_url_unscripted driver port :
  respects unscripted (_get_websocket_url env driver port).
Proof. unfold _get_websocket_url. unscripted_walk0 env. Qed.

Lemma apply_geolocation_unscripted ctx p :
  respects unscripted (apply_geolocation env ctx p).
Proof. unfold apply_geolocation. unscripted_walk0 env. Qed.

Lemma force_kill_unscripted data : respects unscripted (force_kill env data).
Proof. unfold force_kill. unscripted_walk0 env. Qed.

Lemma stop_unscripted profile_id : respects unscripted (stop_profile env profile_id).
Proof.
  unfold stop_profile.
  unscripted_walk env ltac:(apply force_kill_unscripted).
Qed.

Lemma register_unscripted p l : respects unscripted (register env p l).
Proof. unfold register. unscripted_walk0 env. Qed.

Lemma seeds_of_unscripted {A} (m : M A) :
  respects unscripted m -> seeds env profile m.
Proof.
  intros H w. destruct (H w) as [Hd [evs [He Hno]]].
  exists evs. split; [exact He|]. split; [now left|].
  left. now apply no_installed_scripts.
Qed.

Lemma unscripted_then_seeded w1 w2 w3 :
  unscripted w1 w2 -> seeded_once env profile w2 w3 ->
  seeded_once env profile w1 w3.
Proof.
  intros [Hd [evs1 [He1 Hno]]] (evs2 & He2 & Hdraws & Hscripts).
  exists (evs2 ++ evs1)%list. rewrite Hd in *. split; [|split].
  - unfold events_since in *. rewrite He2, He1. apply app_assoc.
  - exact Hdraws.
  - rewrite installed_scripts_app, (no_installed_scripts _ Hno), app_nil_r.
    exact Hscripts.
Qed.

Lemma seeded_then_unscripted w1 w2 w3 :
  seeded_once env profile w1 w2 -> unscripted w2 w3 ->
  seeded_once env profile w1 w3.
Proof.
  intros (evs1 & He1 & Hdraws & Hscripts) [Hd [evs2 [He2 Hno]]].
  exists (evs2 ++ evs1)%list. rewrite Hd. split; [|split].
  - unfold events_since in *. rewrite He2, He1. apply app_assoc.
  - exact Hdraws.
  - rewrite installed_scripts_app, (no_installed_scripts _ Hno).
    exact Hscripts.
Qed.

Lemma seeds_bind_l {A B} (m : M A) (k : A -> M B) :
  respects unscripted m -> (forall a, seeds env profile (k a)) ->
  seeds env profile (bind m k).
Proof.
  intros Hm Hk w. unfold bind. specialize (Hm w).
  destruct (m w) as [[a|e] w1]; simpl in *.
  - eapply unscripted_then_seeded; [exact Hm | apply Hk].
  - destruct Hm as [Hd [evs [He Hno]]]. exists evs. split; [exact He|].
    split; [now left|]. left. now apply no_installed_scripts.
Qed.

Lemma seeds_bind_r {A B} (m : M A) (k : A -> M B) :
  seeds env profile m -> (forall a, respects unscripted (k a)) ->
  seeds env profile (bind m k).
Proof.
  intros Hm Hk w. unfold bind. specialize (Hm w).
  destruct (m w) as [[a|e] w1]; simpl in *; [|exact Hm].
  eapply seeded_then_unscripted; [exact Hm | apply Hk].
Qed.

Lemma seeds_try_except {A} (m : M A) catches handler :
  seeds env profile m -> (forall e, respects unscripted (handler e)) ->
  seeds env profile (try_except m catches handler).
Proof.
  intros Hm Hh w. unfold try_except. specialize (Hm w).
  destruct (m w) as [[a|e] w1]; simpl in *; [exact Hm|].
  destruct (catches e); [|exact Hm].
  eapply seeded_then_unscripted; [exact Hm | apply Hh].
Qed.

(** The draw and the installation: one seed is drawn, and the script
    installed, if the command goes through, is the one with that seed. *)
Lemma seeds_draw_install {B} ctx (k : nat -> M B) :
  (forall a, respects unscripted (k a)) ->
  seeds env profile
    (bind (randint env 1 1000)
       (fun noise_seed =>
          bind (call env (driver_execute_cdp_cmd ctx
                            (Page_addScriptToEvaluateOnNewDocument
                               (injection_script profile noise_seed))))
               k)).
Proof.
  intros Hk w. unfold bind at 1, randint. fold (seed_at env (draws w)).
  set (w0 := mkWorld (running_profiles w) (clock w) (trace w) (S (draws w))).
  unfold bind, call.
  set (c := driver_execute_cdp_cmd ctx
              (Page_addScriptToEvaluateOnNewDocument
                 (injection_script profile (seed_at env (draws w))))).
  destruct (fails env (clock w0) c) as [e|] eqn:F.
  - exists [EvCall c (Some e)]. simpl. split; [reflexivity|].
    split; [now right | now left].
  - match goal with |- context [k ?a ?w1] =>
      destruct (Hk a w1) as [Hd [evs [He Hno]]]
    end.
    exists (evs ++ [EvCall c None])%list. split; [|split].
    + unfold events_since in *. rewrite He. simpl. now rewrite <- app_assoc.
    + right. rewrite Hd. reflexivity.
    + right. rewrite installed_scripts_app, (no_installed_scripts _ Hno).
      split; [reflexivity | now rewrite Hd].
Qed.

End SeedSteps.

Section SeedPerSession.
Context {RT : PyRuntime} (env : Env) (profile : Profile).

Lemma apply_fingerprint_seeds ctx :
  seeds env profile (_apply_fingerprint_overrides env ctx profile).
Proof.
  unfold _apply_fingerprint_overrides.
  apply seeds_try_except; [|intros e; apply print_unscripted].
  apply seeds_bind_l; [unscripted_walk0 env | intros _].
  apply seeds_bind_l; [unscripted_walk0 env | intros _].
  apply seeds_bind_l; [unscripted_walk0 env | intros _].
  apply seeds_draw_install. intros t.
  unscripted_walk env ltac:(apply apply_geolocation_unscripted).
Qed.

Lemma launch_seeds dir options pages :
  seeds env profile (launch env profile dir options pages).
Proof.
  unfold launch.
  apply seeds_bind_l; [unscripted_walk0 env | intros ctx].
  apply seeds_bind_l; [unscripted_walk0 env | intros entered_at].
  cbv zeta.
  apply seeds_bind_l; [unscripted_walk0 env | intros _].
  apply seeds_bind_l; [apply get_websocket_url_unscripted | intros url].
  apply seeds_bind_r; [apply apply_fingerprint_seeds | intros _].
  unscripted_walk0 env.
Qed.

Lemma start_seeds flags pages :
  seeds env profile (start_profile env profile flags pages).
Proof.
  unfold start_profile. cbv zeta.
  apply seeds_bind_l; [unscripted_walk0 env | intros running].
  destruct (PyDict.mem (id profile) running).
  - apply seeds_of_unscripted. unscripted_walk0 env.
  - apply seeds_bind_l; [unscripted_walk0 env | intros _].
    apply seeds_bind_l; [unscripted_walk0 env | intros options].
    apply seeds_try_except; [|intros e; unscripted_walk0 env].
    unfold launch_and_register.
    apply seeds_bind_r; [apply launch_seeds | intros l].
    apply register_unscripted.
Qed.

End SeedPerSession.

(** Where nothing outside fails: exactly one draw and one script. *)

Section ExactSeed.
Context {RT : PyRuntime} (env : Env) (quiet : never_fails env)
        (profile : Profile).

Lemma unscripted_then_exactly w1 w2 w3 :
  unscripted w1 w2 -> seeded_exactly env profile w2 w3 ->
  seeded_exactly env profile w1 w3.
Proof.
  intros [Hd [evs1 [He1 Hno]]] (evs2 & He2 & Hscript & Hdraw).
  exists (evs2 ++ evs1)%list. rewrite Hd in *. split; [|split].
  - unfold events_since in *. rewrite He2, He1. apply app_assoc.
  - now rewrite installed_scripts_app, (no_installed_scripts _ Hno), app_nil_r.
  - exact Hdraw.
Qed.

Lemma exactly_then_unscripted w1 w2 w3 :
  seeded_exactly env profile w1 w2 -> unscripted w2 w3 ->
  seeded_exactly env profile w1 w3.
Proof.
  intros (evs1 & He1 & Hscript & Hdraw) [Hd [evs2 [He2 Hno]]].
  exists (evs2 ++ evs1)%list. rewrite Hd. split; [|split].
  - unfold events_since in *. rewrite He2, He1. apply app_assoc.
  - now rewrite installed_scripts_app, (no_installed_scripts _ Hno).
  - exact Hdraw.
Qed.

Lemma exactly_bind_l {A B} (m : M A) (k : A -> M B) :
  achieves unscripted m ->
  (forall a, achieves (seeded_exactly env profile) (k a)) ->
  achieves (seeded_exactly env profile) (bind m k).
Proof.
  intros [Hm Hq] Hk. split.
  - apply total_bind; [exact Hm | intros a; apply Hk].
  - intros w. unfold bind. destruct (Hm w) as [a Ha]. specialize (Hq w).
    destruct (m w) as [r w1]. simpl in *. subst r.
    eapply unscripted_then_exactly; [exact Hq | apply Hk].
Qed.

Lemma exactly_bind_r {A B} (m : M A) (k : A -> M B) :
  achieves (seeded_exactly env profile) m ->
  (forall a, achieves unscripted (k a)) ->
  achieves (seeded_exactly env profile) (bind m k).
Proof.
  intros [Hm Hq] Hk. split.
  - apply total_bind; [exact Hm | intros a; apply Hk].
  - intros w. unfold bind. destruct (Hm w) as [a Ha]. specialize (Hq w).
    destruct (m w) as [r w1]. simpl in *. subst r.
    eapply exactly_then_unscripted; [exact Hq | apply Hk].
Qed.

Lemma exactly_try_except {A} (m : M A) catches handler :
  achieves (seeded_exactly env profile) m ->
  achieves (seeded_exactly env profile) (try_except m catches handler).
Proof.
  intros [Hm Hq]. split; [now apply total_try_except|].
  intros w. unfold try_except. destruct (Hm w) as [a Ha]. specialize (Hq w).
  destruct (m w) as [r w1]. simpl in *. now subst r.
Qed.

Lemma exactly_draw_install {B} ctx (k : nat -> M B) :
  (forall a, achieves unscripted (k a)) ->
  achieves (seeded_exactly env profile)
    (bind (randint env 1 1000)
       (fun noise_seed =>
          bind (call env (driver_execute_cdp_cmd ctx
                            (Page_addScriptToEvaluateOnNewDocument
                               (injection_script profile noise_seed))))
               k)).
Proof.
  intros Hk. split.
  - apply total_bind; [apply total_randint | intros seed].
    apply total_bind; [now apply total_call | intros a; apply Hk].
  - intros w. unfold bind at 1, randint. fold (seed_at env (draws w)).
    unfold bind, call. cbv zeta. cbn [clock running_profiles trace draws].
    rewrite !quiet.
    set (c := driver_execute_cdp_cmd ctx
                (Page_addScriptToEvaluateOnNewDocument
                   (injection_script profile (seed_at env (draws w))))).
    match goal with |- context [k ?a ?w1] =>
      destruct (proj2 (Hk a) w1) as [Hd [evs [He Hno]]]
    end.
    exists (evs ++ [EvCall c None])%list. split; [|split].
    + unfold events_since in *. rewrite He. simpl. now rewrite <- app_assoc.
    + rewrite installed_scripts_app, (no_installed_scripts _ Hno).
      reflexivity.
    + rewrite Hd. reflexivity.
Qed.

End ExactSeed.

(** Proves [achieves unscripted m] where nothing outside fails. *)
Ltac quietly env quiet :=
  split;
  [ total_walk env quiet ltac:(first [ apply apply_geolocation_total
                                     | apply get_websocket_url_total ])
  | unscripted_walk env ltac:(first [ apply apply_geolocation_unscripted
                                    | apply get_websocket_url_unscripted ]) ].

Section ExactSeedPerSession.
Context {RT : PyRuntime} (env : Env) (quiet : never_fails env)
        (profile : Profile).

Lemma apply_fingerprint_exactly ctx :
  achieves (seeded_exactly env profile)
           (_apply_fingerprint_overrides env ctx profile).
Proof.
  unfold _apply_fingerprint_overrides. apply exactly_try_except.
  apply exactly_bind_l; [quietly env quiet | intros _].
  apply exactly_bind_l; [quietly env quiet | intros _].
  apply exactly_bind_l; [quietly env quiet | intros _].
  apply (exactly_draw_install env quiet). intros t. quietly env quiet.
Qed.

Lemma launch_exactly dir options pages :
  achieves (seeded_exactly env profile)
           (launch env profile dir options pages).
Proof.
  unfold launch.
  apply exactly_bind_l; [quietly env quiet | intros ctx].
  apply exactly_bind_l; [quietly env quiet | intros entered_at].
  cbv zeta.
  apply exactly_bind_l; [quietly env quiet | intros _].
  apply exactly_bind_l; [quietly env quiet | intros url].
  apply exactly_bind_r; [apply apply_fingerprint_exactly | intros _].
  quietly env quiet.
Qed.

Lemma start_exactly flags pages options w :
  PyDict.mem (id profile) (running_profiles w) = false ->
  _build_chrome_options profile (user_data_dir_of env profile) flags
  = Ok options ->
  seeded_exactly env profile w (snd (start_profile env profile flags pages w)).
Proof.
  intros Hmem Hbuild. rewrite (start_absent _ _ _ _ _ Hmem), Hbuild.
  pose proof (call_unscripted env (os_makedirs (user_data_dir_of env profile))
                (fun _ => eq_refl) w) as Hdir.
  unfold call in *. rewrite quiet in *. simpl in Hdir.
  match goal with |- context [launch env ?p ?d ?o ?g ?w1] =>
    destruct (launch_exactly d o g) as [Htotal Hexact];
    destruct (Htotal w1) as [l Hl]; specialize (Hexact w1);
    pose proof (register_unscripted env p l (snd (launch env p d o g w1)))
      as Hreg;
    destruct (launch env p d o g w1) as [r w2]
  end.
  simpl in *. subst r.
  eapply unscripted_then_exactly; [exact Hdir|].
  eapply exactly_then_unscripted; [exact Hexact | exact Hreg].
Qed.

End ExactSeedPerSession.

(** ** The injection, stage by stage *)

Section InjectionStages.
Context {RT : PyRuntime} (env : Env).

Lemma bind_ret_run {A B} (a : A) (k : A -> M B) w : bind (ret a) k w = k a w.
Proof. reflexivity. Qed.

Lemma bind_assoc_run {A B C} (m : M A) (k1 : A -> M B) (k2 : B -> M C) w :
  bind (bind m k1) k2 w = bind m (fun a => bind (k1 a) k2) w.
Proof. unfold bind. now destruct (m w) as [[a|e] w1]. Qed.

Lemma bind_call_returns {A} c (k : nat -> M A) w :
  fails env (clock w) c = None ->
  bind (call env c) k w
  = k (clock w)
      (mkWorld (running_profiles w) (S (clock w)) (EvCall c None :: trace w)
               (draws w)).
Proof. intros H. unfold bind, call. now rewrite H. Qed.

Lemma bind_call_raises {A} c (k : nat -> M A) w e :
  fails env (clock w) c = Some e ->
  bind (call env c) k w
  = (Raise e,
     mkWorld (running_profiles w) (S (clock w))
             (EvCall c (Some e) :: trace w) (draws w)).
Proof. intros H. unfold bind, call. now rewrite H. Qed.

(** A command whose exceptions are all swallowed takes its tick and lets
    the code go on. *)
Lemma bind_swallowed {A} c (k : unit -> M A) w :
  bind (try_except (call env c ;; ret tt) except_all (fun _ => ret tt)) k w
  = k tt
      (mkWorld (running_profiles w) (S (clock w))
               (EvCall c (fails env (clock w) c) :: trace w) (draws w)).
Proof.
  unfold bind, try_except, call, except_all, ret.
  now destruct (fails env (clock w) c).
Qed.

Lemma bind_randint_run {A} (k : Z -> M A) w :
  bind (randint env 1 1000) k w
  = k (seed_at env (draws w))
      (mkWorld (running_profiles w) (clock w) (trace w) (S (draws w))).
Proof. reflexivity. Qed.

Lemma try_except_raised {A} (m : M A) catches handler w e w1 :
  m w = (Raise e, w1) ->
  try_except m catches handler w
  = if catches e then handler e w1 else (Raise e, w1).
Proof. intros H. unfold try_except. now rewrite H. Qed.

Lemma try_except_from {A} (m m' : M A) catches handler w w1 :
  m w = m' w1 ->
  try_except m catches handler w = try_except m' catches handler w1.
Proof. intros H. unfold try_except. now rewrite H. Qed.

End InjectionStages.

(** Runs one step of manager code applied to a world in the goal. *)
Ltac run_step env :=
  first
    [ rewrite bind_assoc_run
    | rewrite bind_ret_run
    | rewrite (bind_swallowed env)
    | rewrite (bind_randint_run env)
    | rewrite (bind_call_returns env) by eassumption
    | erewrite (bind_call_raises env) by eassumption ];
  cbv beta; cbn [clock running_profiles trace draws].

Ltac rewrite_flags :=
  match goal with
  | H : adblock_enabled _ = _ |- _ => rewrite H
  | H : PyStr.truthy _ = _ |- _ => rewrite H
  end.

(** The events a trace has on top of the trace [base]. *)
Ltac events_above base t :=
  lazymatch t with
  | base => constr:(@nil Event)
  | ?ev :: ?rest => let r := events_above base rest in constr:(ev :: r)
  end.

Ltac give_events :=
  lazymatch goal with
  | |- context [events_since ?w ?w' _] =>
      let t := eval cbn [trace snd] in (trace w') in
      let evs := events_above (trace w) t in
      exists evs
  end.

(** Closes a stage goal in which the injection was ended by an exception. *)
Ltac stage_raises env :=
  unfold _apply_fingerprint_overrides;
  erewrite try_except_raised
    by (repeat first [ progress rewrite_flags | run_step env ]; reflexivity);
  unfold except_Exception, print;
  match goal with
  | |- context [exc_is_Exception ?e] => destruct (exc_is_Exception e)
  end;
  cbn [snd]; give_events; repeat split.

(** Closes a stage goal in which the injection has installed its script. *)
Ltac stage_reached env :=
  let H := fresh "Hrun" in
  match goal with
  | |- exists w4 _, _ /\ _ /\ _ /\ _ /\ _ /\ ?run _ = ?rest w4 =>
      eassert (H : run _ = rest _);
      [ unfold _apply_fingerprint_overrides; apply try_except_from;
        repeat first [ progress rewrite_flags | run_step env ]; reflexivity
      | match type of H with
        | _ = _ ?w4 => exists w4
        end;
        give_events; repeat split; exact H ]
  end.

Section InjectionSeed.
Context {RT : PyRuntime} (env : Env).

(** The injection up to the installation of its script: either it has
    installed it, and goes on with the steps after the installation; or an
    exception has ended it before. *)
Lemma injection_prefix ctx profile w :
  if installs_script env (clock w) ctx profile (seed_at env (draws w))
  then
    exists w4 evs4,
      events_since w w4 evs4
      /\ installed_scripts evs4
         = [injection_script profile (seed_at env (draws w))]
      /\ forallb not_geolocation evs4 = true
      /\ draws w4 = S (draws w)
      /\ clock w4 = timezone_tick (clock w) profile
      /\ _apply_fingerprint_overrides env ctx profile w
         = try_except (injection_tail env ctx profile) except_Exception
                      injection_handler w4
  else
    exists evs,
      events_since w (snd (_apply_fingerprint_overrides env ctx profile w)) evs
      /\ installed_scripts evs = []
      /\ forallb not_geolocation evs = true
      /\ draws (snd (_apply_fingerprint_overrides env ctx profile w))
         = if reaches_draw env (clock w) ctx profile then S (draws w)
           else draws w.
Proof.
  unfold installs_script, reaches_draw, raises, timezone_tick, install_tick,
    agent_tick, activate_step, agent_step, install_step.
  destruct (fails env (clock w) (sb_activate_cdp_mode ctx "about:blank"))
    as [e|] eqn:Fa; cbn [negb andb orb].
  - stage_raises env.
  - destruct (adblock_enabled profile) eqn:Ead;
      destruct (PyStr.truthy (user_agent profile)) eqn:Eua;
      cbn [negb andb orb];
      repeat match goal with
             | |- context [match fails env ?t ?c with _ => _ end] =>
                 destruct (fails env t c) eqn:?; cbn [negb andb orb]
             end;
      first [ stage_raises env | stage_reached env ].
Qed.

Lemma injection_tail_unscripted ctx profile :
  respects unscripted
    (try_except (injection_tail env ctx profile) except_Exception
                injection_handler).
Proof.
  unfold injection_tail, injection_handler.
  unscripted_walk env ltac:(apply apply_geolocation_unscripted).
Qed.

(** When the injection draws, and what it installs. *)
Lemma injection_seed_exact ctx profile w :
  draws (snd (_apply_fingerprint_overrides env ctx profile w))
  = (if reaches_draw env (clock w) ctx profile then S (draws w) else draws w)
  /\ exists evs,
       events_since w (snd (_apply_fingerprint_overrides env ctx profile w))
                    evs
       /\ installed_scripts evs
          = if installs_script env (clock w) ctx profile
                               (seed_at env (draws w))
            then [injection_script profile (seed_at env (draws w))]
            else [].
Proof.
  pose proof (injection_prefix ctx profile w) as Hprefix.
  destruct (installs_script env (clock w) ctx profile (seed_at env (draws w)))
    eqn:Hinstalls.
  - destruct Hprefix as (w4 & evs4 & He4 & Hscript & _ & Hdraws & _ & Hrun).
    rewrite Hrun.
    destruct (injection_tail_unscripted ctx profile w4)
      as [Hd (evs & He & Hno)].
    unfold installs_script in Hinstalls.
    apply andb_true_iff in Hinstalls as [-> _]. split; [congruence|].
    exists (evs ++ evs4)%list. split.
    + unfold events_since in *. rewrite He, He4. apply app_assoc.
    + now rewrite installed_scripts_app, (no_installed_scripts _ Hno).
  - destruct Hprefix as (evs & He & Hscript & _ & Hdraws).
    split; [exact Hdraws|]. now exists evs.
Qed.

Lemma get_websocket_url_ticks driver port w :
  clock (snd (_get_websocket_url env driver port w)) = S (clock w)
  \/ clock (snd (_get_websocket_url env driver port w)) = S (S (clock w)).
Proof.
  unfold _get_websocket_url, try_except, bind, call, lift, ret, except_all.
  destruct (fails env (clock w) (requests_get (version_url port) 5));
    simpl; [now left|].
  destruct (fails env (S (clock w)) response_json); simpl; [now right|].
  destruct (py_get _ _ _); simpl; now right.
Qed.

Lemma run_unscripted {A} (m : M A) w r w' :
  respects unscripted m -> m w = (r, w') -> unscripted w w'.
Proof. intros H Hrun. specialize (H w). now rewrite Hrun in H. Qed.

(** A launch that succeeds has run the injection once, after four or five
    calls; nothing before it and nothing after it draws a seed or installs
    a script. *)
Lemma launch_runs_injection profile dir options pages w l w' :
  launch env profile dir options pages w = (Ok l, w') ->
  exists wi,
    unscripted w wi
    /\ (clock wi = (4 + clock w)%nat \/ clock wi = (5 + clock w)%nat)
    /\ unscripted (snd (_apply_fingerprint_overrides env (clock w) profile wi))
                  w'.
Proof.
  unfold launch. intros H.
  apply bind_ok in H as (ctx & w1 & H1 & H).
  apply bind_ok in H as (t & w2 & H2 & H). cbv zeta in H.
  apply bind_ok in H as (t3 & w3 & H3 & H).
  apply bind_ok in H as (url & w4 & H4 & H).
  apply bind_ok in H as (u5 & w5 & H5 & H).
  apply bind_ok in H as (u6 & w6 & H6 & H).
  inversion H; subst; clear H.
  pose proof (call_ok _ _ _ _ _ H1) as (Hctx & C1 & _). subst ctx.
  pose proof (call_ok _ _ _ _ _ H2) as (_ & C2 & _).
  pose proof (call_ok _ _ _ _ _ H3) as (_ & C3 & _).
  pose proof (get_websocket_url_ticks
                (entered env t) (_get_debug_port (entered env t)) w3) as C4.
  rewrite H4 in C4. simpl in C4.
  exists w4. split; [|split].
  - eapply unscripted_trans;
      [eapply run_unscripted; [|exact H1]; unscripted_walk0 env|].
    eapply unscripted_trans;
      [eapply run_unscripted; [|exact H2]; unscripted_walk0 env|].
    eapply unscripted_trans;
      [eapply run_unscripted; [|exact H3]; unscripted_walk0 env|].
    eapply run_unscripted; [|exact H4]. apply get_websocket_url_unscripted.
  - lia.
  - rewrite H5. simpl.
    eapply run_unscripted; [|exact H6]. unscripted_walk0 env.
Qed.

Lemma start_runs_injection profile flags pages w res w1 :
  start_profile env profile flags pages w = (Ok res, w1) ->
  exists wi,
    unscripted w wi
    /\ (clock wi = (5 + clock w)%nat \/ clock wi = (6 + clock w)%nat)
    /\ unscripted
         (snd (_apply_fingerprint_overrides env (S (clock w)) profile wi)) w1.
Proof.
  destruct (PyDict.mem (id profile) (running_profiles w)) eqn:Hmem.
  - rewrite (start_present _ _ _ _ _ Hmem). discriminate.
  - rewrite (start_absent _ _ _ _ _ Hmem).
    destruct (call env (os_makedirs (user_data_dir_of env profile)) w)
      as [[t|e0] w0] eqn:Hdir; [|discriminate].
    pose proof (call_ok _ _ _ _ _ Hdir) as (_ & Hclock & _).
    destruct (_build_chrome_options profile (user_data_dir_of env profile)
                                    flags) as [options|e1]; [|discriminate].
    destruct (launch env profile (user_data_dir_of env profile) options
                     pages w0) as [[l|e2] w2] eqn:Hl.
    + intros Hreg.
      apply launch_runs_injection in Hl as (wi & Hbefore & Hticks & Hafter).
      rewrite Hclock in Hticks, Hafter.
      exists wi. split; [|split].
      * eapply unscripted_trans; [|exact Hbefore].
        eapply run_unscripted; [|exact Hdir]. unscripted_walk0 env.
      * lia.
      * eapply unscripted_trans; [exact Hafter|].
        eapply run_unscripted; [|exact Hreg]. apply register_unscripted.
    + destruct (exc_is_Exception e2); discriminate.
Qed.

End InjectionSeed.

(** C8, as the code has it. In a start at most one seed is drawn, and it is
    [random.randint(1, 1000)]: between 1 and 1000. The only script a start
    installs for the documents of the session is the one that declares that
    seed as the constant [NOISE_SEED]. The injection draws exactly when it
    gets as far as the draw (the switch to CDP mode does not raise, nor
    does the user-agent override), and it installs the script exactly when
    in addition the installation does not raise; otherwise the session has
    no seed or no script. A start that succeeds has run the injection once,
    five or six calls after it began, and nothing else in it draws or
    installs. The seed is not drawn again by what the manager does later in
    the session ([stop_profile] draws nothing). A start that follows a stop
    of the same profile takes the next draw: when both starts install their
    script, the first declares the seed of draw [d] and the second that of
    draw [d + 1], and the stream of draws can give the two any pair of
    values. *)
Theorem noise_seed_once_per_session {RT : PyRuntime} (env : Env)
    profile flags pages w :
  let seed := seed_at env (draws w) in
  let w1 := snd (start_profile env profile flags pages w) in
  (exists evs,
      events_since w w1 evs
      /\ (draws w1 = draws w \/ draws w1 = S (draws w))
      /\ (installed_scripts evs = []
          \/ (installed_scripts evs = [injection_script profile seed]
              /\ draws w1 = S (draws w))))
  /\ 1 <= seed <= 1000
  /\ contains_text ("const NOISE_SEED = " ++ PyStr.of_int seed ++ ";")
                   (injection_script profile seed)
  /\ (forall ctx w0,
         draws (snd (_apply_fingerprint_overrides env ctx profile w0))
         = (if reaches_draw env (clock w0) ctx profile then S (draws w0)
            else draws w0)
         /\ exists evs,
              events_since
                w0 (snd (_apply_fingerprint_overrides env ctx profile w0)) evs
              /\ installed_scripts evs
                 = if installs_script env (clock w0) ctx profile
                                      (seed_at env (draws w0))
                   then [injection_script profile (seed_at env (draws w0))]
                   else [])
  /\ (forall res,
         fst (start_profile env profile flags pages w) = Ok res ->
         exists wi,
           unscripted w wi
           /\ (clock wi = (5 + clock w)%nat \/ clock wi = (6 + clock w)%nat)
           /\ unscripted
                (snd (_apply_fingerprint_overrides env (S (clock w)) profile
                        wi))
                w1)
  /\ (forall profile_id w0,
         draws (snd (stop_profile env profile_id w0)) = draws w0)
  /\ (forall flags' pages' evs1 evs3,
         let w2 := snd (stop_profile env (id profile) w1) in
         let w3 := snd (start_profile env profile flags' pages' w2) in
         events_since w w1 evs1 ->
         events_since w2 w3 evs3 ->
         installed_scripts evs1 <> [] ->
         installed_scripts evs3 <> [] ->
         installed_scripts evs1
         = [injection_script profile (seed_at env (draws w))]
         /\ installed_scripts evs3
            = [injection_script profile (seed_at env (S (draws w)))])
  /\ (forall first second,
         1 <= first <= 1000 -> 1 <= second <= 1000 ->
         exists raw,
           seed_at (with_stream env raw) (draws w) = first
           /\ seed_at (with_stream env raw) (S (draws w)) = second).
Proof.
  intros seed w1.
  pose proof (start_seeds env profile flags pages w) as Hstart.
  fold w1 in Hstart.
  split; [exact Hstart|]. split; [apply seed_at_range|].
  split; [apply injection_script_declares_seed|].
  split; [intros ctx w0; apply injection_seed_exact|].
  split; [intros res Hres;
          exact (start_runs_injection env profile flags pages w res w1
                   (run_eq _ _ _ Hres))|].
  split; [intros profile_id w0; apply (stop_unscripted env profile_id w0)|].
  split.
  - intros flags' pages' evs1 evs3 w2 w3 He1 He3 Hn1 Hn3.
    destruct Hstart as (evs & He & _ & Hscripts).
    rewrite (events_since_unique _ _ _ _ He1 He) in *.
    destruct Hscripts as [Hnone | [Hone Hdraw]]; [congruence|].
    split; [exact Hone|].
    destruct (start_seeds env profile flags' pages' w2)
      as (evs' & He' & _ & Hscripts').
    fold w3 in He'. rewrite (events_since_unique _ _ _ _ He3 He') in *.
    destruct Hscripts' as [Hnone | [Hone' _]]; [congruence|].
    rewrite Hone'. unfold w2.
    rewrite (proj1 (stop_unscripted env (id profile) w1)), Hdraw.
    reflexivity.
  - intros first second Hf Hs.
    exists (fun n => if Nat.eqb n (draws w) then first - 1 else second - 1).
    unfold seed_at, with_stream. cbn [rand_raw].
    rewrite Nat.eqb_refl.
    replace (Nat.eqb (S (draws w)) (draws w)) with false
      by (symmetry; apply Nat.eqb_neq; lia).
    change (1000 - 1 + 1) with 1000.
    rewrite !Z.mod_small by lia. split; lia.
Qed.

(** "p1" is started, stopped and started again where nothing fails and the
    stream of draws gives 41, 48, ...: the first session declares seed 42,
    the second seed 49. *)
Lemma noise_seed_once_per_session_witness :
  let w1 := snd (start_profile Sample.quiet Sample.p1 [] [] Sample.empty_world) in
  let w2 := snd (stop_profile Sample.quiet "p1" w1) in
  let w3 := snd (start_profile Sample.quiet Sample.p1 [] [] w2) in
  (installed_scripts (trace w1) = [injection_script Sample.p1 42]
   /\ installed_scripts (firstn 13 (trace w3))
      = [injection_script Sample.p1 49])
  /\ draws w1 = 1%nat
  /\ exists raw,
       seed_at (with_stream Sample.quiet raw) 0 = 1000
       /\ seed_at (with_stream Sample.quiet raw) 1 = 1.
Proof.
  intros w1 w2 w3.
  destruct (noise_seed_once_per_session Sample.quiet Sample.p1 [] []
              Sample.empty_world)
    as (_ & _ & _ & Hinjection & Honce & _ & Hnext & Hany).
  split; [|split].
  - destruct (noise_seed_once_per_session Sample.quiet Sample.p1 [] [] w2)
      as ((evs3 & He3 & _) & _).
    assert (Hevs3 : firstn 13 (trace w3) = evs3).
    { apply (events_since_firstn w2 w3 evs3 13%nat He3).
      vm_compute. reflexivity. }
    rewrite Hevs3.
    apply (Hnext [] [] (trace w1) evs3).
    + unfold events_since.
      change (trace Sample.empty_world)
        with (@nil (@Event Sample.decimal_runtime)).
      symmetry. apply app_nil_r.
    + exact He3.
    + vm_compute. discriminate.
    + rewrite <- Hevs3. vm_compute. discriminate.
  - assert (Hrun : fst (start_profile Sample.quiet Sample.p1 [] []
                          Sample.empty_world)
                   = Ok (mkStartResult 9515
                           (PStr "ws://127.0.0.1:9515/devtools/browser/6f0c")
                           (Some 4242)))
      by (vm_compute; reflexivity).
    destruct (Honce _ Hrun) as (wi & [Hdraws _] & _ & [Hafter _]).
    fold w1 in Hafter. rewrite Hafter.
    rewrite (proj1 (Hinjection (S (clock Sample.empty_world)) wi)), Hdraws.
    reflexivity.
  - apply (Hany 1000 1); lia.
Defined.

(** C8 as stated fails: where the session cannot be switched to CDP mode,
    the start of "p1" succeeds and registers the session, and no seed was
    drawn and no script installed for it. *)
Lemma session_without_noise_seed :
  let outcome :=
    start_profile Sample.no_cdp_mode Sample.p1 [] [] Sample.empty_world in
  fst outcome
  = Ok (mkStartResult 9515
          (PStr "ws://127.0.0.1:9515/devtools/browser/6f0c") (Some 4242))
  /\ PyDict.mem "p1" (running_profiles (snd outcome)) = true
  /\ draws (snd outcome) = draws Sample.empty_world
  /\ installed_scripts (trace (snd outcome)) = [].
Proof. vm_compute. repeat split. Qed.

(** ** Geolocation *)

Section GeolocationFacts.
Context {RT : PyRuntime} (env : Env).

Lemma parse_lat_lon_pair geo lat lon :
  parses_as_pair geo lat lon -> parse_lat_lon geo = Ok (lat, lon).
Proof.
  intros (a & b & Hsplit & Ha & Hb). unfold parse_lat_lon.
  now rewrite Hsplit, Ha, Hb.
Qed.

Lemma parse_lat_lon_malformed geo :
  malformed_geolocation geo -> exists e, parse_lat_lon geo = Raise e.
Proof.
  unfold malformed_geolocation, parses_as_pair, parse_lat_lon. intros H.
  destruct (PyStr.split "," geo) as [|a [|b [|c rest]]];
    try (eexists; reflexivity).
  - destruct (float_of_str a); eexists; reflexivity.
  - destruct (float_of_str a) as [lat|] eqn:Ha; [|eexists; reflexivity].
    destruct (float_of_str b) as [lon|] eqn:Hb; [|eexists; reflexivity].
    destruct H. exists lat, lon, a, b. auto.
  - destruct (float_of_str a); [|eexists; reflexivity].
    destruct (float_of_str b); [|eexists; reflexivity].
    destruct (float_of_str c); eexists; reflexivity.
Qed.

Lemma pair_has_comma geo lat lon :
  parses_as_pair geo lat lon ->
  (PyStr.truthy geo && PyStr.has_char "," geo)%bool = true.
Proof.
  intros (a & b & Hsplit & _). apply andb_true_iff. split.
  - destruct geo; [discriminate Hsplit | reflexivity].
  - destruct (PyStr.has_char "," geo) eqn:E; [reflexivity|].
    rewrite (split_without_sep _ _ E) in Hsplit. discriminate.
Qed.

(** A geolocation that parses: the permission is granted, and when that
    command goes through the coordinates are overridden, with accuracy
    100; nothing is raised. *)
Lemma apply_geolocation_pair ctx profile geo lat lon w :
  geolocation profile = Some geo ->
  parses_as_pair geo lat lon ->
  fails env (clock w) (grant_geolocation ctx) = None ->
  exists w',
    apply_geolocation env ctx profile w = (Ok tt, w')
    /\ events_since w w'
         [ EvCall (override_geolocation ctx lat lon)
                  (fails env (S (clock w)) (override_geolocation ctx lat lon));
           EvCall (grant_geolocation ctx) None ].
Proof.
  intros Hgeo Hpair Hgrant. unfold apply_geolocation.
  rewrite Hgeo, (pair_has_comma _ _ _ Hpair).
  unfold try_except, bind at 1, lift. rewrite (parse_lat_lon_pair _ _ _ Hpair).
  unfold bind at 1, call at 1. fold (grant_geolocation ctx). rewrite Hgrant.
  unfold bind, call, ret, except_all. simpl.
  fold (override_geolocation ctx lat lon).
  destruct (fails env (S (clock w)) (override_geolocation ctx lat lon));
    eexists; split; reflexivity.
Qed.

(** A geolocation that does not parse: the step does nothing and raises
    nothing. *)
Lemma apply_geolocation_skipped ctx profile geo w :
  geolocation profile = Some geo ->
  malformed_geolocation geo ->
  apply_geolocation env ctx profile w = (Ok tt, w).
Proof.
  intros Hgeo Hbad. unfold apply_geolocation. rewrite Hgeo.
  destruct (PyStr.truthy geo && PyStr.has_char "," geo)%bool; [|reflexivity].
  unfold try_except, bind, lift, except_all, ret.
  destruct (parse_lat_lon_malformed _ Hbad) as [e ->]. reflexivity.
Qed.

Lemma emitted_after wanted w1 w2 w3 :
  only_events any_event w1 w2 -> emitted wanted w2 w3 -> emitted wanted w1 w3.
Proof.
  intros [evs1 [He1 _]] [evs2 [He2 Hin]]. exists (evs2 ++ evs1)%list. split.
  - unfold events_since in *. rewrite He2, He1. apply app_assoc.
  - now apply incl_appl.
Qed.

Lemma emitted_before wanted w1 w2 w3 :
  emitted wanted w1 w2 -> only_events any_event w2 w3 -> emitted wanted w1 w3.
Proof.
  intros [evs1 [He1 Hin]] [evs2 [He2 _]]. exists (evs2 ++ evs1)%list. split.
  - unfold events_since in *. rewrite He2, He1. apply app_assoc.
  - now apply incl_appr.
Qed.

Lemma delivers_bind_l {A B} wanted (m : M A) (k : A -> M B) :
  proceeds m -> (forall a, delivers wanted (k a)) ->
  delivers wanted (bind m k).
Proof.
  intros [Hm Hlater] Hk. split.
  - apply total_bind; [exact Hm | intros a; apply Hk].
  - intros w. unfold bind. destruct (Hm w) as [a Ha]. specialize (Hlater w).
    destruct (m w) as [r w1]. simpl in *. subst r.
    eapply emitted_after; [exact Hlater | apply Hk].
Qed.

Lemma delivers_bind_r {A B} wanted (m : M A) (k : A -> M B) :
  delivers wanted m -> (forall a, proceeds (k a)) ->
  delivers wanted (bind m k).
Proof.
  intros [Hm Hwanted] Hk. split.
  - apply total_bind; [exact Hm | intros a; apply Hk].
  - intros w. unfold bind. destruct (Hm w) as [a Ha]. specialize (Hwanted w).
    destruct (m w) as [r w1]. simpl in *. subst r.
    eapply emitted_before; [exact Hwanted | apply Hk].
Qed.

Lemma delivers_try_except {A} wanted (m : M A) catches handler :
  delivers wanted m -> delivers wanted (try_except m catches handler).
Proof.
  intros [Hm Hwanted]. split; [now apply total_try_except|].
  intros w. unfold try_except. destruct (Hm w) as [a Ha]. specialize (Hwanted w).
  destruct (m w) as [r w1]. simpl in *. now subst r.
Qed.

End GeolocationFacts.

Ltac any_events_walk env known :=
  respects_walk (only_events_refl any_event) (only_events_trans any_event)
                ltac:(first [ solve [known] | events_prim env ]).

(** Proves [proceeds m] where nothing outside fails. *)
Ltac proceeds_walk env quiet :=
  split;
  [ total_walk env quiet ltac:(apply apply_geolocation_total)
  | any_events_walk env ltac:(idtac) ].

Section GeolocationInjection.
Context {RT : PyRuntime} (env : Env) (quiet : never_fails env).

Lemma apply_geolocation_delivers ctx profile geo lat lon :
  geolocation profile = Some geo ->
  parses_as_pair geo lat lon ->
  delivers [ EvCall (grant_geolocation ctx) None;
             EvCall (override_geolocation ctx lat lon) None ]
           (apply_geolocation env ctx profile).
Proof.
  intros Hgeo Hpair. split; [now apply apply_geolocation_total|].
  intros w.
  destruct (apply_geolocation_pair env ctx profile geo lat lon w Hgeo Hpair
              (quiet _ _)) as [w' [Hrun Hevs]].
  rewrite Hrun. simpl. rewrite quiet in Hevs.
  eexists. split; [exact Hevs|].
  intros ev [<-|[<-|[]]]; simpl; auto.
Qed.

(** Where nothing outside fails, the injection for a profile whose
    geolocation parses grants the permission and overrides the
    coordinates. *)
Lemma apply_fingerprint_delivers ctx profile geo lat lon :
  geolocation profile = Some geo ->
  parses_as_pair geo lat lon ->
  delivers [ EvCall (grant_geolocation ctx) None;
             EvCall (override_geolocation ctx lat lon) None ]
           (_apply_fingerprint_overrides env ctx profile).
Proof.
  intros Hgeo Hpair. unfold _apply_fingerprint_overrides.
  apply delivers_try_except.
  apply delivers_bind_l; [proceeds_walk env quiet | intros _].
  apply delivers_bind_l; [proceeds_walk env quiet | intros _].
  apply delivers_bind_l; [proceeds_walk env quiet | intros _].
  apply delivers_bind_l; [proceeds_walk env quiet | intros noise_seed].
  apply delivers_bind_l; [proceeds_walk env quiet | intros _].
  apply delivers_bind_l; [proceeds_walk env quiet | intros _].
  apply delivers_bind_r; [now apply (apply_geolocation_delivers ctx profile geo)|].
  intros _. proceeds_walk env quiet.
Qed.

End GeolocationInjection.

Section GeolocationSkipped.
Context {RT : PyRuntime} (env : Env) (profile : Profile) (geo : string)
        (Hgeo : geolocation profile = Some geo)
        (Hbad : malformed_geolocation geo).

Lemma apply_geolocation_no_command ctx :
  respects (only_events not_geolocation) (apply_geolocation env ctx profile).
Proof.
  intros w. rewrite (apply_geolocation_skipped env ctx profile geo w Hgeo Hbad).
  apply only_events_refl.
Qed.

(** A start for a profile whose geolocation does not parse sends neither
    geolocation command. *)
Lemma start_no_geolocation_command flags pages :
  respects (only_events not_geolocation)
           (start_profile env profile flags pages).
Proof.
  unfold start_profile, launch_and_register, launch, register,
    _apply_fingerprint_overrides.
  respects_walk (only_events_refl not_geolocation)
                (only_events_trans not_geolocation)
                ltac:(first [ apply apply_geolocation_no_command
                            | events_prim env ]).
Qed.

End GeolocationSkipped.

Section GeolocationStage.
Context {RT : PyRuntime} (env : Env).

(** The geolocation step for a string that parses: it never raises, grants
    the permission, and overrides the coordinates when the grant did not
    raise. *)
Lemma apply_geolocation_events ctx profile geo lat lon w :
  geolocation profile = Some geo ->
  parses_as_pair geo lat lon ->
  exists w',
    apply_geolocation env ctx profile w = (Ok tt, w')
    /\ events_since w w' (geolocation_events env (clock w) ctx lat lon).
Proof.
  intros Hgeo Hpair. unfold geolocation_events.
  destruct (fails env (clock w) (grant_geolocation ctx)) as [e|] eqn:Hgrant.
  - unfold apply_geolocation.
    rewrite Hgeo, (pair_has_comma _ _ _ Hpair).
    unfold try_except, bind at 1, lift.
    rewrite (parse_lat_lon_pair _ _ _ Hpair).
    unfold bind at 1, call at 1. fold (grant_geolocation ctx).
    rewrite Hgrant. unfold except_all, ret. eexists. split; reflexivity.
  - exact (apply_geolocation_pair env ctx profile geo lat lon w Hgeo Hpair
             Hgrant).
Qed.

Lemma apply_geolocation_returns ctx profile w :
  fst (apply_geolocation env ctx profile w) = Ok tt.
Proof.
  unfold apply_geolocation.
  destruct (geolocation profile) as [geo|]; [|reflexivity].
  destruct (PyStr.truthy geo && PyStr.has_char "," geo)%bool; [|reflexivity].
  unfold try_except, except_all, ret.
  match goal with |- context [match ?m w with _ => _ end] =>
    destruct (m w) as [[[]|e] w1] end; reflexivity.
Qed.

(** What the injection does after its geolocation step: the reconnect. *)
Lemma injection_end ctx profile wg :
  exists after,
    events_since
      (snd (apply_geolocation env ctx profile wg))
      (snd (try_except
              (apply_geolocation env ctx profile ;;
               call env (sb_reconnect ctx) ;; ret tt)
              except_Exception injection_handler wg))
      after
    /\ forallb not_geolocation after = true.
Proof.
  unfold try_except, bind at 1.
  pose proof (apply_geolocation_returns ctx profile wg) as Hok.
  destruct (apply_geolocation env ctx profile wg) as [r wh].
  simpl in Hok. subst r. cbn [snd].
  unfold bind, call, ret, except_Exception, injection_handler, print.
  destruct (fails env (clock wh) (sb_reconnect ctx)) as [e|];
    [destruct (exc_is_Exception e)|]; cbn [snd];
    give_events; split; reflexivity.
Qed.

(** Where the geolocation step runs in the injection. *)
Lemma injection_geolocation_stage ctx profile w :
  if reaches_geolocation env (clock w) ctx profile (seed_at env (draws w))
  then
    exists wg before after,
      events_since w wg before
      /\ forallb not_geolocation before = true
      /\ clock wg = geolocation_tick (clock w) profile
      /\ events_since (snd (apply_geolocation env ctx profile wg))
                      (snd (_apply_fingerprint_overrides env ctx profile w))
                      after
      /\ forallb not_geolocation after = true
  else
    only_events not_geolocation w
                (snd (_apply_fingerprint_overrides env ctx profile w)).
Proof.
  pose proof (injection_prefix env ctx profile w) as Hprefix.
  unfold reaches_geolocation, geolocation_tick.
  destruct (installs_script env (clock w) ctx profile (seed_at env (draws w)));
    cbn [andb].
  - destruct Hprefix as (w4 & evs4 & He4 & _ & Hno4 & _ & Hclock & Hrun).
    rewrite Hrun. unfold injection_tail, timezone_of, raises, timezone_step.
    destruct (timezone profile) as [tz|];
      [destruct (PyStr.truthy tz)|].
    + rewrite <- Hclock.
      destruct (fails env (clock w4)
                  (driver_execute_cdp_cmd ctx (Emulation_setTimezoneOverride tz)))
        as [e|] eqn:Ftz; cbn [negb].
      * erewrite try_except_raised by (repeat run_step env; reflexivity).
        unfold except_Exception, injection_handler, print.
        destruct (exc_is_Exception e); cbn [snd];
          (apply (only_events_trans _ w w4); [now exists evs4|]);
          unfold only_events; give_events; split; reflexivity.
      * set (wg := mkWorld (running_profiles w4) (S (clock w4))
                     (EvCall (driver_execute_cdp_cmd ctx
                                (Emulation_setTimezoneOverride tz)) None
                        :: trace w4)
                     (draws w4)).
        rewrite (try_except_from _
                   (apply_geolocation env ctx profile ;;
                    call env (sb_reconnect ctx) ;; ret tt) _ _ w4 wg)
          by (do 3 run_step env; reflexivity).
        destruct (injection_end ctx profile wg) as (after & Hafter & Hno).
        exists wg, (EvCall (driver_execute_cdp_cmd ctx
                              (Emulation_setTimezoneOverride tz)) None
                      :: evs4), after.
        unfold events_since in *. cbn [trace clock wg]. rewrite He4.
        repeat split; try assumption.
    + rewrite (try_except_from _
                 (apply_geolocation env ctx profile ;;
                  call env (sb_reconnect ctx) ;; ret tt) _ _ w4 w4)
        by reflexivity.
      destruct (injection_end ctx profile w4) as (after & Hafter & Hno).
      now exists w4, evs4, after.
    + rewrite (try_except_from _
                 (apply_geolocation env ctx profile ;;
                  call env (sb_reconnect ctx) ;; ret tt) _ _ w4 w4)
        by reflexivity.
      destruct (injection_end ctx profile w4) as (after & Hafter & Hno).
      now exists w4, evs4, after.
  - destruct Hprefix as (evs & He & _ & Hno & _). now exists evs.
Qed.


Lemma bind_same {A B} (m m' : M A) (k k' : A -> M B) w :
  m w = m' w -> (forall a w1, k a w1 = k' a w1) ->
  bind m k w = bind m' k' w.
Proof.
  intros Hm Hk. unfold bind. rewrite Hm.
  destruct (m' w) as [[a|e] w1]; [apply Hk | reflexivity].
Qed.

Lemma try_except_same {A} (m m' : M A) catches handler w :
  m w = m' w ->
  try_except m catches handler w = try_except m' catches handler w.
Proof. intros H. unfold try_except. now rewrite H. Qed.

(** A geolocation that does not parse is as good as none. *)
Lemma apply_fingerprint_without_geolocation ctx profile geo w :
  geolocation profile = Some geo ->
  malformed_geolocation geo ->
  _apply_fingerprint_overrides env ctx profile w
  = _apply_fingerprint_overrides env ctx (with_geolocation profile None) w.
Proof.
  intros Hgeo Hbad. unfold _apply_fingerprint_overrides.
  apply try_except_same.
  apply bind_same; [reflexivity | intros t1 w1].
  apply bind_same; [reflexivity | intros u2 w2].
  apply bind_same; [reflexivity | intros u3 w3].
  apply bind_same; [reflexivity | intros noise_seed w4].
  apply bind_same; [reflexivity | intros t5 w5].
  apply bind_same; [reflexivity | intros u6 w6].
  apply bind_same; [|reflexivity].
  now rewrite (apply_geolocation_skipped env ctx profile geo w6 Hgeo Hbad).
Qed.

Lemma launch_without_geolocation profile geo dir options pages w :
  geolocation profile = Some geo ->
  malformed_geolocation geo ->
  launch env profile dir options pages w
  = launch env (with_geolocation profile None) dir options pages w.
Proof.
  intros Hgeo Hbad. unfold launch.
  apply bind_same; [reflexivity | intros ctx w1].
  apply bind_same; [reflexivity | intros t w2]. cbv zeta.
  apply bind_same; [reflexivity | intros t3 w3].
  apply bind_same; [reflexivity | intros url w4].
  apply bind_same; [|reflexivity].
  now apply (apply_fingerprint_without_geolocation ctx profile geo).
Qed.

Lemma start_without_geolocation profile geo flags pages w :
  geolocation profile = Some geo ->
  malformed_geolocation geo ->
  start_profile env profile flags pages w
  = start_profile env (with_geolocation profile None) flags pages w.
Proof.
  intros Hgeo Hbad. unfold start_profile. cbv zeta.
  apply bind_same; [reflexivity | intros running w0].
  change (id (with_geolocation profile None)) with (id profile).
  destruct (PyDict.mem (id profile) running); [reflexivity|].
  apply bind_same; [reflexivity | intros t w1].
  apply bind_same; [reflexivity | intros options w2].
  apply try_except_same. unfold launch_and_register.
  apply bind_same; [|reflexivity].
  now apply (launch_without_geolocation profile geo).
Qed.

End GeolocationStage.

(** C9, as the code has it. For a profile whose geolocation string is two
    floating-point numerals separated by a comma: the geolocation step
    never raises; it asks for the geolocation permission, and when that
    command does not raise it overrides the coordinates with the two
    numbers and accuracy 100. The injection makes that step exactly when it
    gets as far (the switch to CDP mode, the user-agent override, the
    installation of the script and the timezone override do not raise);
    otherwise it sends neither geolocation command. For a profile whose
    geolocation string does not parse so: the step does nothing and raises
    nothing, a start sends neither command, and it does exactly what the
    start of the same profile without geolocation does, so that it succeeds
    whenever that one does. *)
Theorem geolocation_override {RT : PyRuntime} (env : Env) profile geo :
  geolocation profile = Some geo ->
  (forall lat lon,
      parses_as_pair geo lat lon ->
      (forall ctx w,
          exists w',
            apply_geolocation env ctx profile w = (Ok tt, w')
            /\ events_since w w'
                 (match fails env (clock w)
                          (driver_execute_cdp_cmd ctx
                             (Browser_grantPermissions ["geolocation"])) with
                  | Some e =>
                      [ EvCall (driver_execute_cdp_cmd ctx
                                  (Browser_grantPermissions ["geolocation"]))
                               (Some e) ]
                  | None =>
                      [ EvCall (driver_execute_cdp_cmd ctx
                                  (Emulation_setGeolocationOverride
                                     lat lon 100))
                               (fails env (S (clock w))
                                  (driver_execute_cdp_cmd ctx
                                     (Emulation_setGeolocationOverride
                                        lat lon 100)));
                        EvCall (driver_execute_cdp_cmd ctx
                                  (Browser_grantPermissions ["geolocation"]))
                               None ]
                  end))
      /\ (forall ctx w,
             if reaches_geolocation env (clock w) ctx profile
                                    (seed_at env (draws w))
             then
               exists before after,
                 events_since
                   w (snd (_apply_fingerprint_overrides env ctx profile w))
                   (after
                      ++ geolocation_events
                           env (geolocation_tick (clock w) profile) ctx
                           lat lon
                      ++ before)%list
                 /\ forallb not_geolocation before = true
                 /\ forallb not_geolocation after = true
             else
               only_events
                 not_geolocation w
                 (snd (_apply_fingerprint_overrides env ctx profile w))))
  /\ (malformed_geolocation geo ->
      (forall ctx w, apply_geolocation env ctx profile w = (Ok tt, w))
      /\ (forall flags pages w,
             only_events not_geolocation w
               (snd (start_profile env profile flags pages w)))
      /\ (forall flags pages w,
             start_profile env profile flags pages w
             = start_profile env (with_geolocation profile None) flags pages
                             w)).
Proof.
  intros Hgeo. split.
  - intros lat lon Hpair. split.
    + intros ctx w.
      exact (apply_geolocation_events env ctx profile geo lat lon w
               Hgeo Hpair).
    + intros ctx w.
      pose proof (injection_geolocation_stage env ctx profile w) as Hstage.
      destruct (reaches_geolocation env (clock w) ctx profile
                                    (seed_at env (draws w)));
        [|exact Hstage].
      destruct Hstage as (wg & before & after & Hbefore & Hnb & Hclock
                          & Hafter & Hna).
      destruct (apply_geolocation_events env ctx profile geo lat lon wg
                  Hgeo Hpair) as (wh & Hrun & Hevs).
      rewrite Hrun in Hafter. simpl in Hafter. rewrite Hclock in Hevs.
      exists before, after. split; [|now split].
      unfold events_since in *. rewrite Hafter, Hevs, Hbefore.
      now rewrite <- !app_assoc.
  - intros Hbad. split; [|split].
    + intros ctx w. now apply (apply_geolocation_skipped env ctx profile geo).
    + intros flags pages w.
      apply (start_no_geolocation_command env profile geo Hgeo Hbad).
    + intros flags pages w.
      now apply (start_without_geolocation env profile geo).
Qed.

(** The spec's scenario for C9: geolocation "40.7128,-74.0060", and
    geolocation "not-a-pair". *)
Lemma geolocation_override_witness :
  (forall w, exists w',
      apply_geolocation Sample.quiet 1 Sample.p1 w = (Ok tt, w')
      /\ events_since w w'
           [ EvCall (driver_execute_cdp_cmd 1
                       (@Emulation_setGeolocationOverride
                          Sample.decimal_runtime
                          (407128 # 10000)%Q (-740060 # 10000)%Q 100))
                    None;
             EvCall (driver_execute_cdp_cmd 1
                       (Browser_grantPermissions ["geolocation"])) None ])
  /\ (forall w, exists before after,
      events_since w
        (snd (_apply_fingerprint_overrides Sample.quiet 1 Sample.p1 w))
        (after
           ++ [ EvCall (driver_execute_cdp_cmd 1
                          (@Emulation_setGeolocationOverride
                             Sample.decimal_runtime
                             (407128 # 10000)%Q (-740060 # 10000)%Q 100))
                       None;
                EvCall (driver_execute_cdp_cmd 1
                          (Browser_grantPermissions ["geolocation"])) None ]
           ++ before)%list)
  /\ (let profile := with_geolocation Sample.p1 (Some "not-a-pair") in
      start_profile Sample.quiet profile [] [] Sample.empty_world
      = start_profile Sample.quiet (with_geolocation profile None) [] []
                      Sample.empty_world
      /\ only_events not_geolocation Sample.empty_world
           (snd (start_profile Sample.quiet profile [] [] Sample.empty_world))).
Proof.
  destruct (geolocation_override Sample.quiet Sample.p1 "40.7128,-74.0060"
              eq_refl) as [Hpair _].
  destruct (Hpair (407128 # 10000)%Q (-740060 # 10000)%Q)
    as [Hstep Hinjection].
  { exists "40.7128", "-74.0060". repeat split; vm_compute; reflexivity. }
  split; [|split].
  - intros w. exact (Hstep 1%nat w).
  - intros w. destruct (Hinjection 1%nat w) as (before & after & Hevs & _).
    now exists before, after.
  - intros profile.
    destruct (geolocation_override Sample.quiet profile "not-a-pair" eq_refl)
      as [_ Hskipped].
    destruct Hskipped as (_ & Hnone & Hsame).
    { intros (lat & lon & a & b & Hsplit & _). discriminate Hsplit. }
    split; [apply Hsame | apply Hnone].
Defined.

(** C9 as stated fails: "p1" has a geolocation that parses; where the
    timezone cannot be overridden its start succeeds, and the injection has
    sent neither the grant nor the override. *)
Lemma geolocation_not_sent :
  let outcome :=
    start_profile Sample.no_timezone_override Sample.p1 [] []
                  Sample.empty_world in
  @parses_as_pair Sample.decimal_runtime "40.7128,-74.0060"
                  (407128 # 10000)%Q (-740060 # 10000)%Q
  /\ geolocation Sample.p1 = Some "40.7128,-74.0060"
  /\ fst outcome
     = Ok (mkStartResult 9515
             (PStr "ws://127.0.0.1:9515/devtools/browser/6f0c") (Some 4242))
  /\ forallb not_geolocation (trace (snd outcome)) = true.
Proof.
  intros outcome. split.
  - exists "40.7128", "-74.0060". repeat split; vm_compute; reflexivity.
  - vm_compute. repeat split.
Qed.

(** * Further properties of the manager *)

(** ** Dictionaries, continued *)

Section MoreDictFacts.
Context {V : Type}.
Implicit Types (d : PyDict.t V) (k : string) (v : V).

Lemma dict_get_del_other k k' d :
  k <> k' -> PyDict.get k' (PyDict.del k d) = PyDict.get k' d.
Proof.
  intros Hne. induction d as [|[k0 v0] rest IH]; simpl; [reflexivity|].
  destruct (String.eqb k k0) eqn:E; simpl.
  - apply String.eqb_eq in E. subst k0.
    destruct (String.eqb k' k) eqn:E'; [|exact IH].
    apply String.eqb_eq in E'. congruence.
  - now rewrite IH.
Qed.

Lemma dict_get_set_other k k' v d :
  k <> k' -> PyDict.get k' (PyDict.set k v d) = PyDict.get k' d.
Proof.
  intros Hne. induction d as [|[k0 v0] rest IH]; simpl.
  - destruct (String.eqb k' k) eqn:E; [|reflexivity].
    apply String.eqb_eq in E. congruence.
  - destruct (String.eqb k k0) eqn:E; simpl.
    + apply String.eqb_eq in E. subst k0.
      destruct (String.eqb k' k) eqn:E'; [|reflexivity].
      apply String.eqb_eq in E'. congruence.
    + now rewrite IH.
Qed.

Lemma dict_mem_false_del k d : PyDict.mem k d = false -> PyDict.del k d = d.
Proof.
  unfold PyDict.mem. induction d as [|[k0 v0] rest IH]; simpl; [reflexivity|].
  destruct (String.eqb k k0) eqn:E; [discriminate|].
  intros H. simpl. now rewrite IH.
Qed.

Lemma dict_set_absent k v d :
  PyDict.mem k d = false -> PyDict.set k v d = (d ++ [(k, v)])%list.
Proof.
  unfold PyDict.mem. induction d as [|[k0 v0] rest IH]; simpl; [reflexivity|].
  destruct (String.eqb k k0) eqn:E; [discriminate|].
  intros H. now rewrite IH.
Qed.

(** Removing a key that was just added to a dictionary without it gives the
    dictionary back. *)
Lemma dict_del_set_absent k v d :
  PyDict.mem k d = false -> PyDict.del k (PyDict.set k v d) = d.
Proof.
  intros H. rewrite (dict_set_absent _ _ _ H). unfold PyDict.del.
  rewrite filter_app. simpl. rewrite String.eqb_refl. simpl.
  rewrite app_nil_r. now apply dict_mem_false_del.
Qed.

End MoreDictFacts.

(** ** Stopping what is not running *)

(** X1. [stop_profile] for an id that is not registered raises "Profile
    <id> is not running" and changes nothing; in particular a second stop
    of the same id, whatever the first one did, raises it and changes
    nothing. *)
Theorem stop_when_not_running {RT : PyRuntime} (env : Env) profile_id w :
  (PyDict.mem profile_id (running_profiles w) = false ->
   stop_profile env profile_id w
   = (Raise (Exception ("Profile " ++ profile_id ++ " is not running")), w))
  /\ (forall r w1,
         stop_profile env profile_id w = (r, w1) ->
         stop_profile env profile_id w1
         = (Raise (Exception ("Profile " ++ profile_id ++ " is not running")),
            w1)).
Proof.
  assert (Habsent : forall w0,
             PyDict.mem profile_id (running_profiles w0) = false ->
             stop_profile env profile_id w0
             = (Raise (not_running profile_id), w0)).
  { intros w0 H. apply stop_absent. unfold PyDict.mem in H.
    now destruct (PyDict.get profile_id (running_profiles w0)). }
  split; [apply Habsent|].
  intros r w1 Hstop. apply Habsent.
  pose proof (stop_registry env profile_id w) as Hreg.
  rewrite Hstop in Hreg. simpl in Hreg. rewrite Hreg.
  apply dict_mem_del_same.
Qed.

(** "p3" is not registered; "p1" is stopped twice while its browser neither
    closes nor dies. *)
Lemma stop_when_not_running_witness :
  stop_profile Sample.quiet "p3" Sample.two_sessions
  = (Raise (Exception "Profile p3 is not running"), Sample.two_sessions)
  /\ fst (stop_profile Sample.stuck "p1"
            (snd (stop_profile Sample.stuck "p1" Sample.two_sessions)))
     = Raise (Exception "Profile p1 is not running").
Proof.
  split.
  - exact (proj1 (stop_when_not_running Sample.quiet "p3" Sample.two_sessions)
             eq_refl).
  - rewrite (proj2 (stop_when_not_running Sample.stuck "p1"
                      Sample.two_sessions) _ _ (surjective_pairing _)).
    reflexivity.
Defined.

(** ** The forced kill *)

Section KillFacts.
Context {RT : PyRuntime} (env : Env).

Lemma force_kill_events data w :
  events_since w (snd (force_kill env data w))
               (kill_attempt env (clock w) data).
Proof.
  unfold force_kill, kill_attempt, events_since, try_except, except_all,
    bind, call, ret.
  destruct (pid data) as [p|]; [|reflexivity].
  destruct (pid_truthy (Some p)); [|reflexivity].
  destruct (fails env (clock w) (psutil_Process p)); [reflexivity|].
  simpl.
  destruct (fails env (S (clock w)) (process_terminate p)); [reflexivity|].
  simpl.
  destruct (fails env (S (S (clock w))) (process_wait p 5)); reflexivity.
Qed.

End KillFacts.

(** X2. What [stop_profile] does to the outside for a registered session.
    When the graceful exit succeeds, that exit is the only event. When it
    raises outside [Exception], it is the only event too: nothing is printed
    and no kill is tried. When it raises an [Exception], the error is
    printed and the forced kill follows: no call without a truthy pid, else
    lookup, terminate and a five-second wait of that pid, in this order and
    up to the first of them that raises. *)
Theorem stop_fallback_discipline {RT : PyRuntime} (env : Env) profile_id
    data w :
  PyDict.get profile_id (running_profiles w) = Some data ->
  match fails env (clock w) (SB_exit (sb_context data)) with
  | None =>
      events_since w (snd (stop_profile env profile_id w))
                   [EvCall (SB_exit (sb_context data)) None]
  | Some e =>
      if exc_is_Exception e then
        events_since w (snd (stop_profile env profile_id w))
          (kill_attempt env (S (clock w)) data
             ++ [closing_error e;
                 EvCall (SB_exit (sb_context data)) (Some e)])%list
      else
        events_since w (snd (stop_profile env profile_id w))
                     [EvCall (SB_exit (sb_context data)) (Some e)]
  end.
Proof.
  intros G. destruct (stop_profile env profile_id w) as [r w'] eqn:S.
  unfold stop_profile, bind, get_running, try_finally, try_except, call,
    print, ret, set_running, except_Exception in S.
  rewrite G in S. unfold events_since. simpl.
  destruct (fails env (clock w) (SB_exit (sb_context data))) as [e|] eqn:F.
  - destruct (exc_is_Exception e) eqn:Ee.
    + match type of S with context [force_kill env data ?w0] =>
        pose proof (force_kill_events env data w0) as Hevs;
        destruct (force_kill env data w0) as [r1 w1]
      end.
      unfold events_since in Hevs. simpl in Hevs.
      rewrite <- app_assoc. simpl. unfold closing_error.
      destruct r1;
        destruct (PyDict.mem profile_id (running_profiles w1));
        inversion S; subst; simpl; exact Hevs.
    + simpl in S.
      destruct (PyDict.mem profile_id (running_profiles w));
        inversion S; subst; reflexivity.
  - simpl in S.
    destruct (PyDict.mem profile_id (running_profiles w));
      inversion S; subst; reflexivity.
Qed.

(** Stopping "p1" when its browser neither closes nor dies: exit, the error
    line, the lookup of pid 4242 and the terminate that raises; no wait. *)
Lemma stop_fallback_discipline_witness :
  let stuck := Some (Exception "browser is stuck") in
  events_since Sample.two_sessions
    (snd (stop_profile Sample.stuck "p1" Sample.two_sessions))
    [EvCall (process_terminate 4242) stuck;
     EvCall (psutil_Process 4242) None;
     EvPrint "⚠️ Error closing browser: browser is stuck";
     EvCall (SB_exit 1) stuck].
Proof.
  exact (stop_fallback_discipline Sample.stuck "p1" (Sample.handle 1 4242)
           Sample.two_sessions eq_refl).
Defined.

(** ** What a start stores *)

Section StartStores.
Context {RT : PyRuntime} (env : Env).

(** A launch that succeeds names the session by the tick of its [SB]
    call, and holds the driver entered at the next tick. *)
Lemma launch_session profile dir options pages w l w' :
  launch env profile dir options pages w = (Ok l, w') ->
  l_context l = clock w /\ l_driver l = entered env (S (clock w)).
Proof.
  unfold launch. intros H.
  apply bind_ok in H as (ctx & w1 & H1 & H).
  apply bind_ok in H as (t & w2 & H2 & H). cbv zeta in H.
  apply bind_ok in H as (t3 & w3 & H3 & H).
  apply bind_ok in H as (url & w4 & H4 & H).
  apply bind_ok in H as (u5 & w5 & H5 & H).
  apply bind_ok in H as (u6 & w6 & H6 & H).
  apply call_ok in H1 as (T1 & C1 & _). apply call_ok in H2 as (T2 & _ & _).
  inversion H; subst; simpl. split; [reflexivity | now rewrite C1].
Qed.

(** The entry a successful start leaves in the registry. *)
Lemma start_ok_entry profile flags pages w res w' :
  start_profile env profile flags pages w = (Ok res, w') ->
  PyDict.mem (id profile) (running_profiles w) = false
  /\ running_profiles w'
     = PyDict.set (id profile)
         (mkHandle (S (clock w)) (entered env (S (S (clock w))))
                   (res_pid res) (res_debug_port res)
                   (res_websocket_link res) (now env (clock w')))
         (running_profiles w).
Proof.
  destruct (PyDict.mem (id profile) (running_profiles w)) eqn:Hmem.
  - rewrite (start_present _ _ _ _ _ Hmem). discriminate.
  - rewrite (start_absent _ _ _ _ _ Hmem). split; [reflexivity|].
    pose proof (call_same_registry env
                  (os_makedirs (user_data_dir_of env profile)) w) as H0.
    destruct (call env (os_makedirs (user_data_dir_of env profile)) w)
      as [[t|e0] w1] eqn:Hdir; simpl in H0; [|discriminate].
    apply call_ok in Hdir as (_ & Hclock & _).
    destruct (_build_chrome_options profile (user_data_dir_of env profile)
                                    flags) as [options|e1]; [|discriminate].
    pose proof (launch_same_registry env profile
                  (user_data_dir_of env profile) options pages w1) as H1.
    destruct (launch env profile (user_data_dir_of env profile) options
                     pages w1) as [[l|e2] w2] eqn:Hl; simpl in H1.
    + apply launch_session in Hl as [Hctx Hdrv].
      rewrite register_spec in H. inversion H; subst; simpl.
      unfold same_registry in *. now rewrite Hctx, Hdrv, Hclock, H1, H0.
    + destruct (exc_is_Exception e2); discriminate.
Qed.

End StartStores.

(** X3. After a successful start, [get_running_profile] of the profile id
    gives an entry that holds the port, the address and the pid that the
    start returned, for the session the start opened; the lookups of all
    other ids answer as before, and the id is the last key of the
    registry. *)
Theorem start_registers_result {RT : PyRuntime} (env : Env) profile flags
    pages w res w' :
  start_profile env profile flags pages w = (Ok res, w') ->
  (exists data,
      get_running_profile (id profile) w' = (Ok (Some data), w')
      /\ debug_port data = res_debug_port res
      /\ websocket_url data = res_websocket_link res
      /\ pid data = res_pid res
      /\ sb_context data = S (clock w)
      /\ driver data = entered env (S (S (clock w))))
  /\ (forall other,
         other <> id profile ->
         fst (get_running_profile other w')
         = fst (get_running_profile other w))
  /\ PyDict.keys (running_profiles w')
     = (PyDict.keys (running_profiles w) ++ [id profile])%list.
Proof.
  intros H. apply start_ok_entry in H as [Hmem Hreg].
  unfold get_running_profile, bind, get_running, ret. simpl.
  rewrite Hreg. split; [|split].
  - rewrite dict_get_set_same. eexists. split; [reflexivity|].
    simpl. repeat split.
  - intros other Hne. rewrite dict_get_set_other; [reflexivity|].
    congruence.
  - rewrite (dict_set_absent _ _ _ Hmem). unfold PyDict.keys.
    now rewrite map_app.
Qed.

(** "p1" is started beside a session "p0". *)
Lemma start_registers_result_witness :
  let w := mkWorld [("p0", Sample.handle 3 4100)] 10 [] 0 in
  let w' := snd (start_profile Sample.quiet Sample.p1 [] [] w) in
  (exists data,
      get_running_profile "p1" w' = (Ok (Some data), w')
      /\ debug_port data = 9515
      /\ websocket_url data = PStr "ws://127.0.0.1:9515/devtools/browser/6f0c"
      /\ pid data = Some 4242
      /\ sb_context data = 11%nat
      /\ driver data = Sample.chrome_driver)
  /\ PyDict.keys (running_profiles w') = ["p0"; "p1"].
Proof.
  intros w w'.
  assert (Hrun : fst (start_profile Sample.quiet Sample.p1 [] [] w)
                 = Ok (mkStartResult 9515
                         (PStr "ws://127.0.0.1:9515/devtools/browser/6f0c")
                         (Some 4242)))
    by (vm_compute; reflexivity).
  destruct (start_registers_result Sample.quiet Sample.p1 [] [] w _ _
              (run_eq _ _ _ Hrun)) as [Hentry [_ Hkeys]].
  split; [exact Hentry | exact Hkeys].
Defined.

(** X4. A start followed by the stop of the same id gives back the registry
    the start found, and the session that stop asks to exit is the one the
    start opened. *)
Theorem start_then_stop_restores_registry {RT : PyRuntime} (env : Env)
    profile flags pages w res w1 :
  start_profile env profile flags pages w = (Ok res, w1) ->
  running_profiles (snd (stop_profile env (id profile) w1))
  = running_profiles w
  /\ fst (stop_profile env (id profile) w1)
     = stop_outcome (fails env (clock w1) (SB_exit (S (clock w))))
  /\ exists evs,
       events_since w1 (snd (stop_profile env (id profile) w1)) evs
       /\ exit_calls evs = [S (clock w)].
Proof.
  intros H. apply start_ok_entry in H as [Hmem Hreg]. split.
  - rewrite stop_registry, Hreg. now apply dict_del_set_absent.
  - apply (stop_present env (id profile)
             (mkHandle (S (clock w)) (entered env (S (S (clock w))))
                       (res_pid res) (res_debug_port res)
                       (res_websocket_link res) (now env (clock w1)))).
    rewrite Hreg. apply dict_get_set_same.
Qed.

(** "p1" is started beside "p0" and stopped again. *)
Lemma start_then_stop_restores_registry_witness :
  let w := mkWorld [("p0", Sample.handle 3 4100)] 10 [] 0 in
  let w1 := snd (start_profile Sample.quiet Sample.p1 [] [] w) in
  running_profiles (snd (stop_profile Sample.quiet "p1" w1))
  = [("p0", Sample.handle 3 4100)].
Proof.
  intros w w1.
  assert (Hrun : fst (start_profile Sample.quiet Sample.p1 [] [] w)
                 = Ok (mkStartResult 9515
                         (PStr "ws://127.0.0.1:9515/devtools/browser/6f0c")
                         (Some 4242)))
    by (vm_compute; reflexivity).
  exact (proj1 (start_then_stop_restores_registry Sample.quiet Sample.p1 []
                  [] w _ _ (run_eq _ _ _ Hrun))).
Defined.

(** ** The debug port *)

Lemma split_at_first_sep (sep : ascii) (a b : string) :
  PyStr.has_char sep a = false ->
  PyStr.split sep (a ++ String sep b) = a :: PyStr.split sep b.
Proof.
  induction a as [|c rest IH]; simpl; intros H.
  - now rewrite Ascii.eqb_refl.
  - apply orb_false_iff in H as [Hc Hrest].
    rewrite Hc, (IH Hrest). reflexivity.
Qed.

Lemma has_char_app (sep : ascii) (a b : string) :
  PyStr.has_char sep (a ++ b)
  = (PyStr.has_char sep a || PyStr.has_char sep b)%bool.
Proof.
  induction a as [|c rest IH]; simpl; [reflexivity|].
  now rewrite IH, orb_assoc.
Qed.

(** X5. How [_get_debug_port] resolves the port. A port on the driver's
    service wins over everything else. Without one, a debugger address
    [host:port] in the capabilities gives the integer after the first
    colon, and 9222 when that text is not an integer. In every other case
    (capabilities that cannot be read, no chrome options, no address, an
    address without a colon) the port is 9222. *)
Theorem get_debug_port_resolution {RT : PyRuntime} (driver : Driver) :
  (forall service port,
      drv_service driver = Some service -> svc_port service = Some port ->
      _get_debug_port driver = port)
  /\ ((drv_service driver = None
       \/ exists service,
            drv_service driver = Some service /\ svc_port service = None) ->
      (forall host port_text,
          drv_capabilities driver
          = Caps (Some (Some (host ++ ":" ++ port_text))) ->
          PyStr.has_char ":" host = false ->
          PyStr.has_char ":" port_text = false ->
          _get_debug_port driver
          = match int_of_str port_text with
            | Some port => port
            | None => 9222
            end)
      /\ (drv_capabilities driver = CapsRaises
          \/ drv_capabilities driver = Caps None
          \/ drv_capabilities driver = Caps (Some None)
          \/ (exists address,
                drv_capabilities driver = Caps (Some (Some address))
                /\ PyStr.has_char ":" address = false) ->
          _get_debug_port driver = 9222)).
Proof.
  unfold _get_debug_port. split.
  - intros service port -> ->. reflexivity.
  - intros Hservice.
    assert (Hnone : match drv_service driver with
                    | Some service => svc_port service
                    | None => None
                    end = None).
    { destruct Hservice as [->|[service [-> ->]]]; reflexivity. }
    rewrite Hnone. split.
    + intros host port_text -> Hhost Hport.
      change (host ++ ":" ++ port_text)%string
        with (host ++ String ":" port_text)%string.
      rewrite has_char_app, Hhost. simpl. rewrite ?Ascii.eqb_refl. simpl.
      rewrite (split_at_first_sep _ _ _ Hhost).
      rewrite (split_without_sep _ _ Hport). reflexivity.
    + intros [->|[->|[->|[address [-> Haddr]]]]]; try reflexivity.
      now rewrite Haddr.
Qed.

(** chromedriver's service port, and a driver attached to a browser at
    127.0.0.1:9333. *)
Lemma get_debug_port_resolution_witness :
  @_get_debug_port Sample.decimal_runtime Sample.chrome_driver = 9515
  /\ @_get_debug_port Sample.decimal_runtime
       (mkDriver None (Caps (Some (Some "127.0.0.1:9333"))) None)
     = 9333
  /\ @_get_debug_port Sample.decimal_runtime
       (mkDriver (Some (mkService None (Some 4242)))
                 (Caps (Some (Some "localhost"))) None)
     = 9222.
Proof.
  split; [|split].
  - exact (proj1 (get_debug_port_resolution Sample.chrome_driver)
             _ 9515 eq_refl eq_refl).
  - exact (proj1 (proj2 (get_debug_port_resolution
                           (mkDriver None (Caps (Some (Some "127.0.0.1:9333")))
                                     None))
                        (or_introl eq_refl))
             "127.0.0.1" "9333" eq_refl eq_refl eq_refl).
  - apply (proj2 (get_debug_port_resolution
                    (mkDriver (Some (mkService None (Some 4242)))
                              (Caps (Some (Some "localhost"))) None))).
    + right. eexists. split; reflexivity.
    + right. right. right. eexists. split; reflexivity.
Defined.

(** ** The launch arguments as one string *)

Lemma split_length (sep : ascii) (s : string) :
  List.length (PyStr.split sep s) = S (count_char sep s).
Proof.
  induction s as [|c rest IH]; simpl; [reflexivity|].
  destruct (Ascii.eqb c sep); simpl; [now rewrite IH|].
  destruct (PyStr.split sep rest) as [|piece pieces]; simpl in *;
    [discriminate | exact IH].
Qed.

Lemma count_char_app (c : ascii) (a b : string) :
  count_char c (a ++ b) = (count_char c a + count_char c b)%nat.
Proof.
  induction a as [|d rest IH]; simpl; [reflexivity|].
  destruct (Ascii.eqb d c); simpl; now rewrite IH.
Qed.

Lemma join_cons (sep p q : string) (rest : list string) :
  PyStr.join sep (p :: q :: rest) = (p ++ sep ++ PyStr.join sep (q :: rest))%string.
Proof. reflexivity. Qed.

(** Joining with commas and splitting on commas gives the pieces back when
    there is at least one piece and no piece holds a comma. *)
Lemma split_join_comma (pieces : list string) :
  pieces <> [] ->
  Forall (fun piece => PyStr.has_char "," piece = false) pieces ->
  PyStr.split "," (PyStr.join "," pieces) = pieces.
Proof.
  intros Hne Hall. induction Hall as [|p rest Hp Hrest IH]; [congruence|].
  destruct rest as [|q rest].
  - simpl. now apply split_without_sep.
  - rewrite join_cons.
    change ("," ++ PyStr.join "," (q :: rest))%string
      with (String "," (PyStr.join "," (q :: rest))).
    rewrite (split_at_first_sep _ _ _ Hp), IH; [reflexivity | discriminate].
Qed.

(** Every piece joined adds a separator, except the first. *)
Lemma count_join_comma (p : string) (rest : list string) :
  (count_char "," p + List.length rest
   <= count_char "," (PyStr.join "," (p :: rest)))%nat.
Proof.
  revert p. induction rest as [|q rest IH]; intros p.
  - simpl. lia.
  - rewrite join_cons, count_char_app.
    change ("," ++ PyStr.join "," (q :: rest))%string
      with (String "," (PyStr.join "," (q :: rest))).
    cbn [count_char]. rewrite Ascii.eqb_refl.
    specialize (IH q). simpl List.length. lia.
Qed.

(** X6. The flags of [_build_chrome_options] are handed to the browser
    launcher as one comma-joined string. Splitting that string on commas
    gives the flags back when none of them holds a comma; but with a screen
    resolution set, the window-size flag holds one, and the string splits
    into more pieces than there are flags. *)
Theorem chromium_arg_pieces (profile : Profile) (dir : string)
    (extra options : list string) :
  _build_chrome_options profile dir extra = Ok options ->
  (options <> [] ->
   Forall (fun flag => PyStr.has_char "," flag = false) options ->
   PyStr.split "," (chromium_arg options) = options)
  /\ (screen_resolution profile <> "" ->
      (List.length options
       < List.length (PyStr.split "," (chromium_arg options)))%nat).
Proof.
  intros Hbuild. split; [apply split_join_comma|].
  intros Hres.
  assert (Ht : PyStr.truthy (screen_resolution profile) = true)
    by (destruct (screen_resolution profile); [congruence | reflexivity]).
  destruct (PyStr.split "x" (screen_resolution profile))
    as [|width [|height [|third more]]] eqn:Hsplit;
    try (unfold _build_chrome_options in Hbuild;
         rewrite Ht, Hsplit in Hbuild; discriminate Hbuild).
  rewrite (build_well_formed _ _ _ _ _ Hsplit) in Hbuild.
  inversion Hbuild as [Hoptions]. unfold chromium_arg.
  rewrite split_length.
  pose proof (count_join_comma (window_size_flag width height)
                (flags_after_window_size profile extra)) as Hcount.
  unfold window_size_flag in Hcount at 1.
  rewrite !count_char_app in Hcount.
  change (count_char "," ",") with 1%nat in Hcount.
  simpl List.length. lia.
Qed.

(** The flags of "p1" with and without its resolution. *)
Lemma chromium_arg_pieces_witness :
  PyStr.split ","
    (chromium_arg ["--proxy-server=socks5://u:p@host:1080";
                   "--disable-webrtc"])
  = ["--proxy-server=socks5://u:p@host:1080"; "--disable-webrtc"]
  /\ (3 < List.length
            (PyStr.split ","
               (chromium_arg ["--window-size=1920,1080";
                              "--proxy-server=socks5://u:p@host:1080";
                              "--disable-webrtc"])))%nat.
Proof.
  split.
  - apply (proj1 (chromium_arg_pieces (Sample.with_resolution Sample.p1 "")
                    "/data" [] _ eq_refl)).
    + discriminate.
    + repeat constructor.
  - apply (proj2 (chromium_arg_pieces Sample.p1 "/data" [] _ eq_refl)).
    discriminate.
Defined.

(** ** The calls of a start, in order *)

Section StartTrace.
Context {RT : PyRuntime} (env : Env).

Lemma call_ok_event c w t w1 :
  call env c w = (Ok t, w1) -> trace w1 = EvCall c None :: trace w.
Proof.
  unfold call. destruct (fails env (clock w) c); intros H; inversion H.
  reflexivity.
Qed.

Lemma call_raise_event c w e w1 :
  call env c w = (Raise e, w1) ->
  fails env (clock w) c = Some e /\ trace w1 = EvCall c (Some e) :: trace w.
Proof.
  unfold call. destruct (fails env (clock w) c); intros H; inversion H.
  now subst.
Qed.

Lemma get_websocket_url_any_events driver port :
  respects (only_events any_event) (_get_websocket_url env driver port).
Proof. unfold _get_websocket_url. any_events_walk env ltac:(idtac). Qed.

Lemma apply_fingerprint_any_events ctx profile :
  respects (only_events any_event)
           (_apply_fingerprint_overrides env ctx profile).
Proof.
  unfold _apply_fingerprint_overrides, apply_geolocation.
  any_events_walk env ltac:(idtac).
Qed.

(** A loop over the start pages that comes to its end has opened each of
    them, in order. *)
Lemma start_pages_opened ctx numbered : forall w u w',
  for_each numbered
    (fun '(idx, page_url) =>
       if Nat.eqb idx 0 then call env (driver_get ctx page_url) ;; ret tt
       else call env (driver_execute_script ctx
                        ("window.open('" ++ page_url ++ "', '_blank');")) ;;
            ret tt) w = (Ok u, w') ->
  events_since w w' (rev (pages_opened ctx numbered)).
Proof.
  unfold events_since.
  induction numbered as [|[idx page_url] rest IH]; intros w u w' H.
  - inversion H. reflexivity.
  - cbn [for_each] in H. apply bind_ok in H as (u1 & w1 & Hfirst & Hrest).
    apply IH in Hrest. rewrite Hrest. cbn [pages_opened map rev fst snd].
    rewrite <- app_assoc. f_equal. simpl.
    unfold open_page. destruct (Nat.eqb idx 0);
      apply bind_ok in Hfirst as (t & w2 & Hcall & Hret);
      inversion Hret; subst; now apply call_ok_event in Hcall.
Qed.

(** The trace of a launch that succeeds. *)
Lemma launch_events profile options pages w l w' :
  launch env profile (user_data_dir_of env profile) options pages w
  = (Ok l, w') ->
  exists middle,
    events_since w w'
      (rev (pages_opened (clock w) (enumerate pages))
         ++ middle ++ browser_launched env (clock w) profile options)%list.
Proof.
  unfold launch. intros H.
  apply bind_ok in H as (ctx & w1 & H1 & H).
  apply bind_ok in H as (t & w2 & H2 & H). cbv zeta in H.
  apply bind_ok in H as (t3 & w3 & H3 & H).
  apply bind_ok in H as (url & w4 & H4 & H).
  apply bind_ok in H as (u5 & w5 & H5 & H).
  apply bind_ok in H as (u6 & w6 & H6 & H).
  pose proof (call_ok _ _ _ _ _ H1) as (Hctx & _ & _). subst ctx.
  apply call_ok_event in H1, H2, H3.
  pose proof (get_websocket_url_any_events
                (entered env t) (_get_debug_port (entered env t)) w3)
    as [evs4 [He4 _]].
  rewrite H4 in He4.
  pose proof (apply_fingerprint_any_events (clock w) profile w4)
    as [evs5 [He5 _]].
  rewrite H5 in He5.
  apply start_pages_opened in H6.
  inversion H; subst. unfold events_since in *. simpl in He4, He5.
  exists (evs5 ++ evs4)%list. rewrite H6, He5, He4, H3, H2, H1.
  unfold browser_launched, chromium_arg.
  rewrite <- !app_assoc. reflexivity.
Qed.

End StartTrace.

(** X7. What a successful start has done, in order: it prepared the
    profile's directory, created the browser session with the built flags
    joined by commas and the locale of the profile, entered it and opened
    the blank page; and the last thing it did was to open the start pages in
    the order given, the first by navigation and each other one in a new tab
    by [window.open]. *)
Theorem start_call_sequence {RT : PyRuntime} (env : Env) profile flags
    pages w res w' :
  start_profile env profile flags pages w = (Ok res, w') ->
  exists options middle,
    _build_chrome_options profile (user_data_dir_of env profile) flags
    = Ok options
    /\ events_since w w'
         (rev (pages_opened (S (clock w)) (enumerate pages))
            ++ middle
            ++ browser_launched env (S (clock w)) profile options
            ++ [EvCall (os_makedirs (user_data_dir_of env profile)) None])%list.
Proof.
  destruct (PyDict.mem (id profile) (running_profiles w)) eqn:Hmem.
  - rewrite (start_present _ _ _ _ _ Hmem). discriminate.
  - rewrite (start_absent _ _ _ _ _ Hmem).
    destruct (call env (os_makedirs (user_data_dir_of env profile)) w)
      as [[t|e0] w1] eqn:Hdir; [|discriminate].
    pose proof (call_ok _ _ _ _ _ Hdir) as (_ & Hclock & _).
    apply call_ok_event in Hdir.
    destruct (_build_chrome_options profile (user_data_dir_of env profile)
                                    flags) as [options|e1]; [|discriminate].
    destruct (launch env profile (user_data_dir_of env profile) options
                     pages w1) as [[l|e2] w2] eqn:Hl.
    + rewrite register_spec. intros H. inversion H; subst.
      apply launch_events in Hl as [middle Hl].
      exists options, middle. split; [reflexivity|].
      unfold events_since in *. simpl. rewrite Hl, Hdir, Hclock.
      rewrite <- !app_assoc. reflexivity.
    + destruct (exc_is_Exception e2); discriminate.
Qed.

(** "p1" is started with two start pages. *)
Lemma start_call_sequence_witness :
  let w' :=
    snd (start_profile Sample.quiet Sample.p1 ["--mute-audio"]
           ["https://a.example"; "https://b.example"] Sample.empty_world) in
  exists middle,
    events_since Sample.empty_world w'
      ([ EvCall (driver_execute_script 1
                   "window.open('https://b.example', '_blank');") None;
         EvCall (driver_get 1 "https://a.example") None ]
       ++ middle
       ++ [ EvCall (driver_get 1 "about:blank") None;
            EvCall (SB_enter 1) None;
            EvCall (SB_new "/srv/app/./profiles/profile_p1"
                      "--window-size=1920,1080,--proxy-server=socks5://u:p@host:1080,--disable-webrtc,--mute-audio"
                      "en-US") None;
            EvCall (os_makedirs "/srv/app/./profiles/profile_p1") None ])%list.
Proof.
  intros w'.
  assert (Hrun : fst (start_profile Sample.quiet Sample.p1 ["--mute-audio"]
                        ["https://a.example"; "https://b.example"]
                        Sample.empty_world)
                 = Ok (mkStartResult 9515
                         (PStr "ws://127.0.0.1:9515/devtools/browser/6f0c")
                         (Some 4242)))
    by (vm_compute; reflexivity).
  destruct (start_call_sequence Sample.quiet Sample.p1 ["--mute-audio"]
              ["https://a.example"; "https://b.example"] Sample.empty_world
              _ _ (run_eq _ _ _ Hrun)) as (options & middle & Hbuild & Hevs).
  exists middle. injection Hbuild as <-. exact Hevs.
Defined.

(** X8. What a start that fails leaves in the trace, for an id that is not
    registered. When the profile's directory cannot be prepared, that
    exception is raised and the failed call is the only event: nothing is
    launched and nothing is printed. When the launch arguments cannot be
    built, that exception is raised after the directory was prepared, again
    with nothing launched and nothing printed. Only a failure of the launch
    itself is reported: the failure line is printed when the exception is an
    [Exception], and nothing is printed otherwise. *)
Theorem start_failure_report {RT : PyRuntime} (env : Env) profile flags
    pages w :
  PyDict.mem (id profile) (running_profiles w) = false ->
  (forall e,
      fails env (clock w) (os_makedirs (user_data_dir_of env profile))
      = Some e ->
      fst (start_profile env profile flags pages w) = Raise e
      /\ events_since w (snd (start_profile env profile flags pages w))
           [EvCall (os_makedirs (user_data_dir_of env profile)) (Some e)])
  /\ (forall e,
         fails env (clock w) (os_makedirs (user_data_dir_of env profile))
         = None ->
         _build_chrome_options profile (user_data_dir_of env profile) flags
         = Raise e ->
         fst (start_profile env profile flags pages w) = Raise e
         /\ events_since w (snd (start_profile env profile flags pages w))
              [EvCall (os_makedirs (user_data_dir_of env profile)) None])
  /\ (forall t w1 options e w2,
         call env (os_makedirs (user_data_dir_of env profile)) w = (Ok t, w1) ->
         _build_chrome_options profile (user_data_dir_of env profile) flags
         = Ok options ->
         launch env profile (user_data_dir_of env profile) options pages w1
         = (Raise e, w2) ->
         fst (start_profile env profile flags pages w) = Raise e
         /\ events_since w2 (snd (start_profile env profile flags pages w))
              (if exc_is_Exception e then [start_error profile e] else [])).
Proof.
  intros Hmem. rewrite (start_absent _ _ _ _ _ Hmem). unfold events_since.
  split; [|split].
  - intros e He. unfold call. rewrite He. split; reflexivity.
  - intros e He Hbuild. unfold call. rewrite He, Hbuild. split; reflexivity.
  - intros t w1 options e w2 Hdir Hbuild Hlaunch.
    rewrite Hdir, Hbuild, Hlaunch.
    destruct (exc_is_Exception e); split; reflexivity.
Qed.

(** "p1" with the resolution "1920": the directory is prepared, the
    arguments do not build. *)
Lemma start_failure_report_witness :
  let profile := Sample.with_resolution Sample.p1 "1920" in
  fst (start_profile Sample.quiet profile [] [] Sample.empty_world)
  = Raise (ValueError "not enough values to unpack (expected 2, got 1)")
  /\ events_since Sample.empty_world
       (snd (start_profile Sample.quiet profile [] [] Sample.empty_world))
       [EvCall (os_makedirs "/srv/app/./profiles/profile_p1") None].
Proof.
  exact (proj1 (proj2 (start_failure_report Sample.quiet
                         (Sample.with_resolution Sample.p1 "1920") [] []
                         Sample.empty_world eq_refl))
           _ eq_refl eq_refl).
Defined.

(** ** Statistics only read *)

Section StatsReads.
Context {RT : PyRuntime} (env : Env).

Lemma sum_memory_only_lookups items : forall total,
  respects (only_events is_memory_lookup) (sum_memory env total items).
Proof.
  induction items as [|[k data] rest IH]; intros total; simpl.
  - apply respects_ret. apply only_events_refl.
  - apply respects_bind; [apply only_events_trans | | intros; apply IH].
    unfold add_memory. events_walk env is_memory_lookup.
Qed.

Lemma get_stats_only_lookups :
  respects (only_events is_memory_lookup) (get_stats env).
Proof.
  unfold get_stats.
  respects_walk (only_events_refl is_memory_lookup)
                (only_events_trans is_memory_lookup)
                ltac:(first [ apply sum_memory_only_lookups
                            | events_prim env ]).
Qed.

(** Sessions without a pid cost no call. *)
Lemma sum_memory_without_pids items : forall total w,
  Forall (fun entry => pid_truthy (pid (snd entry)) = false) items ->
  sum_memory env total items w = (Ok total, w).
Proof.
  induction items as [|[k data] rest IH]; intros total w Hall; simpl;
    [reflexivity|].
  inversion Hall as [|? ? Hdata Hrest]; subst. simpl in Hdata.
  unfold bind, add_memory, try_except, ret.
  destruct (pid data) as [p|]; [rewrite Hdata|]; now apply IH.
Qed.

Lemma add_all_float sizes : forall x,
  exists y, add_all (NFloat x) sizes = NFloat y.
Proof.
  unfold add_all. induction sizes as [|size rest IH]; intros x; simpl.
  - now exists x.
  - apply IH.
Qed.

(** The total is the integer it started as until a size is added. *)
Lemma add_all_int sizes n :
  add_all (NInt n) sizes = NInt n <-> sizes = [].
Proof.
  split; [|now intros ->].
  destruct sizes as [|size rest]; [reflexivity|].
  unfold add_all. simpl.
  destruct (add_all_float rest (float_add (float_of_int n) (megabytes size)))
    as [y Hy].
  unfold add_all in Hy. rewrite Hy. discriminate.
Qed.

End StatsReads.

(** X9. [get_stats] only reads: the only calls it makes are process
    lookups and memory queries. It makes no call at all when no registered
    session has a pid, and the memory total it reports is the integer 0
    exactly when no lookup gave a size; as soon as one did, it is a
    float. *)
Theorem get_stats_only_reads {RT : PyRuntime} (env : Env) (w : World) :
  only_events is_memory_lookup w (snd (get_stats env w))
  /\ (Forall (fun entry => pid_truthy (pid (snd entry)) = false)
             (running_profiles w) ->
      get_stats env w
      = (Ok (mkStats (PyDict.len (running_profiles w)) (NInt 0)
                     (PyDict.keys (running_profiles w))), w))
  /\ (forall stats,
         fst (get_stats env w) = Ok stats ->
         (total_memory_mb stats = NInt 0
          <-> successful (memory_lookups env (clock w) (running_profiles w))
              = [])
         /\ (successful (memory_lookups env (clock w) (running_profiles w))
             <> [] ->
             exists x, total_memory_mb stats = NFloat x)).
Proof.
  split; [apply get_stats_only_lookups|]. split.
  - intros Hall. unfold get_stats, bind at 1, get_running at 1.
    unfold bind at 1. rewrite (sum_memory_without_pids env _ _ _ Hall).
    reflexivity.
  - intros stats. unfold get_stats, bind at 1, get_running at 1.
    destruct (sum_memory_lookups env (running_profiles w) (NInt 0) w)
      as [w1 [Hsum Hreg]].
    unfold bind at 1. rewrite Hsum. unfold bind, get_running, ret. simpl.
    intros H. inversion H; subst; simpl.
    set (sizes := successful
                    (memory_lookups env (clock w) (running_profiles w))).
    pose proof (add_all_int sizes 0) as Hint.
    destruct sizes as [|size rest] eqn:Hsizes.
    + split; [split; reflexivity | congruence].
    + unfold add_all in *. simpl in *.
      destruct (add_all_float rest
                  (float_add (float_of_int 0) (megabytes size))) as [y Hy].
      unfold add_all in Hy. rewrite Hy. simpl. split.
      * split; discriminate.
      * intros _. eexists. reflexivity.
Qed.

(** A session without a pid costs nothing; of two sessions of which one
    lookup fails, the other makes the total a float. *)
Lemma get_stats_only_reads_witness :
  let idle :=
    mkWorld [("p9", mkHandle 5 Sample.chrome_driver None 9515 (PStr "") 0)]
            3 [] 0 in
  get_stats Sample.quiet idle = (Ok (mkStats 1 (NInt 0) ["p9"]), idle)
  /\ forall stats,
       fst (get_stats Sample.no_such_process Sample.two_sessions) = Ok stats ->
       exists x, total_memory_mb stats = NFloat x.
Proof.
  intros idle. split.
  - apply (proj1 (proj2 (get_stats_only_reads Sample.quiet idle))).
    repeat constructor.
  - intros stats Hstats.
    apply (proj2 (proj2 (proj2 (get_stats_only_reads Sample.no_such_process
                                  Sample.two_sessions))
                    stats Hstats)).
    vm_compute. discriminate.
Defined.

(** ** After the shutdown *)

(** X10. After [close_all] nothing runs: a second [close_all] does nothing
    and raises nothing, [stop_profile] raises not-running for every id
    without touching anything, [is_running] answers false for every id, and
    the statistics are empty. *)
Theorem close_all_then_nothing_runs {RT : PyRuntime} (env : Env) w r w1 :
  close_all env w = (r, w1) ->
  close_all env w1 = (Ok tt, w1)
  /\ (forall profile_id,
         stop_profile env profile_id w1
         = (Raise (Exception ("Profile " ++ profile_id ++ " is not running")),
            w1))
  /\ (forall profile_id, is_running profile_id w1 = (Ok false, w1))
  /\ get_stats env w1 = (Ok (mkStats 0 (NInt 0) []), w1).
Proof.
  rewrite close_all_loop. intros H.
  assert (Hempty : running_profiles w1 = []).
  { destruct (close_loop_registry env (PyDict.keys (running_profiles w)) w)
      as [_ Hd].
    rewrite H in Hd. simpl in Hd. rewrite Hd. apply del_all_keys. auto. }
  split; [|split; [|split]].
  - rewrite Hempty. reflexivity.
  - intros profile_id. apply stop_absent. now rewrite Hempty.
  - intros profile_id. unfold is_running, bind, get_running, ret.
    now rewrite Hempty.
  - unfold get_stats, bind, get_running. rewrite Hempty. simpl.
    rewrite Hempty. reflexivity.
Qed.

(** Two sessions whose browsers neither close nor die are closed; then
    "p1" is stopped. *)
Lemma close_all_then_nothing_runs_witness :
  let w1 := snd (close_all Sample.stuck Sample.two_sessions) in
  close_all Sample.stuck w1 = (Ok tt, w1)
  /\ stop_profile Sample.stuck "p1" w1
     = (Raise (Exception "Profile p1 is not running"), w1).
Proof.
  intros w1.
  destruct (close_all_then_nothing_runs Sample.stuck Sample.two_sessions _ _
              (surjective_pairing _)) as [Hagain [Hstop _]].
  split; [exact Hagain | exact (Hstop "p1")].
Defined.

(** ** Failures of the injection *)

Section InjectionFailures.
Context {RT : PyRuntime} (env : Env).

Lemma ordinarily_ret {A} (a : A) : raises_ordinarily (ret a).
Proof. intros w e H. discriminate H. Qed.

Lemma ordinarily_call c :
  ordinary_failures env -> raises_ordinarily (call env c).
Proof.
  intros Hord w e. unfold call.
  destruct (fails env (clock w) c) as [e0|] eqn:F; simpl; intros H;
    inversion H; subst. eapply Hord, F.
Qed.

Lemma ordinarily_randint a b : raises_ordinarily (randint env a b).
Proof. intros w e H. discriminate H. Qed.

Lemma ordinarily_bind {A B} (m : M A) (k : A -> M B) :
  raises_ordinarily m -> (forall a, raises_ordinarily (k a)) ->
  raises_ordinarily (bind m k).
Proof.
  intros Hm Hk w e. unfold bind. specialize (Hm w).
  destruct (m w) as [[a|e0] w1]; simpl in *; [apply Hk|].
  intros H. inversion H; subst. now apply Hm.
Qed.

Lemma ordinarily_total {A} (m : M A) : total m -> raises_ordinarily m.
Proof.
  intros Hm w e H. destruct (Hm w) as [a Ha]. congruence.
Qed.

Lemma caught_is_total {A} (m : M A) handler :
  (forall e, total (handler e)) -> total (try_except m except_all handler).
Proof. apply total_try_except_all. Qed.

Lemma call_raises_first {A} c (k : nat -> M A) w e :
  fails env (clock w) c = Some e ->
  bind (call env c) k w
  = (Raise e, mkWorld (running_profiles w) (S (clock w))
                      (EvCall c (Some e) :: trace w) (draws w)).
Proof. intros He. unfold bind, call. now rewrite He. Qed.

Lemma apply_geolocation_never_raises ctx profile :
  total (apply_geolocation env ctx profile).
Proof.
  unfold apply_geolocation.
  destruct (geolocation profile) as [geo|]; [|apply total_ret].
  destruct (PyStr.truthy geo && PyStr.has_char "," geo)%bool;
    [|apply total_ret].
  apply total_try_except_all. intros e. apply total_ret.
Qed.

End InjectionFailures.

(** X11. A failure of the fingerprint injection does not fail the start.
    When every exception the outside raises derives from [Exception],
    [_apply_fingerprint_overrides] never raises. When the first step,
    switching the session to CDP mode, raises such an exception, the error
    line is printed and nothing else is done: no seed is drawn and no
    script is installed. An exception outside [Exception] raised there is
    passed on, with nothing printed. *)
Theorem injection_failure_not_fatal {RT : PyRuntime} (env : Env) ctx
    profile :
  (ordinary_failures env ->
   total (_apply_fingerprint_overrides env ctx profile))
  /\ (forall w e,
         fails env (clock w) (sb_activate_cdp_mode ctx "about:blank")
         = Some e ->
         fst (_apply_fingerprint_overrides env ctx profile w)
         = (if exc_is_Exception e then Ok tt else Raise e)
         /\ events_since w
              (snd (_apply_fingerprint_overrides env ctx profile w))
              (if exc_is_Exception e
               then [injection_error e;
                     EvCall (sb_activate_cdp_mode ctx "about:blank") (Some e)]
               else [EvCall (sb_activate_cdp_mode ctx "about:blank")
                            (Some e)])
         /\ draws (snd (_apply_fingerprint_overrides env ctx profile w))
            = draws w).
Proof.
  split.
  - intros Hord w. unfold _apply_fingerprint_overrides, try_except.
    match goal with |- context [match ?m w with _ => _ end] =>
      assert (Hbody : raises_ordinarily m)
    end.
    { repeat first
        [ apply ordinarily_ret
        | apply (ordinarily_call env _ Hord)
        | apply ordinarily_randint
        | apply ordinarily_total; apply apply_geolocation_never_raises
        | apply ordinarily_total; apply total_try_except_all; intros;
          apply total_ret
        | apply ordinarily_bind; intros
        | match goal with
          | |- raises_ordinarily (if ?b then _ else _) => destruct b
          | |- raises_ordinarily (match ?x with _ => _ end) => destruct x
          end ]. }
    specialize (Hbody w).
    match goal with |- context [match ?m w with _ => _ end] =>
      destruct (m w) as [[u|e] w1]
    end; simpl in *; [now exists u|].
    unfold except_Exception. rewrite (Hbody e eq_refl). now exists tt.
  - intros w e He.
    destruct (_apply_fingerprint_overrides env ctx profile w) as [r w']
      eqn:Hrun.
    unfold _apply_fingerprint_overrides in Hrun.
    unfold try_except at 1 in Hrun.
    rewrite (call_raises_first env _ _ _ _ He) in Hrun.
    unfold except_Exception, print in Hrun.
    unfold events_since, injection_error. simpl.
    destruct (exc_is_Exception e); inversion Hrun; subst; repeat split.
Qed.

(** A session that cannot be switched to CDP mode. *)
Lemma injection_failure_not_fatal_witness :
  let no_cdp :=
    Sample.failing
      (fun c => match c with sb_activate_cdp_mode _ _ => true | _ => false end)
      (Exception "CDP mode unavailable") in
  (forall w, exists u,
      fst (_apply_fingerprint_overrides no_cdp 1 Sample.p1 w) = Ok u)
  /\ events_since Sample.empty_world
       (snd (_apply_fingerprint_overrides no_cdp 1 Sample.p1
               Sample.empty_world))
       [EvPrint "⚠️ Error applying fingerprint overrides: CDP mode unavailable";
        EvCall (sb_activate_cdp_mode 1 "about:blank")
               (Some (Exception "CDP mode unavailable"))].
Proof.
  intros no_cdp. split.
  - apply (proj1 (injection_failure_not_fatal no_cdp 1 Sample.p1)).
    intros t c e. unfold no_cdp, Sample.failing. simpl.
    destruct c; intros H; inversion H; reflexivity.
  - exact (proj1 (proj2 (proj2 (injection_failure_not_fatal no_cdp 1 Sample.p1)
                           Sample.empty_world _ eq_refl))).
Defined.

(** ** The locale of a launch *)

(** The first piece of a split is the text before the first separator. *)
Lemma split_head (sep : ascii) (s : string) :
  exists piece pieces,
    PyStr.split sep s = piece :: pieces
    /\ PyStr.has_char sep piece = false
    /\ (s = piece \/ exists rest, s = (piece ++ String sep rest)%string).
Proof.
  induction s as [|c rest (piece & pieces & Hsplit & Hfree & Hshape)]; simpl.
  - exists EmptyString, []. repeat split. now left.
  - destruct (Ascii.eqb c sep) eqn:E.
    + apply Ascii.eqb_eq in E. subst c.
      exists EmptyString, (PyStr.split sep rest). repeat split.
      right. now exists rest.
    + rewrite Hsplit. exists (String c piece), pieces. simpl. rewrite E.
      repeat split; [exact Hfree|].
      destruct Hshape as [->|[rest' ->]]; [now left|].
      right. now exists rest'.
Qed.

(** X12. The locale a browser is launched with is "en-US" for a profile
    without language, and otherwise the text of the language column before
    its first comma: it never holds a comma, and the language is the locale
    itself or the locale followed by a comma and more. *)
Theorem locale_is_first_language_tag (profile : Profile) :
  (language profile = "" -> locale_of profile = "en-US")
  /\ (language profile <> "" ->
      PyStr.has_char "," (locale_of profile) = false
      /\ (language profile = locale_of profile
          \/ exists rest,
               language profile = (locale_of profile ++ "," ++ rest)%string)).
Proof.
  unfold locale_of. split.
  - intros ->. reflexivity.
  - intros Hne.
    assert (Ht : PyStr.truthy (language profile) = true)
      by (destruct (language profile); [congruence | reflexivity]).
    rewrite Ht.
    destruct (split_head "," (language profile))
      as (piece & pieces & Hsplit & Hfree & Hshape).
    rewrite Hsplit. simpl. split; [exact Hfree | exact Hshape].
Qed.

(** The language of "p1", and no language. *)
Lemma locale_is_first_language_tag_witness :
  locale_of Sample.p1 = "en-US"
  /\ PyStr.has_char "," (locale_of Sample.p1) = false
  /\ locale_of
       (mkProfile "p2" "Bare" "Linux" "" "" "" None None None None None None
                  None None None None None false)
     = "en-US".
Proof.
  split; [reflexivity|]. split.
  - apply (proj2 (locale_is_first_language_tag Sample.p1)). discriminate.
  - apply (proj1 (locale_is_first_language_tag
                    (mkProfile "p2" "Bare" "Linux" "" "" "" None None None None
                               None None None None None None None false))).
    reflexivity.
Defined.

(** * Properties of the fingerprint service *)

Section ChoiceFacts.
Context {RT : PyRuntime} (env : Env).

(** A choice from a sequence that is not empty gives one of its elements
    and costs one draw. *)
Lemma choice_ok {A} (seq : list A) w :
  seq <> [] ->
  exists x,
    In x seq
    /\ choice env seq w
       = (Ok x, mkWorld (running_profiles w) (clock w) (trace w)
                        (S (draws w))).
Proof.
  intros Hne. unfold choice.
  destruct (nth_error seq
              (Z.to_nat
                 (rand_raw env (draws w) mod Z.of_nat (List.length seq))))
    as [x|] eqn:Hnth.
  - exists x. split; [eapply nth_error_In; exact Hnth | reflexivity].
  - apply nth_error_None in Hnth.
    assert (0 < Z.of_nat (List.length seq))
      by (destruct seq; [congruence | simpl; lia]).
    pose proof (Z.mod_pos_bound (rand_raw env (draws w))
                  (Z.of_nat (List.length seq)) H).
    lia.
Qed.

Lemma bind_choice {A B} (seq : list A) (k : A -> M B) w :
  seq <> [] ->
  exists x,
    In x seq
    /\ bind (choice env seq) k w
       = k x (mkWorld (running_profiles w) (clock w) (trace w)
                      (S (draws w))).
Proof.
  intros Hne. destruct (choice_ok seq w Hne) as (x & Hin & Hrun).
  exists x. split; [exact Hin|]. unfold bind. now rewrite Hrun.
Qed.

End ChoiceFacts.

(** Takes the next [random.choice] of a generator that runs in the goal. *)
Ltac next_choice env x Hin :=
  match goal with
  | |- context [bind (choice env ?seq) ?k ?w] =>
      let Hrun := fresh "Hrun" in
      destruct (bind_choice env seq k w ltac:(discriminate))
        as (x & Hin & Hrun);
      rewrite Hrun; clear Hrun; cbv beta
  end.

(** ** Resolutions that launch *)

Lemma split_one (sep : ascii) (s : string) : forall b,
  PyStr.split sep s = [b] -> s = b.
Proof.
  induction s as [|c rest IH]; simpl; intros b H.
  - now inversion H.
  - destruct (Ascii.eqb c sep).
    + inversion H as [[Hb Hrest]]. now apply split_nonempty in Hrest.
    + pose proof (split_nonempty sep rest) as Hne.
      destruct (PyStr.split sep rest) as [|p ps]; [congruence|].
      inversion H; subst. now rewrite (IH p eq_refl).
Qed.

Lemma split_two (sep : ascii) (s : string) : forall a b,
  PyStr.split sep s = [a; b] -> s = (a ++ String sep b)%string.
Proof.
  induction s as [|c rest IH]; simpl; intros a b H; [discriminate|].
  destruct (Ascii.eqb c sep) eqn:E.
  - apply Ascii.eqb_eq in E. inversion H as [[Ha Hrest]]. subst.
    simpl. now rewrite (split_one _ _ _ Hrest).
  - pose proof (split_nonempty sep rest) as Hne.
    destruct (PyStr.split sep rest) as [|p ps]; [congruence|].
    inversion H; subst. simpl. now rewrite (IH p b eq_refl).
Qed.

Lemma resolution_launchable resolution :
  splits_in_two resolution = true -> launchable resolution.
Proof.
  unfold splits_in_two, launchable. intros H.
  destruct (PyStr.split "x" resolution) as [|width [|height [|third more]]]
    eqn:Hsplit; try discriminate.
  exists width, height. split; [now apply split_two|].
  intros profile dir extra Hres. apply build_well_formed.
  now rewrite Hres.
Qed.

(** ** Generated fingerprints *)

(** Runs a step of a generator that is not a choice. *)
Ltac pure_step :=
  unfold bind at 1, lift at 1;
  match goal with
  | |- context [dict_item ?d ?k] =>
      let v := eval vm_compute in (dict_item d k) in
      change (dict_item d k) with v
  end;
  cbv beta iota.

Section GeneratorFacts.
Context {RT : PyRuntime} (env : Env).

Lemma language_locale language_tags profile :
  In language_tags FingerprintService.LANGUAGES ->
  language profile = language_tags ->
  locale_of profile = "en-US" \/ locale_of profile = "en-GB".
Proof.
  unfold locale_of. intros Hin ->.
  repeat (destruct Hin as [<-|Hin]; [simpl; auto|]). destruct Hin.
Qed.

Lemma generate_windows_ok w :
  exists fingerprint w',
    FingerprintService.generate_windows_fingerprint env w
    = (Ok fingerprint, w')
    /\ text_of fingerprint "os" = Some "Windows 10"
    /\ coherent fingerprint /\ launches fingerprint.
Proof.
  unfold FingerprintService.generate_windows_fingerprint.
  next_choice env gpu_name Hgpu.
  assert (Hconfigs : exists configs,
             PyDict.get gpu_name FingerprintService.WEBGL_VENDORS
             = Some configs /\ configs <> []).
  { repeat (destruct Hgpu as [<-|Hgpu];
            [eexists; split; [reflexivity | discriminate]|]).
    destruct Hgpu. }
  destruct Hconfigs as (configs & Hget & Hne).
  unfold bind at 1, lift at 1, dict_item at 1. rewrite Hget. cbv beta iota.
  match goal with
  | |- context [bind (choice env configs) ?k ?w1] =>
      destruct (bind_choice env configs k w1 Hne) as ([vendor renderer] & Hin & Hrun);
      rewrite Hrun; clear Hrun; cbv beta zeta
  end.
  pure_step.
  next_choice env resolution Hres.
  next_choice env language_tags Hlang.
  next_choice env tz Htz.
  next_choice env cores Hcores.
  next_choice env memory Hmem.
  eexists. eexists. split; [reflexivity|]. split; [reflexivity|]. split.
  - exists "Windows 10"%string. eexists. exists vendor, renderer.
    repeat (split; [reflexivity|]). left.
    repeat (split; [reflexivity|]). now exists gpu_name, configs.
  - exists resolution, language_tags.
    repeat (split; [reflexivity|]). split.
    + apply resolution_launchable.
      repeat (destruct Hres as [<-|Hres]; [reflexivity|]). destruct Hres.
    + intros profile. now apply language_locale.
Qed.

Lemma generate_mac_ok w :
  exists fingerprint w',
    FingerprintService.generate_mac_fingerprint env w = (Ok fingerprint, w')
    /\ text_of fingerprint "os" = Some "Mac OS X 14.7.2"
    /\ coherent fingerprint /\ launches fingerprint.
Proof.
  unfold FingerprintService.generate_mac_fingerprint.
  pure_step.
  match goal with
  | |- context [bind (choice env ?seq) ?k ?w1] =>
      destruct (bind_choice env seq k w1 ltac:(discriminate))
        as ([vendor renderer] & Hin & Hrun);
      rewrite Hrun; clear Hrun; cbv beta zeta
  end.
  pure_step.
  next_choice env resolution Hres.
  next_choice env language_tags Hlang.
  next_choice env cores Hcores.
  next_choice env memory Hmem.
  eexists. eexists. split; [reflexivity|]. split; [reflexivity|]. split.
  - exists "Mac OS X 14.7.2"%string. eexists. exists vendor, renderer.
    repeat (split; [reflexivity|]). right.
    repeat (split; [reflexivity|]). split.
    + repeat (destruct Hin as [Hin|Hin]; [now inversion Hin|]). destruct Hin.
    + eexists. split; [reflexivity | exact Hin].
  - exists resolution, language_tags.
    repeat (split; [reflexivity|]). split.
    + apply resolution_launchable.
      repeat (destruct Hres as [<-|Hres]; [reflexivity|]). destruct Hres.
    + intros profile. now apply language_locale.
Qed.

End GeneratorFacts.

Section RandomFingerprint.
Context {RT : PyRuntime} (env : Env).

Lemma generate_random_ok w :
  exists fingerprint w',
    FingerprintService.generate_random env w = (Ok fingerprint, w')
    /\ coherent fingerprint /\ launches fingerprint.
Proof.
  unfold FingerprintService.generate_random.
  next_choice env os_type Hos.
  destruct Hos as [<-|[<-|[]]].
  - change (String.eqb "Windows" "Windows") with true. cbv iota.
    match goal with
    | |- context [FingerprintService.generate_windows_fingerprint env ?w1] =>
        destruct (generate_windows_ok env w1) as (fp & w' & Hrun & _ & Hfp)
    end.
    now exists fp, w'.
  - change (String.eqb "Mac" "Windows") with false. cbv iota.
    match goal with
    | |- context [FingerprintService.generate_mac_fingerprint env ?w1] =>
        destruct (generate_mac_ok env w1) as (fp & w' & Hrun & _ & Hfp)
    end.
    now exists fp, w'.
Qed.

End RandomFingerprint.

(** X13. [generate_random] never raises, and the fingerprint it returns
    fits together: its user agent is the one [get_user_agent_by_browser]
    gives for its operating system; a Windows fingerprint never carries an
    Apple GPU and a Mac one always does, vendor and renderer coming from
    the same table entry; and the manager maps its operating system to the
    platform that goes with it (Win32, MacIntel). The user agents of the
    predefined configurations are those of [get_user_agent_by_browser] for
    their operating system and browser as well. *)
Theorem generated_fingerprint_coherent {RT : PyRuntime} (env : Env)
    (w : World) :
  (exists fingerprint w',
      FingerprintService.generate_random env w = (Ok fingerprint, w')
      /\ coherent fingerprint)
  /\ exists configs,
       FingerprintService.get_predefined_configs = Ok configs
       /\ Forall
            (fun entry =>
               exists os_name browser agent,
                 PyDict.get "os" (snd entry) = Some os_name
                 /\ PyDict.get "browser" (snd entry) = Some browser
                 /\ PyDict.get "useragent" (snd entry) = Some agent
                 /\ agent
                    = FingerprintService.get_user_agent_by_browser
                        os_name browser "120.0.0.0")
            configs.
Proof.
  split.
  - destruct (generate_random_ok env w) as (fp & w' & Hrun & Hfp & _).
    now exists fp, w'.
  - eexists. split; [reflexivity|].
    repeat constructor; simpl;
      eexists; eexists; eexists; repeat (split; [reflexivity|]); reflexivity.
Qed.

(** X14. A profile filled from a generated fingerprint launches: its
    resolution is a width and a height around one [x], so that
    [_build_chrome_options] builds the window-size flag from them instead of
    raising, and the locale taken from its language is en-US or en-GB. The
    screens of the predefined configurations build as well. *)
Theorem generated_fingerprint_launches {RT : PyRuntime} (env : Env)
    (w : World) fingerprint w' :
  FingerprintService.generate_random env w = (Ok fingerprint, w') ->
  launches fingerprint
  /\ forall configs,
       FingerprintService.get_predefined_configs = Ok configs ->
       Forall
         (fun entry =>
            exists screen,
              PyDict.get "screen" (snd entry) = Some screen
              /\ launchable screen)
         configs.
Proof.
  intros Hrun. split.
  - destruct (generate_random_ok env w) as (fp & w1 & Hrun1 & _ & Hfp).
    rewrite Hrun in Hrun1. now inversion Hrun1; subst.
  - intros configs Hconfigs. inversion Hconfigs; subst.
    repeat constructor; simpl; eexists; (split; [reflexivity|]);
      apply resolution_launchable; reflexivity.
Qed.

(** The fingerprint drawn first from the stream of [Sample.quiet]. *)
Lemma generated_fingerprint_launches_witness :
  launches
    [ ("os", PStr "Mac OS X 14.7.2");
      ("browser", PStr "Chrome 120.0.0.0");
      ("user_agent",
       PStr "Mozilla/5.0 (Macintosh; Intel Mac OS X 10_15_7) AppleWebKit/537.36 (KHTML, like Gecko) Chrome/120.0.0.0 Safari/537.36");
      ("screen_resolution", PStr "2560x1440");
      ("language", PStr "en-US,en;q=0.9,es;q=0.8");
      ("timezone", PStr "America/Los_Angeles");
      ("cpu_cores", PInt 10);
      ("memory_gb", PInt 8);
      ("webgl_vendor", PStr "Apple");
      ("webgl_renderer",
       PStr "ANGLE (Apple, ANGLE Metal Renderer: Apple M1, Unspecified Version)");
      ("webrtc_mode", PStr "altered");
      ("canvas_mode", PStr "noise");
      ("audio_mode", PStr "noise") ].
Proof.
  assert (Hrun : fst (FingerprintService.generate_random Sample.quiet
                        Sample.empty_world)
                 = Ok [ ("os", PStr "Mac OS X 14.7.2");
      ("browser", PStr "Chrome 120.0.0.0");
      ("user_agent",
       PStr "Mozilla/5.0 (Macintosh; Intel Mac OS X 10_15_7) AppleWebKit/537.36 (KHTML, like Gecko) Chrome/120.0.0.0 Safari/537.36");
      ("screen_resolution", PStr "2560x1440");
      ("language", PStr "en-US,en;q=0.9,es;q=0.8");
      ("timezone", PStr "America/Los_Angeles");
      ("cpu_cores", PInt 10);
      ("memory_gb", PInt 8);
      ("webgl_vendor", PStr "Apple");
      ("webgl_renderer",
       PStr "ANGLE (Apple, ANGLE Metal Renderer: Apple M1, Unspecified Version)");
      ("webrtc_mode", PStr "altered");
      ("canvas_mode", PStr "noise");
      ("audio_mode", PStr "noise") ])
    by (vm_compute; reflexivity).
  exact (proj1 (generated_fingerprint_launches Sample.quiet
                  Sample.empty_world _ _ (run_eq _ _ _ Hrun))).
Defined.

(** * Properties of the interaction bridge *)

Section BridgeFacts.
Context {RT : PyRuntime} (sbenv : SbEnv).

(** The shape both methods share. *)
Lemma interaction_run profile_id (action : nat -> SbCall) b :
  let run :=
    sb_then (running_data profile_id) (fun data =>
    match data with
    | None => fun b => (Ok tt, b)
    | Some data =>
        let sb := sb_context data in
        sb_then (sb_call sbenv (sb_get_current_url sb)) (fun t =>
        sb_then (sb_call sbenv (sb_cdp_activate sb (current_url sbenv t)))
          (fun _ =>
        sb_then (sb_call sbenv (action sb)) (fun _ =>
        sb_then (sb_call sbenv (sb_cdp_reconnect sb)) (fun _ =>
        fun b => (Ok tt, b)))))
    end) b in
  match PyDict.get profile_id (running_profiles (manager b)) with
  | None => run = (Ok tt, b)
  | Some data =>
      fst run
      = first_raised (interaction sbenv (sb_clock b) (sb_context data)
                                  (action (sb_context data)))
      /\ sb_trace (snd run)
         = (interaction sbenv (sb_clock b) (sb_context data)
                        (action (sb_context data)) ++ sb_trace b)%list
      /\ manager (snd run) = manager b
  end.
Proof.
  cbv zeta.
  unfold sb_then, running_data, get_running_profile, bind, get_running, ret.
  simpl.
  destruct (PyDict.get profile_id (running_profiles (manager b)))
    as [data|]; [|reflexivity].
  unfold interaction, sb_call, first_raised. simpl.
  destruct (sb_fails sbenv (sb_clock b) (sb_get_current_url (sb_context data)));
    simpl; [repeat split|].
  destruct (sb_fails sbenv (S (sb_clock b))
              (sb_cdp_activate (sb_context data)
                               (current_url sbenv (sb_clock b))));
    simpl; [repeat split|].
  destruct (sb_fails sbenv (S (S (sb_clock b))) (action (sb_context data)));
    simpl; [repeat split|].
  destruct (sb_fails sbenv (S (S (S (sb_clock b))))
              (sb_cdp_reconnect (sb_context data)));
    simpl; repeat split.
Qed.

Lemma cdp_click_run profile_id selector b :
  match PyDict.get profile_id (running_profiles (manager b)) with
  | None => cdp_click sbenv profile_id selector b = (Ok tt, b)
  | Some data =>
      fst (cdp_click sbenv profile_id selector b)
      = first_raised (interaction sbenv (sb_clock b) (sb_context data)
                        (sb_cdp_click (sb_context data) selector))
      /\ sb_trace (snd (cdp_click sbenv profile_id selector b))
         = (interaction sbenv (sb_clock b) (sb_context data)
              (sb_cdp_click (sb_context data) selector) ++ sb_trace b)%list
      /\ manager (snd (cdp_click sbenv profile_id selector b)) = manager b
  end.
Proof.
  exact (interaction_run profile_id (fun sb => sb_cdp_click sb selector) b).
Qed.

Lemma cdp_type_run profile_id selector text b :
  match PyDict.get profile_id (running_profiles (manager b)) with
  | None => cdp_type sbenv profile_id selector text b = (Ok tt, b)
  | Some data =>
      fst (cdp_type sbenv profile_id selector text b)
      = first_raised (interaction sbenv (sb_clock b) (sb_context data)
                        (sb_cdp_type (sb_context data) selector text))
      /\ sb_trace (snd (cdp_type sbenv profile_id selector text b))
         = (interaction sbenv (sb_clock b) (sb_context data)
              (sb_cdp_type (sb_context data) selector text)
              ++ sb_trace b)%list
      /\ manager (snd (cdp_type sbenv profile_id selector text b)) = manager b
  end.
Proof.
  exact (interaction_run profile_id
           (fun sb => sb_cdp_type sb selector text) b).
Qed.

End BridgeFacts.

(** X15. [cdp_click] and [cdp_type] do nothing at all for an id that is not
    registered. For a registered session they read its address, switch CDP
    mode on for that address, click or type, and reconnect the driver, in
    this order; the first call that raises ends the method with that
    exception, so that a click that fails is not followed by the reconnect.
    The manager's state is never changed. *)
Theorem bridge_interaction {RT : PyRuntime} (sbenv : SbEnv) profile_id
    selector text b :
  (PyDict.get profile_id (running_profiles (manager b)) = None ->
   cdp_click sbenv profile_id selector b = (Ok tt, b)
   /\ cdp_type sbenv profile_id selector text b = (Ok tt, b))
  /\ (forall data,
         PyDict.get profile_id (running_profiles (manager b)) = Some data ->
         let sb := sb_context data in
         let clicked := interaction sbenv (sb_clock b) sb
                                    (sb_cdp_click sb selector) in
         let typed := interaction sbenv (sb_clock b) sb
                                  (sb_cdp_type sb selector text) in
         (fst (cdp_click sbenv profile_id selector b) = first_raised clicked
          /\ sb_trace (snd (cdp_click sbenv profile_id selector b))
             = (clicked ++ sb_trace b)%list
          /\ manager (snd (cdp_click sbenv profile_id selector b))
             = manager b)
         /\ (fst (cdp_type sbenv profile_id selector text b)
             = first_raised typed
             /\ sb_trace (snd (cdp_type sbenv profile_id selector text b))
                = (typed ++ sb_trace b)%list
             /\ manager (snd (cdp_type sbenv profile_id selector text b))
                = manager b)
         /\ forall e,
              sb_fails sbenv (sb_clock b) (sb_get_current_url sb) = None ->
              sb_fails sbenv (S (sb_clock b))
                       (sb_cdp_activate sb (current_url sbenv (sb_clock b)))
              = None ->
              sb_fails sbenv (S (S (sb_clock b))) (sb_cdp_click sb selector)
              = Some e ->
              first_raised clicked = Raise e
              /\ ~ In (sb_cdp_reconnect sb) (map fst clicked)).
Proof.
  pose proof (cdp_click_run sbenv profile_id selector b) as Hclick.
  pose proof (cdp_type_run sbenv profile_id selector text b) as Htype.
  split.
  - intros Hnone. rewrite Hnone in Hclick, Htype. now split.
  - intros data Hdata. rewrite Hdata in Hclick, Htype. cbv zeta.
    split; [exact Hclick|]. split; [exact Htype|].
    intros e Hurl Hactivate Hfail.
    unfold interaction. rewrite Hurl, Hactivate, Hfail. split; [reflexivity|].
    simpl. intros [H|[H|[H|H]]]; try discriminate. exact H.
Qed.

(** A click on an element that is not there, in session "p1", and a click
    for "p3", which is not registered. *)
Lemma bridge_interaction_witness :
  let browser :=
    mkSbEnv (fun _ c => match c with
                        | sb_cdp_click _ _ =>
                            Some (Exception "element not found")
                        | _ => None
                        end)
            (fun _ => "https://a.example") in
  let b := mkBridge Sample.two_sessions 0 [] in
  cdp_click browser "p3" "#go" b = (Ok tt, b)
  /\ fst (cdp_click browser "p1" "#go" b)
     = Raise (Exception "element not found")
  /\ sb_trace (snd (cdp_click browser "p1" "#go" b))
     = [ (sb_cdp_click 1 "#go", Some (Exception "element not found"));
         (sb_cdp_activate 1 "https://a.example", None);
         (sb_get_current_url 1, None) ].
Proof.
  intros browser b.
  destruct (bridge_interaction browser "p3" "#go" "" b) as [Habsent _].
  destruct (bridge_interaction browser "p1" "#go" "" b) as [_ Hpresent].
  destruct (Hpresent (Sample.handle 1 4242) eq_refl)
    as ((Hres & Htrace & _) & _ & _).
  split; [exact (proj1 (Habsent eq_refl))|].
  split; [exact Hres | exact Htrace].
Defined.
